(** * dont-go-broke: the financial state and decision engine

    A shallow embedding of the stores and services of the application
    (the zustand stores [appStore], [notificationStore], [suggestionsStore],
    the persistence middleware, [NotificationService], [AchievementService]
    and the mock AI service), followed by the properties checked against
    them.

    Modelling conventions.
    - A JavaScript [number] is an IEEE 754 binary64 value: the standard
      library's [spec_float] with 53 bits of precision, with its correctly
      rounded operations, [NaN], the infinities and the two zeros.
    - A [Date] is its epoch time in milliseconds ([Z]).  A date field that went
      through [JSON.stringify]/[JSON.parse] is an ISO string, not a [Date]; the
      two are told apart by [DateValue].  Time values are whole numbers of
      milliseconds below 2^53; the sums, differences and day quotients the
      source takes of them are computed exactly.
    - [new Date()] and [generateId()] read the environment: every operation
      takes the current time [now] and, where it creates a record, the fresh id
      as arguments.
    - Calls that leave a store (push delivery, calls into another store or into
      the achievement service) are recorded, in call order, in an effect log.
    - appStore.ts imports [AchievementService] only.  The names
      [NotificationService], [useNotificationStore], [createSalaryNotification]
      and [createBigSpendNotification] are bound nowhere in that module, so
      evaluating one of them throws a ReferenceError, which the [catch] of the
      surrounding action turns into the stored [error].
    - Display payloads built by string interpolation ([message],
      [description], [actionData], [tags]), the emoji prefixes of titles, the
      [user] profile and the [isLoading] and [error] fields of the notification
      and suggestion stores are read by none of the modelled functions and are
      left out. *)

From Stdlib Require Import QArith Qminmax Qround Qabs Qpower ZArith List String Bool Lia Lqa.
From Stdlib Require Import DecimalString SpecFloat.
Import ListNotations.

Open Scope string_scope.
Open Scope list_scope.
Open Scope Z_scope.

(** ** JavaScript numbers: IEEE 754 binary64 *)

Module Js.

Abbreviation number := spec_float.

Definition prec : Z := 53.
Definition emax : Z := 1024.

Definition NaN : number := S754_nan.

(** The number a whole number converts to (an integer literal, [array.length],
    a count): the nearest double. *)
Definition ofZ (z : Z) : number := binary_normalize prec emax z 0 false.

Definition add (x y : number) : number := SFadd prec emax x y.
Definition sub (x y : number) : number := SFsub prec emax x y.
Definition mul (x y : number) : number := SFmul prec emax x y.
Definition div (x y : number) : number := SFdiv prec emax x y.

(** A decimal literal such as [0.85], written [frac 85 100]: the double
    nearest to the quotient, which is what the correctly rounded division of
    the two exactly represented whole numbers yields. *)
Definition frac (n d : Z) : number := div (ofZ n) (ofZ d).

(** [x < y], [x > y], [x <= y], [x >= y], [x === y]: false when an operand is
    [NaN]; the two zeros are equal. *)
Definition ltb (x y : number) : bool := SFltb x y.
Definition gtb (x y : number) : bool := SFltb y x.
Definition leb (x y : number) : bool := SFleb x y.
Definition geb (x y : number) : bool := SFleb y x.
Definition eqb (x y : number) : bool := SFeqb x y.

Definition isNaN (x : number) : bool :=
  match x with
  | S754_nan => true
  | _ => false
  end.

Definition isPositiveZero (x : number) : bool :=
  match x with
  | S754_zero false => true
  | _ => false
  end.

Definition isNegativeZero (x : number) : bool :=
  match x with
  | S754_zero true => true
  | _ => false
  end.

(** [Math.max(x, y)]: [NaN] when an argument is [NaN]; [+0] counts as larger
    than [-0]. *)
Definition Math_max (x y : number) : number :=
  if isNaN x || isNaN y then NaN
  else if ltb x y || (isPositiveZero y && isNegativeZero x) then y
  else x.

Definition Math_min (x y : number) : number :=
  if isNaN x || isNaN y then NaN
  else if ltb y x || (isNegativeZero y && isPositiveZero x) then y
  else x.

(** The whole number [n] as a result of [Math.floor], [Math.ceil] or
    [Math.round] on an argument of sign [s]: a zero takes the sign of the
    argument. *)
Definition integral (s : bool) (n : Z) : number :=
  match n with
  | Z0 => S754_zero s
  | _ => ofZ n
  end.

(** [Math.floor(x)].  A finite double is [m * 2^e]; with [e >= 0] it is a
    whole number already. *)
Definition Math_floor (x : number) : number :=
  match x with
  | S754_finite s m e =>
      if 0 <=? e then x
      else integral s (Z.shiftr (cond_Zopp s (Zpos m)) (- e))
  | _ => x
  end.

Definition Math_ceil (x : number) : number :=
  match x with
  | S754_finite s m e =>
      if 0 <=? e then x
      else integral s (- Z.shiftr (- cond_Zopp s (Zpos m)) (- e))
  | _ => x
  end.

(** [Math.round(x)]: the nearest whole number, half-way cases towards plus
    infinity, that is [floor(x + 1/2)] taken exactly. *)
Definition Math_round (x : number) : number :=
  match x with
  | S754_finite s m e =>
      if 0 <=? e then x
      else integral s (Z.shiftr (2 * cond_Zopp s (Zpos m) + 2 ^ (- e)) (- e + 1))
  | _ => x
  end.

(** [xs.reduce((sum, x) => sum + f(x), 0)] *)
Definition reduce_sum {A : Type} (f : A -> number) (xs : list A) : number :=
  fold_left (fun sum x => add sum (f x)) xs (ofZ 0).

(** [xs.find(p)] *)
Definition find {A : Type} (p : A -> bool) (xs : list A) : option A :=
  List.find p xs.

(** The rational a finite number stands for (0 for [NaN] and the
    infinities, which stand for none). *)
Definition value (x : number) : Q :=
  match x with
  | S754_finite s m e => inject_Z (cond_Zopp s (Zpos m)) * Qpower 2 e
  | _ => 0%Q
  end.

Definition isFinite (x : number) : bool :=
  match x with
  | S754_zero _ | S754_finite _ _ _ => true
  | _ => false
  end.

End Js.

Coercion Js.ofZ : Z >-> spec_float.

(** ** Whole milliseconds

    Arithmetic on time values, which is exact. *)

Module Exact.

(** [Math.ceil] of a quotient of two time values, a whole number. *)
Definition Math_ceil (x : Q) : Z := Qceiling x.

End Exact.

(** ** Dates *)

Inductive DateValue : Type :=
| DateObj (ms : Z)    (** a [Date] object *)
| DateIso (ms : Z).   (** the ISO string [new Date(ms).toISOString()] *)

Definition msPerDay : Z := 24 * 60 * 60 * 1000.

(** [d >= t] for a [Date] [t].  Two dates compare by their time value.  A
    string operand is converted with [Number], and an ISO date string is not a
    numeric literal: the comparison is against [NaN] and is false. *)
Definition date_geb (d : DateValue) (t : Z) : bool :=
  match d with
  | DateObj ms => (t <=? ms)%Z
  | DateIso _ => false
  end.

(** [new Date(d).getTime()]: a [Date] is copied and an ISO string is parsed
    back to the instant it was written from. *)
Definition date_ms (d : DateValue) : Z :=
  match d with
  | DateObj ms => ms
  | DateIso ms => ms
  end.

(** ** Completions

    A call either returns a value or throws; what is thrown here is always an
    [Error], of which the [catch] blocks read the [message]. *)

Inductive Completion (A : Type) : Type :=
| Normal (value : A)
| Throw (message : string).

Arguments Normal {A} value.
Arguments Throw {A} message.

(** The message of the ReferenceError for a name that is bound nowhere (the
    wording is V8's). *)
Definition notDefined (name : string) : string := name ++ " is not defined".

(** ** Enumerations (types/enums.ts, types/suggestions.ts) *)

Inductive FuelLevel := FULL | HIGH | MEDIUM | LOW | CRITICAL | EMPTY.

Inductive NotificationType :=
| FUEL_LOW | FUEL_EMPTY | BIG_SPEND | ACHIEVEMENT
| SALARY_RECEIVED | BILL_DUE | SUGGESTION | DAILY_REMINDER.

Inductive NotificationPriority := P_LOW | P_NORMAL | P_HIGH | P_URGENT.

Inductive ExpenseSource := manual | sms | recurring.

Inductive SalaryFrequency := monthly | weekly | biweekly.

Inductive BillFrequency := bill_monthly | bill_weekly | bill_yearly.

Definition FuelLevel_eqb (a b : FuelLevel) : bool :=
  match a, b with
  | FULL, FULL | HIGH, HIGH | MEDIUM, MEDIUM
  | LOW, LOW | CRITICAL, CRITICAL | EMPTY, EMPTY => true
  | _, _ => false
  end.

Definition NotificationPriority_eqb (a b : NotificationPriority) : bool :=
  match a, b with
  | P_LOW, P_LOW | P_NORMAL, P_NORMAL | P_HIGH, P_HIGH | P_URGENT, P_URGENT => true
  | _, _ => false
  end.

Definition ExpenseSource_eqb (a b : ExpenseSource) : bool :=
  match a, b with
  | manual, manual | sms, sms | recurring, recurring => true
  | _, _ => false
  end.

(** ** Notification records (types/enums.ts) *)

Record NotificationInput := {
  ni_type : NotificationType;
  ni_title : string;
  ni_priority : option NotificationPriority
}.

Record AppNotification := {
  n_id : string;
  n_type : NotificationType;
  n_title : string;
  n_priority : NotificationPriority;
  n_isRead : bool;
  n_createdAt : Z
}.

(** ** The effect log *)

Inductive AchievementCheck :=
| CheckEmergencyFund | CheckExpenseLogger | CheckBillTracker | RunAchievementChecks.

Inductive Effect :=
| SendImmediate (title kind : string)
    (** [NotificationService.sendImmediateNotification(title, _, {type: kind})] *)
| CancelAllScheduled
    (** [NotificationService.cancelAllNotifications()] *)
| AddNotification (input : NotificationInput)
    (** [useNotificationStore.getState().addNotification(input)] *)
| AchievementCall (check : AchievementCheck).
    (** a call into [AchievementService] *)

Definition Eff (A : Type) : Type := (A * list Effect)%type.

Definition ret {A : Type} (a : A) : Eff A := (a, []).

Definition bind {A B : Type} (m : Eff A) (k : A -> Eff B) : Eff B :=
  let (a, log1) := m in
  let (b, log2) := k a in
  (b, log1 ++ log2).

Definition emit (e : Effect) : Eff unit := (tt, [e]).

Definition result {A : Type} (m : Eff A) : A := fst m.
Definition effects {A : Type} (m : Eff A) : list Effect := snd m.

Notation "x <- m ;; k" := (bind m (fun x => k))
  (at level 61, m at next level, right associativity).
Notation "m ;;; k" := (bind m (fun _ => k))
  (at level 61, right associativity).

(** ** The ledger (types/core.ts) *)

Record SalaryData := {
  sal_amount : Js.number;
  sal_frequency : SalaryFrequency;
  sal_lastUpdated : DateValue;
  sal_nextSalaryDate : DateValue;
  sal_recurringBillsDeducted : Js.number
}.

Record Expense := {
  exp_id : string;
  exp_amount : Js.number;
  exp_category : string;
  exp_description : string;
  exp_date : DateValue;
  exp_source : ExpenseSource;
  exp_createdAt : DateValue;
  exp_updatedAt : DateValue
}.

Record ExpenseInput := {
  ei_amount : Js.number;
  ei_category : string;
  ei_description : string;
  ei_date : option DateValue;
  ei_source : option ExpenseSource
}.

Record RecurringBill := {
  bill_id : string;
  bill_name : string;
  bill_amount : Js.number;
  bill_frequency : BillFrequency;
  bill_nextDueDate : DateValue;
  bill_category : string;
  bill_autoDeduct : bool;
  bill_isActive : bool;
  bill_createdAt : DateValue;
  bill_updatedAt : DateValue
}.

Record FuelStatus := {
  fs_level : FuelLevel;
  fs_percentage : Js.number;
  fs_daysRemaining : Js.number;
  fs_color : string;
  fs_warningMessage : option string
}.

(** ** appStore.ts *)

Record AppState := {
  salary : option SalaryData;
  expenses : list Expense;
  recurringBills : list RecurringBill;
  currentBalance : Js.number;
  daysRemaining : Js.number;
  averageDailySpend : Js.number;
  fuelStatus : FuelStatus;
  isLoading : bool;
  error : option string
}.

Definition getFuelLevel (percentage : Js.number) : FuelLevel :=
  if Js.gtb percentage 75 then FULL
  else if Js.gtb percentage 50 then HIGH
  else if Js.gtb percentage 25 then MEDIUM
  else if Js.gtb percentage 10 then LOW
  else if Js.gtb percentage 5 then CRITICAL
  else EMPTY.

Definition getFuelColor (level : FuelLevel) : string :=
  match level with
  | FULL | HIGH => "#22c55e"
  | MEDIUM => "#f59e0b"
  | LOW => "#ef4444"
  | CRITICAL | EMPTY => "#991b1b"
  end.

Definition initialState : AppState := {|
  salary := None;
  expenses := [];
  recurringBills := [];
  currentBalance := 0;
  daysRemaining := 0;
  averageDailySpend := 0;
  fuelStatus := {| fs_level := EMPTY; fs_percentage := 0; fs_daysRemaining := 0;
                   fs_color := getFuelColor EMPTY; fs_warningMessage := None |};
  isLoading := false;
  error := None
|}.

(** *** Calculations *)

Definition calculateBalance (state : AppState) : Js.number :=
  match salary state with
  | None => 0
  | Some sal =>
      let totalExpenses := Js.reduce_sum exp_amount (expenses state) in
      let recurringBillsTotal :=
        Js.reduce_sum bill_amount
          (filter (fun bill => bill_isActive bill && bill_autoDeduct bill)
                  (recurringBills state)) in
      Js.Math_max 0 (Js.sub (Js.sub (sal_amount sal) totalExpenses) recurringBillsTotal)
  end.

Definition calculateAverageDailySpend (now : Z) (state : AppState) : Js.number :=
  if (List.length (expenses state) =? 0)%nat then 0
  else
    let thirtyDaysAgo := now - 30 * 24 * 60 * 60 * 1000 in
    let recentExpenses :=
      filter (fun expense =>
                date_geb (exp_date expense) thirtyDaysAgo
                && negb (ExpenseSource_eqb (exp_source expense) recurring))
             (expenses state) in
    if (List.length recentExpenses =? 0)%nat then 0
    else
      let totalAmount := Js.reduce_sum exp_amount recentExpenses in
      let daysDiff :=
        Z.max 1
          (Exact.Math_ceil (inject_Z (now - thirtyDaysAgo) / inject_Z (24 * 60 * 60 * 1000))) in
      Js.div totalAmount daysDiff.

Definition calculateDaysRemaining (now : Z) (state : AppState) : Js.number :=
  let balance := calculateBalance state in
  let avgDailySpend := calculateAverageDailySpend now state in
  if Js.eqb avgDailySpend 0 then (if Js.gtb balance 0 then 999 else 0)
  else Js.Math_floor (Js.div balance avgDailySpend).

(** [calculateFuelStatus].  When the level it computes differs from the
    stored one it evaluates [NotificationService.generateFuelNotifications()],
    and [NotificationService] is not bound in appStore.ts. *)
Definition calculateFuelStatus (now : Z) (state : AppState) : Completion FuelStatus :=
  match salary state with
  | None =>
      Normal {| fs_level := EMPTY; fs_percentage := 0; fs_daysRemaining := 0;
                fs_color := getFuelColor EMPTY;
                fs_warningMessage := Some "Please set your salary first" |}
  | Some sal =>
      let balance := calculateBalance state in
      let percentage :=
        Js.Math_max 0 (Js.Math_min 100 (Js.mul (Js.div balance (sal_amount sal)) 100)) in
      let level := getFuelLevel percentage in
      let daysRemaining := calculateDaysRemaining now state in
      let warningMessage :=
        match level with
        | EMPTY => Some "Emergency! Refuel immediately!"
        | CRITICAL => Some "Critical fuel level! Take action soon."
        | LOW => Some "Low fuel warning! Plan your expenses carefully."
        | _ => None
        end in
      let previousFuelStatus := fuelStatus state in
      if negb (FuelLevel_eqb (fs_level previousFuelStatus) level)
      then Throw (notDefined "NotificationService")
      else
        Normal {| fs_level := level; fs_percentage := Js.Math_round percentage;
                  fs_daysRemaining := daysRemaining; fs_color := getFuelColor level;
                  fs_warningMessage := warningMessage |}
  end.

(** *** State updates ([set] with a partial state) *)

Definition set_loading (loading : bool) (err : option string) (s : AppState) : AppState :=
  {| salary := salary s; expenses := expenses s; recurringBills := recurringBills s;
     currentBalance := currentBalance s; daysRemaining := daysRemaining s;
     averageDailySpend := averageDailySpend s; fuelStatus := fuelStatus s;
     isLoading := loading; error := err |}.

Definition set_isLoading (loading : bool) (s : AppState) : AppState :=
  set_loading loading (error s) s.

Definition set_error (err : option string) (s : AppState) : AppState :=
  set_loading (isLoading s) err s.

Definition set_expenses (es : list Expense) (s : AppState) : AppState :=
  {| salary := salary s; expenses := es; recurringBills := recurringBills s;
     currentBalance := currentBalance s; daysRemaining := daysRemaining s;
     averageDailySpend := averageDailySpend s; fuelStatus := fuelStatus s;
     isLoading := isLoading s; error := error s |}.

Definition set_recurringBills (bills : list RecurringBill) (s : AppState) : AppState :=
  {| salary := salary s; expenses := expenses s; recurringBills := bills;
     currentBalance := currentBalance s; daysRemaining := daysRemaining s;
     averageDailySpend := averageDailySpend s; fuelStatus := fuelStatus s;
     isLoading := isLoading s; error := error s |}.

Definition set_derived (balance days avg : Js.number) (fs : FuelStatus) (s : AppState)
    : AppState :=
  {| salary := salary s; expenses := expenses s; recurringBills := recurringBills s;
     currentBalance := balance; daysRemaining := days;
     averageDailySpend := avg; fuelStatus := fs;
     isLoading := isLoading s; error := error s |}.

(** [set({ currentBalance, daysRemaining, fuelStatus })]: the bill actions
    leave [averageDailySpend] as it is. *)
Definition set_derived3 (balance days : Js.number) (fs : FuelStatus) (s : AppState)
    : AppState :=
  {| salary := salary s; expenses := expenses s; recurringBills := recurringBills s;
     currentBalance := balance; daysRemaining := days;
     averageDailySpend := averageDailySpend s; fuelStatus := fs;
     isLoading := isLoading s; error := error s |}.

Definition set_salary (sal : SalaryData) (s : AppState) : AppState :=
  {| salary := Some sal; expenses := expenses s; recurringBills := recurringBills s;
     currentBalance := currentBalance s; daysRemaining := daysRemaining s;
     averageDailySpend := averageDailySpend s; fuelStatus := fuelStatus s;
     isLoading := isLoading s; error := error s |}.

(** *** Actions of the store

    An action runs against the store, may request effects and may throw.  A
    [Step] is where it stands afterwards. *)

Record Step (A : Type) := mkStep {
  completion : Completion A;
  store : AppState;
  requested : list Effect
}.

Arguments mkStep {A} completion store requested.
Arguments completion {A} s.
Arguments store {A} s.
Arguments requested {A} s.

Definition Action (A : Type) : Type := AppState -> Step A.

Definition pure {A : Type} (a : A) : Action A :=
  fun s => mkStep (Normal a) s [].

Definition andThen {A B : Type} (m : Action A) (k : A -> Action B) : Action B :=
  fun s =>
    let r := m s in
    match completion r with
    | Throw message => mkStep (Throw message) (store r) (requested r)
    | Normal a =>
        let r' := k a (store r) in
        mkStep (completion r') (store r') (requested r ++ requested r')
    end.

Notation "x <-- m ;; k" := (andThen m (fun x => k))
  (at level 61, m at next level, right associativity).
Notation "m >>> k" := (andThen m (fun _ => k))
  (at level 61, right associativity).

(** [get()] *)
Definition getState : Action AppState :=
  fun s => mkStep (Normal s) s [].

(** [set(partial)] *)
Definition setState (partial : AppState -> AppState) : Action unit :=
  fun s => mkStep (Normal tt) (partial s) [].

(** A call that leaves the store. *)
Definition request (e : Effect) : Action unit :=
  fun s => mkStep (Normal tt) s [e].

(** The evaluation of an expression that may throw. *)
Definition evaluate {A : Type} (c : Completion A) : Action A :=
  fun s => mkStep c s [].

(** The evaluation of a name that is bound nowhere in the module. *)
Definition unbound {A : Type} (name : string) : Action A :=
  evaluate (Throw (notDefined name)).

(** [try { body } catch (error) { handler(error.message) } finally { final }] *)
Definition tryCatchFinally (body : Action unit) (handler : string -> Action unit)
    (final : Action unit) : Action unit :=
  fun s =>
    let r := body s in
    let r1 :=
      match completion r with
      | Normal _ => r
      | Throw message =>
          let h := handler message (store r) in
          mkStep (completion h) (store h) (requested r ++ requested h)
      end in
    let f := final (store r1) in
    mkStep (match completion f with
            | Throw message => Throw message
            | Normal _ => completion r1
            end)
           (store f) (requested r1 ++ requested f).

(** The state an action leaves in the store and the effects it requested. *)
Definition run (action : Action unit) (s : AppState) : Eff AppState :=
  (store (action s), requested (action s)).

(** The object literal
    [{ currentBalance: get().calculateBalance(), daysRemaining: ...,
       averageDailySpend: ..., fuelStatus: get().calculateFuelStatus() }]
    is evaluated before [set] runs: the calculators see the store as it is
    before this [set], and when [calculateFuelStatus] throws, [set] is not
    called. *)
Definition derivedValues (now : Z) : Action (AppState -> AppState) :=
  state <-- getState ;;
  let balance := calculateBalance state in
  let days := calculateDaysRemaining now state in
  let avg := calculateAverageDailySpend now state in
  fs <-- evaluate (calculateFuelStatus now state) ;;
  pure (set_derived balance days avg fs).

(** The same for [{ currentBalance, daysRemaining, fuelStatus }]. *)
Definition derivedValues3 (now : Z) : Action (AppState -> AppState) :=
  state <-- getState ;;
  let balance := calculateBalance state in
  let days := calculateDaysRemaining now state in
  fs <-- evaluate (calculateFuelStatus now state) ;;
  pure (set_derived3 balance days fs).

(** *** Notification templates (notificationStore.ts) *)

Definition createFuelLowNotification : NotificationInput :=
  {| ni_type := FUEL_LOW; ni_title := "Low Fuel Warning!"; ni_priority := Some P_HIGH |}.

Definition createBigSpendNotification : NotificationInput :=
  {| ni_type := BIG_SPEND; ni_title := "Big Spend Alert!"; ni_priority := Some P_HIGH |}.

Definition createAchievementNotification : NotificationInput :=
  {| ni_type := ACHIEVEMENT; ni_title := "Achievement Unlocked!"; ni_priority := Some P_NORMAL |}.

Definition createSalaryNotification : NotificationInput :=
  {| ni_type := SALARY_RECEIVED; ni_title := "Salary Received!"; ni_priority := Some P_NORMAL |}.

(** The [catch] and [finally] blocks every action of the store ends with. *)
Definition storeError (message : string) : Action unit :=
  setState (set_error (Some message)).

Definition clearLoading : Action unit :=
  setState (set_isLoading false).

(** [nextSalaryDate] is the date the host calendar computes from [now] and the
    frequency ([setDate]/[setMonth]); it is passed in. *)
Definition setSalary (now nextSalaryDate : Z) (amount : Js.number)
    (frequency : SalaryFrequency) : AppState -> Eff AppState :=
  run (
    setState (set_loading true None) >>>
    tryCatchFinally
      (state <-- getState ;;
       let recurringBillsTotal :=
         Js.reduce_sum bill_amount
           (filter (fun bill => bill_isActive bill && bill_autoDeduct bill)
                   (recurringBills state)) in
       let newSalary :=
         {| sal_amount := amount; sal_frequency := frequency;
            sal_lastUpdated := DateObj now; sal_nextSalaryDate := DateObj nextSalaryDate;
            sal_recurringBillsDeducted := recurringBillsTotal |} in
       derived <-- derivedValues now ;;
       setState (fun s => derived (set_salary newSalary s)) >>>
       (* Send salary notification *)
       notification <-- unbound (A := NotificationInput) "createSalaryNotification" ;;
       request (AddNotification notification) >>>
       (* Check achievements *)
       request (AchievementCall CheckEmergencyFund) >>>
       request (AchievementCall RunAchievementChecks))
      storeError
      clearLoading).

(** The expense record [addExpense] builds from its input. *)
Definition expenseOfInput (now : Z) (id : string) (expenseInput : ExpenseInput) : Expense :=
  {| exp_id := id;
     exp_amount := ei_amount expenseInput;
     exp_category := ei_category expenseInput;
     exp_description := ei_description expenseInput;
     exp_date := match ei_date expenseInput with Some d => d | None => DateObj now end;
     exp_source := match ei_source expenseInput with Some src => src | None => manual end;
     exp_createdAt := DateObj now;
     exp_updatedAt := DateObj now |}.

Definition addExpense (now : Z) (id : string) (expenseInput : ExpenseInput)
    : AppState -> Eff AppState :=
  run (
    setState (set_loading true None) >>>
    tryCatchFinally
      (let expense := expenseOfInput now id expenseInput in
       setState (fun state => set_expenses (expenses state ++ [expense]) state) >>>
       (* Send big spend alert if needed *)
       state <-- getState ;;
       let currentBalance := currentBalance state in
       let previousDays := daysRemaining state in
       (* Recalculate derived values *)
       derived <-- derivedValues now ;;
       setState derived >>>
       (* Check if this is a big spend (more than 10% of current balance) *)
       (if Js.gtb (exp_amount expense) (Js.mul currentBalance (Js.frac 1 10))
        then
          notification <-- unbound (A := NotificationInput) "createBigSpendNotification" ;;
          request (AddNotification notification)
        else pure tt) >>>
       (* Send notification through NotificationService *)
       unbound (A := unit) "NotificationService" >>>
       (* Check achievements *)
       request (AchievementCall CheckExpenseLogger) >>>
       request (AchievementCall RunAchievementChecks))
      storeError
      clearLoading).

(** A [Partial<Expense>]: the keys that are present.  A key that is present
    with the value [undefined] is not modelled. *)
Record ExpensePatch := {
  pe_id : option string;
  pe_amount : option Js.number;
  pe_category : option string;
  pe_description : option string;
  pe_date : option DateValue;
  pe_source : option ExpenseSource;
  pe_createdAt : option DateValue;
  pe_updatedAt : option DateValue
}.

Definition patched {A : Type} (old : A) (new : option A) : A :=
  match new with
  | Some v => v
  | None => old
  end.

(** [{ ...expense, ...updates, updatedAt: new Date() }] *)
Definition applyExpenseUpdates (now : Z) (updates : ExpensePatch) (expense : Expense)
    : Expense :=
  {| exp_id := patched (exp_id expense) (pe_id updates);
     exp_amount := patched (exp_amount expense) (pe_amount updates);
     exp_category := patched (exp_category expense) (pe_category updates);
     exp_description := patched (exp_description expense) (pe_description updates);
     exp_date := patched (exp_date expense) (pe_date updates);
     exp_source := patched (exp_source expense) (pe_source updates);
     exp_createdAt := patched (exp_createdAt expense) (pe_createdAt updates);
     exp_updatedAt := DateObj now |}.

Definition updateExpense (now : Z) (id : string) (updates : ExpensePatch)
    : AppState -> Eff AppState :=
  run (
    setState (set_loading true None) >>>
    tryCatchFinally
      (setState (fun state =>
                   set_expenses
                     (map (fun expense =>
                             if String.eqb (exp_id expense) id
                             then applyExpenseUpdates now updates expense
                             else expense)
                          (expenses state)) state) >>>
       (* Recalculate derived values *)
       derived <-- derivedValues now ;;
       setState derived)
      storeError
      clearLoading).

Definition deleteExpense (now : Z) (id : string) : AppState -> Eff AppState :=
  run (
    setState (set_loading true None) >>>
    tryCatchFinally
      (setState (fun state =>
                   set_expenses
                     (filter (fun expense => negb (String.eqb (exp_id expense) id))
                             (expenses state)) state) >>>
       (* Recalculate derived values *)
       derived <-- derivedValues now ;;
       setState derived)
      storeError
      clearLoading).

Record RecurringBillInput := {
  bi_name : string;
  bi_amount : Js.number;
  bi_frequency : BillFrequency;
  bi_nextDueDate : DateValue;
  bi_category : string;
  bi_autoDeduct : option bool
}.

(** A [Partial<RecurringBill>]. *)
Record BillPatch := {
  pb_id : option string;
  pb_name : option string;
  pb_amount : option Js.number;
  pb_frequency : option BillFrequency;
  pb_nextDueDate : option DateValue;
  pb_category : option string;
  pb_autoDeduct : option bool;
  pb_isActive : option bool;
  pb_createdAt : option DateValue;
  pb_updatedAt : option DateValue
}.

(** The bill record [addRecurringBill] builds from its input. *)
Definition billOfInput (now : Z) (id : string) (billInput : RecurringBillInput)
    : RecurringBill :=
  {| bill_id := id;
     bill_name := bi_name billInput;
     bill_amount := bi_amount billInput;
     bill_frequency := bi_frequency billInput;
     bill_nextDueDate := bi_nextDueDate billInput;
     bill_category := bi_category billInput;
     bill_autoDeduct := match bi_autoDeduct billInput with Some b => b | None => false end;
     bill_isActive := true;
     bill_createdAt := DateObj now;
     bill_updatedAt := DateObj now |}.

Definition addRecurringBill (now : Z) (id : string) (billInput : RecurringBillInput)
    : AppState -> Eff AppState :=
  run (
    setState (set_loading true None) >>>
    tryCatchFinally
      (let bill := billOfInput now id billInput in
       setState (fun state => set_recurringBills (recurringBills state ++ [bill]) state) >>>
       (* Recalculate if auto-deduct is enabled *)
       (if bill_autoDeduct bill
        then derived <-- derivedValues3 now ;; setState derived
        else pure tt) >>>
       (* Check achievements *)
       request (AchievementCall CheckBillTracker) >>>
       request (AchievementCall RunAchievementChecks))
      storeError
      clearLoading).

(** [{ ...bill, ...updates, updatedAt: new Date() }] *)
Definition applyBillUpdates (now : Z) (updates : BillPatch) (bill : RecurringBill)
    : RecurringBill :=
  {| bill_id := patched (bill_id bill) (pb_id updates);
     bill_name := patched (bill_name bill) (pb_name updates);
     bill_amount := patched (bill_amount bill) (pb_amount updates);
     bill_frequency := patched (bill_frequency bill) (pb_frequency updates);
     bill_nextDueDate := patched (bill_nextDueDate bill) (pb_nextDueDate updates);
     bill_category := patched (bill_category bill) (pb_category updates);
     bill_autoDeduct := patched (bill_autoDeduct bill) (pb_autoDeduct updates);
     bill_isActive := patched (bill_isActive bill) (pb_isActive updates);
     bill_createdAt := patched (bill_createdAt bill) (pb_createdAt updates);
     bill_updatedAt := DateObj now |}.

Definition updateRecurringBill (now : Z) (id : string) (updates : BillPatch)
    : AppState -> Eff AppState :=
  run (
    setState (set_loading true None) >>>
    tryCatchFinally
      (setState (fun state =>
                   set_recurringBills
                     (map (fun bill =>
                             if String.eqb (bill_id bill) id
                             then applyBillUpdates now updates bill
                             else bill)
                          (recurringBills state)) state) >>>
       (* Recalculate if auto-deduct changed *)
       derived <-- derivedValues3 now ;;
       setState derived)
      storeError
      clearLoading).

Definition deleteRecurringBill (now : Z) (id : string) : AppState -> Eff AppState :=
  run (
    setState (set_loading true None) >>>
    tryCatchFinally
      (setState (fun state =>
                   set_recurringBills
                     (filter (fun bill => negb (String.eqb (bill_id bill) id))
                             (recurringBills state)) state) >>>
       (* Recalculate derived values *)
       derived <-- derivedValues3 now ;;
       setState derived)
      storeError
      clearLoading).

Definition refreshData (now : Z) : AppState -> Eff AppState :=
  run (
    setState (set_loading true None) >>>
    tryCatchFinally
      (derived <-- derivedValues now ;;
       setState derived)
      storeError
      clearLoading).

(** [set(initialState)] overwrites every data field of the store. *)
Definition resetApp (s : AppState) : AppState := initialState.
(** ** persistence.ts *)

(** What [JSON.parse(JSON.stringify(d))] gives for a date field: a [Date] is
    serialised by [toJSON] to its ISO string, and [JSON.parse] is called
    without a reviver, so the string stays a string. *)
Definition json_date (d : DateValue) : DateValue :=
  match d with
  | DateObj ms => DateIso ms
  | DateIso ms => DateIso ms
  end.

(** What [JSON.parse(JSON.stringify(x))] gives for a number field.  [NaN] and
    the infinities are written as [null], and [-0] as [0].  The modelled
    functions use the stored numbers in sums, differences and comparisons
    only, where [null] converts to [+0]: it is represented by [+0]. *)
Definition json_number (x : Js.number) : Js.number :=
  match x with
  | S754_finite _ _ _ => x
  | _ => S754_zero false
  end.

Definition json_salary (sal : SalaryData) : SalaryData :=
  {| sal_amount := json_number (sal_amount sal); sal_frequency := sal_frequency sal;
     sal_lastUpdated := json_date (sal_lastUpdated sal);
     sal_nextSalaryDate := json_date (sal_nextSalaryDate sal);
     sal_recurringBillsDeducted := json_number (sal_recurringBillsDeducted sal) |}.

Definition json_expense (e : Expense) : Expense :=
  {| exp_id := exp_id e; exp_amount := json_number (exp_amount e); exp_category := exp_category e;
     exp_description := exp_description e; exp_date := json_date (exp_date e);
     exp_source := exp_source e; exp_createdAt := json_date (exp_createdAt e);
     exp_updatedAt := json_date (exp_updatedAt e) |}.

Definition json_bill (b : RecurringBill) : RecurringBill :=
  {| bill_id := bill_id b; bill_name := bill_name b; bill_amount := json_number (bill_amount b);
     bill_frequency := bill_frequency b;
     bill_nextDueDate := json_date (bill_nextDueDate b);
     bill_category := bill_category b; bill_autoDeduct := bill_autoDeduct b;
     bill_isActive := bill_isActive b;
     bill_createdAt := json_date (bill_createdAt b);
     bill_updatedAt := json_date (bill_updatedAt b) |}.

(** The part of the state [appStorePersistConfig.partialize] keeps. *)
Record PersistedApp := {
  p_salary : option SalaryData;
  p_expenses : list Expense;
  p_recurringBills : list RecurringBill
}.

Definition partialize (state : AppState) : PersistedApp :=
  {| p_salary := salary state; p_expenses := expenses state;
     p_recurringBills := recurringBills state |}.

(** [saveToStorage] followed by [storage.getItem] and [JSON.parse]: the stored
    blob read back.  It is written with [version] 1 and read with [version] 1,
    so [migrate] is not called. *)
Definition saveToStorage (state : AppState) : PersistedApp :=
  let stateToSave := partialize state in
  {| p_salary := option_map json_salary (p_salary stateToSave);
     p_expenses := map json_expense (p_expenses stateToSave);
     p_recurringBills := map json_bill (p_recurringBills stateToSave) |}.

(** [loadPersistedState]: [set({ ...initialState, ...stateToRestore })].  The
    calculated fields are those of [initialState]; nothing recomputes them. *)
Definition loadPersistedState (stored : PersistedApp) : AppState :=
  {| salary := p_salary stored; expenses := p_expenses stored;
     recurringBills := p_recurringBills stored;
     currentBalance := currentBalance initialState;
     daysRemaining := daysRemaining initialState;
     averageDailySpend := averageDailySpend initialState;
     fuelStatus := fuelStatus initialState;
     isLoading := isLoading initialState; error := error initialState |}.

Definition reload (state : AppState) : AppState :=
  loadPersistedState (saveToStorage state).

(** ** notificationStore.ts *)

Record QuietHours := {
  qh_enabled : bool;
  qh_startTime : string;
  qh_endTime : string
}.

Record NotificationSettings := {
  fuelAlerts : bool;
  bigSpendAlerts : bool;
  achievementAlerts : bool;
  billReminders : bool;
  dailyReminders : bool;
  quietHours : QuietHours;
  soundEnabled : bool;
  vibrationEnabled : bool
}.

(** A [Partial<NotificationSettings>]: the keys that are present. *)
Record SettingsPatch := {
  patch_fuelAlerts : option bool;
  patch_bigSpendAlerts : option bool;
  patch_achievementAlerts : option bool;
  patch_billReminders : option bool;
  patch_dailyReminders : option bool;
  patch_quietHours : option QuietHours;
  patch_soundEnabled : option bool;
  patch_vibrationEnabled : option bool
}.

Record NotificationState := {
  notifications : list AppNotification;
  settings : NotificationSettings;
  unreadCount : Z
}.

Definition defaultSettings : NotificationSettings := {|
  fuelAlerts := true;
  bigSpendAlerts := true;
  achievementAlerts := true;
  billReminders := true;
  dailyReminders := true;
  quietHours := {| qh_enabled := false; qh_startTime := "22:00"; qh_endTime := "08:00" |};
  soundEnabled := true;
  vibrationEnabled := true
|}.

Definition initialNotificationState : NotificationState :=
  {| notifications := []; settings := defaultSettings; unreadCount := 0 |}.

Definition isTypeEnabled (st : NotificationSettings) (type : NotificationType) : bool :=
  match type with
  | FUEL_LOW | FUEL_EMPTY => fuelAlerts st
  | BIG_SPEND => bigSpendAlerts st
  | ACHIEVEMENT => achievementAlerts st
  | BILL_DUE => billReminders st
  | DAILY_REMINDER => dailyReminders st
  | _ => true
  end.

(** The time-of-day strings are compared as strings, code unit by code unit. *)
Definition isInQuietHours (currentTime startTime endTime : string) : bool :=
  if String.ltb startTime endTime
  then String.leb startTime currentTime && String.leb currentTime endTime
  else String.leb startTime currentTime || String.leb currentTime endTime.

Definition isUrgent (p : option NotificationPriority) : bool :=
  match p with
  | Some P_URGENT => true
  | _ => false
  end.

Definition notificationType_name (t : NotificationType) : string :=
  match t with
  | FUEL_LOW => "fuel_low" | FUEL_EMPTY => "fuel_empty" | BIG_SPEND => "big_spend"
  | ACHIEVEMENT => "achievement" | SALARY_RECEIVED => "salary_received"
  | BILL_DUE => "bill_due" | SUGGESTION => "suggestion"
  | DAILY_REMINDER => "daily_reminder"
  end.

(** [currentTime] is [new Date().toTimeString().slice(0, 5)], the local time
    of day as "HH:MM". *)
Definition addNotification (now : Z) (currentTime : string) (id : string)
    (notificationInput : NotificationInput) (state : NotificationState)
    : Eff NotificationState :=
  if negb (isTypeEnabled (settings state) (ni_type notificationInput)) then ret state
  else if qh_enabled (quietHours (settings state))
          && (isInQuietHours currentTime
                (qh_startTime (quietHours (settings state)))
                (qh_endTime (quietHours (settings state)))
              && negb (isUrgent (ni_priority notificationInput)))
  then ret state
  else
    let notification :=
      {| n_id := id;
         n_type := ni_type notificationInput;
         n_title := ni_title notificationInput;
         n_priority := match ni_priority notificationInput with
                       | Some p => p
                       | None => P_NORMAL
                       end;
         n_isRead := false;
         n_createdAt := now |} in
    emit (SendImmediate (n_title notification) (notificationType_name (n_type notification))) ;;;
    ret {| notifications := notification :: notifications state;
           settings := settings state;
           unreadCount := (unreadCount state + 1)%Z |}.

Definition hasId (id : string) (n : AppNotification) : bool := String.eqb (n_id n) id.

Definition setRead (n : AppNotification) : AppNotification :=
  {| n_id := n_id n; n_type := n_type n; n_title := n_title n;
     n_priority := n_priority n; n_isRead := true; n_createdAt := n_createdAt n |}.

Definition markAsRead (id : string) (state : NotificationState) : NotificationState :=
  match Js.find (hasId id) (notifications state) with
  | None => state
  | Some notification =>
      if n_isRead notification then state
      else
        {| notifications :=
             map (fun n => if hasId id n then setRead n else n) (notifications state);
           settings := settings state;
           unreadCount := Z.max 0 (unreadCount state - 1) |}
  end.

Definition markAllAsRead (state : NotificationState) : NotificationState :=
  {| notifications := map setRead (notifications state);
     settings := settings state;
     unreadCount := 0 |}.

Definition deleteNotification (id : string) (state : NotificationState) : NotificationState :=
  let wasUnread :=
    match Js.find (hasId id) (notifications state) with
    | Some notification => negb (n_isRead notification)
    | None => false
    end in
  {| notifications := filter (fun n => negb (hasId id n)) (notifications state);
     settings := settings state;
     unreadCount := if wasUnread then Z.max 0 (unreadCount state - 1)
                    else unreadCount state |}.

Definition clearAllNotifications (state : NotificationState) : Eff NotificationState :=
  emit CancelAllScheduled ;;;
  ret {| notifications := []; settings := settings state; unreadCount := 0 |}.

Definition updateSettings (newSettings : SettingsPatch) (state : NotificationState)
    : NotificationState :=
  let st := settings state in
  {| notifications := notifications state;
     settings :=
       {| fuelAlerts := patched (fuelAlerts st) (patch_fuelAlerts newSettings);
          bigSpendAlerts := patched (bigSpendAlerts st) (patch_bigSpendAlerts newSettings);
          achievementAlerts := patched (achievementAlerts st) (patch_achievementAlerts newSettings);
          billReminders := patched (billReminders st) (patch_billReminders newSettings);
          dailyReminders := patched (dailyReminders st) (patch_dailyReminders newSettings);
          quietHours := patched (quietHours st) (patch_quietHours newSettings);
          soundEnabled := patched (soundEnabled st) (patch_soundEnabled newSettings);
          vibrationEnabled := patched (vibrationEnabled st) (patch_vibrationEnabled newSettings) |};
     unreadCount := unreadCount state |}.

Definition getUnreadNotifications (state : NotificationState) : list AppNotification :=
  filter (fun n => negb (n_isRead n)) (notifications state).

(** *** Sequences of store operations *)

Inductive NotificationOp :=
| OpAdd (now : Z) (currentTime : string) (id : string) (input : NotificationInput)
| OpMarkAsRead (id : string)
| OpMarkAllAsRead
| OpDelete (id : string)
| OpClearAll
| OpUpdateSettings (patch : SettingsPatch).

Definition applyOp (op : NotificationOp) (state : NotificationState) : NotificationState :=
  match op with
  | OpAdd now currentTime id input => result (addNotification now currentTime id input state)
  | OpMarkAsRead id => markAsRead id state
  | OpMarkAllAsRead => markAllAsRead state
  | OpDelete id => deleteNotification id state
  | OpClearAll => result (clearAllNotifications state)
  | OpUpdateSettings patch => updateSettings patch state
  end.

Definition runOps (ops : list NotificationOp) (state : NotificationState) : NotificationState :=
  fold_left (fun st op => applyOp op st) ops state.

(** [generateId] returned a fresh id at every [addNotification] of the run: an
    id that no stored notification carries. *)
Fixpoint freshIds (ops : list NotificationOp) (state : NotificationState) : Prop :=
  match ops with
  | [] => True
  | op :: rest =>
      match op with
      | OpAdd _ _ id _ => ~ In id (map n_id (notifications state))
      | _ => True
      end /\ freshIds rest (applyOp op state)
  end.

(** ** achievementService.ts *)
(** ** notificationService.ts

    The service reads the app store through [useAppStore.getState()], which it
    imports; its generators are reached through the notification store
    ([sendFuelNotifications], [sendBillDueNotifications], [sendBigSpendAlert]). *)


(** [generateBigSpendAlert]: reads the stored balance. *)
Definition generateBigSpendAlert (state : AppState) (amount : Js.number) : Eff unit :=
  if Js.gtb amount (Js.mul (currentBalance state) (Js.frac 1 10))
  then emit (SendImmediate "Big Expense Alert" "big_spend")
  else ret tt.

Definition generateBillDueNotifications (now : Z) (app : AppState) : Eff unit :=
  fold_left
    (fun (sent : Eff unit) (bill : RecurringBill) =>
       sent ;;;
       if negb (bill_isActive bill) then ret tt
       else
         let dueDate := date_ms (bill_nextDueDate bill) in
         let diffTime := dueDate - now in
         let diffDays := Exact.Math_ceil (inject_Z diffTime / inject_Z (1000 * 60 * 60 * 24)) in
         (if diffDays =? 1
          then emit (SendImmediate "Bill Due Tomorrow" "bill_due")
          else ret tt) ;;;
         (if diffDays =? 0
          then emit (SendImmediate "Bill Due Today" "bill_due")
          else ret tt))
    (recurringBills app) (ret tt).

Definition generateWeeklySummary (now : Z) (app : AppState) : Eff unit :=
  let weekAgo := now - 7 * 24 * 60 * 60 * 1000 in
  let weeklyExpenses :=
    filter (fun expense =>
              let expenseDate := date_ms (exp_date expense) in
              (weekAgo <=? expenseDate) && (expenseDate <=? now))
           (expenses app) in
  let weeklyTotal := Js.reduce_sum exp_amount weeklyExpenses in
  if Js.gtb weeklyTotal 0
  then emit (SendImmediate "Weekly Spending Summary" "weekly_summary")
  else ret tt.

(** In [generateSpendingAlerts] and in the savings streak below, [localDay]
    gives the number of the local calendar day an instant falls in: two
    instants have the same [toDateString()] exactly when their days agree, and
    [setDate(getDate() - 1)] moves to the day before. *)
Definition generateSpendingAlerts (localDay : Z -> Z) (now : Z) (app : AppState)
    : Eff unit :=
  let todaysExpenses :=
    filter (fun expense => localDay (date_ms (exp_date expense)) =? localDay now)
           (expenses app) in
  let todaysTotal := Js.reduce_sum exp_amount todaysExpenses in
  (if Js.gtb (averageDailySpend app) 0
      && Js.gtb todaysTotal (Js.mul (averageDailySpend app) 2)
   then emit (SendImmediate "High Spending Day!" "high_spending")
   else ret tt) ;;;
  if (List.length todaysExpenses =? 0)%nat
  then emit (SendImmediate "Log Your Expenses" "expense_reminder")
  else ret tt.

(** ** achievementService.ts *)

Record Achievement := {
  a_id : string;
  a_title : string;
  a_current : Js.number;
  a_target : Js.number;
  a_percentage : Js.number;
  a_unlockedAt : option Z
}.

Definition mkAchievement (id title : string) (target : Js.number) : Achievement :=
  {| a_id := id; a_title := title; a_current := 0; a_target := target;
     a_percentage := 0; a_unlockedAt := None |}.

(** The private [achievements] table of the service. *)
Definition achievements : list Achievement := [
  mkAchievement "savings-streak-7" "Savings Streak Starter" 7;
  mkAchievement "savings-streak-30" "Savings Streak Master" 30;
  mkAchievement "budget-master" "Budget Master" 30;
  mkAchievement "category-saver-food" "Food Frugal" 100;
  mkAchievement "fuel-efficient" "Fuel Efficient" 14;
  mkAchievement "emergency-fund-10k" "Emergency Fund Starter" 10000;
  mkAchievement "investment-starter" "Investment Beginner" 1000;
  mkAchievement "bill-tracker-10" "Bill Tracker Pro" 10;
  mkAchievement "expense-logger-100" "Expense Logging Expert" 100
].

Definition getAchievementById (id : string) (table : list Achievement) : option Achievement :=
  Js.find (fun achievement => String.eqb (a_id achievement) id) table.

Definition unlockAchievement (now : Z) (achievement : Achievement) : Eff Achievement :=
  emit (AddNotification createAchievementNotification) ;;;
  ret {| a_id := a_id achievement; a_title := a_title achievement;
         a_current := a_current achievement; a_target := a_target achievement;
         a_percentage := a_percentage achievement; a_unlockedAt := Some now |}.

(** The body of [updateAchievementProgress] once the achievement is found. *)
Definition updateProgress (now : Z) (increment : Js.number) (achievement : Achievement)
    : Eff Achievement :=
  let newCurrent :=
    Js.Math_min (Js.add (a_current achievement) increment) (a_target achievement) in
  let newPercentage :=
    Js.Math_round (Js.mul (Js.div newCurrent (a_target achievement)) 100) in
  let updated :=
    {| a_id := a_id achievement; a_title := a_title achievement;
       a_current := newCurrent; a_target := a_target achievement;
       a_percentage := newPercentage; a_unlockedAt := a_unlockedAt achievement |} in
  if Js.geb newPercentage 100
     && match a_unlockedAt updated with None => true | Some _ => false end
  then unlockAchievement now updated
  else ret updated.

(** [find] returns the first achievement with the id, and the update mutates
    that object in place: the first match in the table changes. *)
Fixpoint updateAchievementProgress (now : Z) (achievementId : string)
    (increment : Js.number) (table : list Achievement) : Eff (list Achievement) :=
  match table with
  | [] => ret []
  | a :: rest =>
      if String.eqb (a_id a) achievementId
      then a' <- updateProgress now increment a ;; ret (a' :: rest)
      else rest' <- updateAchievementProgress now achievementId increment rest ;;
           ret (a :: rest')
  end.


(** The amount spent on one calendar day. *)
Definition spentOn (localDay : Z -> Z) (day : Z) (es : list Expense) : Js.number :=
  Js.reduce_sum exp_amount
    (filter (fun e => localDay (date_ms (exp_date e)) =? day) es).

(** The loop of [checkSavingsStreak]: [rounds] iterations are left,
    [currentDate] falls on [day]. *)
Fixpoint savingsStreak (localDay : Z -> Z) (es : list Expense) (day : Z) (rounds : nat)
    : nat :=
  match rounds with
  | O => O
  | S rest =>
      let currentExpenses := spentOn localDay day es in
      let previousExpenses := spentOn localDay (day - 1) es in
      if Js.ltb currentExpenses previousExpenses
      then S (savingsStreak localDay es (day - 1) rest)
      else O
  end.

Definition checkSavingsStreak (localDay : Z -> Z) (now : Z) (app : AppState)
    (table : list Achievement) : Eff (list Achievement) :=
  let streak := savingsStreak localDay (expenses app) (localDay now) 30 in
  table1 <- (if (7 <=? streak)%nat
             then updateAchievementProgress now "savings-streak-7"
                    (Js.ofZ (Z.of_nat streak)) table
             else ret table) ;;
  if (30 <=? streak)%nat
  then updateAchievementProgress now "savings-streak-30"
         (Js.ofZ (Z.of_nat streak)) table1
  else ret table1.

Definition checkExpenseLogger (now : Z) (app : AppState) (table : list Achievement)
    : Eff (list Achievement) :=
  updateAchievementProgress now "expense-logger-100"
    (Js.ofZ (Z.of_nat (List.length (expenses app)))) table.

Definition checkBillTracker (now : Z) (app : AppState) (table : list Achievement)
    : Eff (list Achievement) :=
  let activeBills := filter (fun bill => bill_isActive bill) (recurringBills app) in
  updateAchievementProgress now "bill-tracker-10"
    (Js.ofZ (Z.of_nat (List.length activeBills))) table.

Definition checkFuelEfficient (now : Z) (app : AppState) (table : list Achievement)
    : Eff (list Achievement) :=
  if Js.gtb (fs_percentage (fuelStatus app)) 50
  then updateAchievementProgress now "fuel-efficient" 1 table
  else ret table.

Definition checkEmergencyFund (now : Z) (app : AppState) (table : list Achievement)
    : Eff (list Achievement) :=
  updateAchievementProgress now "emergency-fund-10k" (currentBalance app) table.

Definition checkInvestmentStarter (now : Z) (app : AppState) (table : list Achievement)
    : Eff (list Achievement) :=
  let investmentExpenses :=
    Js.reduce_sum exp_amount
      (filter (fun e => String.eqb (exp_category e) "Investment") (expenses app)) in
  updateAchievementProgress now "investment-starter" investmentExpenses table.

Definition runAchievementChecks (localDay : Z -> Z) (now : Z) (app : AppState)
    (table : list Achievement) : Eff (list Achievement) :=
  t1 <- checkSavingsStreak localDay now app table ;;
  t2 <- checkExpenseLogger now app t1 ;;
  t3 <- checkBillTracker now app t2 ;;
  t4 <- checkFuelEfficient now app t3 ;;
  t5 <- checkEmergencyFund now app t4 ;;
  checkInvestmentStarter now app t5.

(** A call an action of the app store makes into the service, run against
    the state of the store. *)
Definition performAchievementCall (localDay : Z -> Z) (now : Z) (app : AppState)
    (call : AchievementCheck) (table : list Achievement) : Eff (list Achievement) :=
  match call with
  | CheckEmergencyFund => checkEmergencyFund now app table
  | CheckExpenseLogger => checkExpenseLogger now app table
  | CheckBillTracker => checkBillTracker now app table
  | RunAchievementChecks => runAchievementChecks localDay now app table
  end.
(** ** suggestionsStore.ts and aiService.ts *)

Inductive SuggestionType :=
| EMERGENCY | INVESTMENT | SAVINGS | BUDGET_ADJUSTMENT
| CATEGORY_OPTIMIZATION | RECURRING_BILL | FUEL_WARNING.

Inductive SuggestionAction :=
| SAVE | INVEST | REDUCE_SPENDING | REVIEW_EXPENSES
| ADD_INCOME | TRANSFER_MONEY | SET_REMINDER | ADJUST_BUDGET.

Record Impact := {
  daysGained : option Js.number;
  moneySaved : option Js.number;
  confidenceScore : Js.number
}.

Record SuggestionInput := {
  si_type : SuggestionType;
  si_title : string;
  si_action : SuggestionAction;
  si_priority : option NotificationPriority;
  si_actionAmount : option Js.number;
  si_category : option string;
  si_impact : Impact;
  si_expiresAt : option Z
}.

Record Suggestion := {
  s_id : string;
  s_type : SuggestionType;
  s_title : string;
  s_action : SuggestionAction;
  s_priority : NotificationPriority;
  s_actionAmount : option Js.number;
  s_category : option string;
  s_impact : Impact;
  s_isApplied : bool;
  s_isDismissed : bool;
  s_createdAt : Z;
  s_expiresAt : option Z
}.

Record FinancialContext := {
  balance : Js.number;
  daysLeft : Js.number;
  ctx_salary : Js.number;
  avgDailySpend : Js.number;
  topCategories : list string;
  totalExpenses : Js.number;
  recurringBillsAmount : Js.number
}.

Record CategorySpending := {
  cs_category : string;
  cs_amount : Js.number;
  cs_percentage : Js.number;
  cs_count : Js.number
}.

Record SpendingAnalytics := {
  categoryBreakdown : list CategorySpending
}.

Record SuggestionsState := {
  suggestions : list Suggestion;
  suggestionsHistory : list Suggestion;
  lastGenerated : option Z
}.

Definition initialSuggestionsState : SuggestionsState :=
  {| suggestions := []; suggestionsHistory := []; lastGenerated := None |}.

Definition SuggestionType_eqb (a b : SuggestionType) : bool :=
  match a, b with
  | EMERGENCY, EMERGENCY | INVESTMENT, INVESTMENT | SAVINGS, SAVINGS
  | BUDGET_ADJUSTMENT, BUDGET_ADJUSTMENT
  | CATEGORY_OPTIMIZATION, CATEGORY_OPTIMIZATION
  | RECURRING_BILL, RECURRING_BILL | FUEL_WARNING, FUEL_WARNING => true
  | _, _ => false
  end.

(** [cond ? [x] : []], for the [if (cond) suggestions.push(x)] of the generators. *)
Definition pushIf {A : Type} (cond : bool) (x : A) : list A :=
  if cond then [x] else [].

Definition generateRuleBasedSuggestions (context : FinancialContext) : list SuggestionInput :=
  let balance := balance context in
  let daysLeft := daysLeft context in
  let salary := ctx_salary context in
  let avgDailySpend := avgDailySpend context in
  (* Emergency fund suggestion *)
  pushIf (Js.ltb balance (Js.mul salary (Js.frac 1 10)))
    {| si_type := EMERGENCY; si_title := "Emergency Mode";
       si_action := REDUCE_SPENDING; si_priority := Some P_URGENT;
       si_actionAmount := None; si_category := None;
       si_impact := {| daysGained := Some (Js.ofZ 5); moneySaved := Some (Js.mul avgDailySpend 5);
                       confidenceScore := Js.frac 9 10 |};
       si_expiresAt := None |}
  (* Investment suggestion *)
  ++ pushIf (Js.gtb balance (Js.mul salary (Js.frac 5 10)) && Js.gtb daysLeft 20)
    (let investAmount := Js.Math_floor (Js.mul balance (Js.frac 3 10)) in
     {| si_type := INVESTMENT; si_title := "Investment Opportunity";
        si_action := INVEST; si_priority := Some P_NORMAL;
        si_actionAmount := Some investAmount; si_category := None;
        si_impact := {| daysGained := None; moneySaved := Some (Js.mul investAmount (Js.frac 8 100));
                        confidenceScore := Js.frac 7 10 |};
        si_expiresAt := None |})
  (* Savings suggestion *)
  ++ pushIf (Js.gtb daysLeft 25)
    (let saveAmount := Js.Math_floor (Js.mul balance (Js.frac 2 10)) in
     {| si_type := SAVINGS; si_title := "Great Job!";
        si_action := SAVE; si_priority := Some P_LOW;
        si_actionAmount := Some saveAmount; si_category := None;
        si_impact := {| daysGained := None; moneySaved := Some saveAmount;
                        confidenceScore := Js.frac 8 10 |};
        si_expiresAt := None |})
  (* Budget adjustment suggestion *)
  ++ pushIf (Js.ltb daysLeft 10 && Js.gtb daysLeft 0)
    {| si_type := BUDGET_ADJUSTMENT; si_title := "Budget Alert";
       si_action := ADJUST_BUDGET; si_priority := Some P_HIGH;
       si_actionAmount := None; si_category := None;
       si_impact := {| daysGained := Some (Js.ofZ 10); moneySaved := Some (Js.mul avgDailySpend 10);
                       confidenceScore := Js.frac 85 100 |};
       si_expiresAt := None |}
  (* Category optimization suggestion *)
  ++ match topCategories context with
     | [] => []
     | topCategory :: _ =>
         [ {| si_type := CATEGORY_OPTIMIZATION; si_title := "Category Focus";
              si_action := REVIEW_EXPENSES; si_priority := Some P_NORMAL;
              si_actionAmount := None; si_category := Some topCategory;
              si_impact := {| daysGained := Some (Js.ofZ 3);
                              moneySaved := Some (Js.mul avgDailySpend (Js.frac 3 10));
                              confidenceScore := Js.frac 6 10 |};
              si_expiresAt := None |} ]
     end
  (* Recurring bill review *)
  ++ pushIf (Js.gtb (recurringBillsAmount context) (Js.mul salary (Js.frac 4 10)))
    {| si_type := RECURRING_BILL; si_title := "Bill Review";
       si_action := REVIEW_EXPENSES; si_priority := Some P_NORMAL;
       si_actionAmount := None; si_category := None;
       si_impact := {| daysGained := Some (Js.ofZ 5);
                       moneySaved := Some (Js.mul (recurringBillsAmount context) (Js.frac 2 10));
                       confidenceScore := Js.frac 75 100 |};
       si_expiresAt := None |}.

(** aiService.ts: the mock service, which is what [createAIService()] returns. *)
Module MockAIService.

Definition generateSuggestions (context : FinancialContext)
    (analytics : option SpendingAnalytics) : list SuggestionInput :=
  pushIf (Js.ltb (daysLeft context) 10)
    {| si_type := FUEL_WARNING; si_title := "AI-Powered Fuel Warning";
       si_action := REDUCE_SPENDING; si_priority := Some P_HIGH;
       si_actionAmount := None; si_category := None;
       si_impact := {| daysGained := None; moneySaved := None;
                       confidenceScore := Js.frac 85 100 |};
       si_expiresAt := None |}
  ++ match analytics with
     | Some an =>
         match categoryBreakdown an with
         | highestCategory :: _ =>
             pushIf (Js.gtb (cs_percentage highestCategory) 30)
               {| si_type := CATEGORY_OPTIMIZATION; si_title := "AI Category Optimization";
                  si_action := REVIEW_EXPENSES; si_priority := Some P_NORMAL;
                  si_actionAmount := None;
                  si_category := Some (cs_category highestCategory);
                  si_impact := {| daysGained := None; moneySaved := None;
                                  confidenceScore := Js.frac 75 100 |};
                  si_expiresAt := None |}
         | [] => []
         end
     | None => []
     end
  ++ [ {| si_type := INVESTMENT; si_title := "AI Investment Insight";
          si_action := INVEST; si_priority := Some P_NORMAL;
          si_actionAmount := None; si_category := None;
          si_impact := {| daysGained := None; moneySaved := None;
                          confidenceScore := Js.frac 7 10 |};
          si_expiresAt := None |} ].

End MockAIService.

Definition mkSuggestion (now : Z) (id : string) (suggestionInput : SuggestionInput)
    : Suggestion :=
  {| s_id := id;
     s_type := si_type suggestionInput;
     s_title := si_title suggestionInput;
     s_action := si_action suggestionInput;
     s_priority := match si_priority suggestionInput with
                   | Some p => p
                   | None => P_NORMAL
                   end;
     s_actionAmount := si_actionAmount suggestionInput;
     s_category := si_category suggestionInput;
     s_impact := si_impact suggestionInput;
     s_isApplied := false;
     s_isDismissed := false;
     s_createdAt := now;
     s_expiresAt := si_expiresAt suggestionInput |}.

Definition addSuggestion (now : Z) (id : string) (suggestionInput : SuggestionInput)
    (state : SuggestionsState) : SuggestionsState :=
  {| suggestions := suggestions state ++ [mkSuggestion now id suggestionInput];
     suggestionsHistory := suggestionsHistory state;
     lastGenerated := lastGenerated state |}.

(** [allSuggestions.forEach(s => get().addSuggestion(s))]; the k-th call draws
    the id [genId k]. *)
Fixpoint addAll (now : Z) (genId : nat -> string) (k : nat)
    (inputs : list SuggestionInput) (state : SuggestionsState) : SuggestionsState :=
  match inputs with
  | [] => state
  | input :: rest => addAll now genId (S k) rest (addSuggestion now (genId k) input state)
  end.

Definition generateSuggestions (now : Z) (genId : nat -> string)
    (context : FinancialContext) (analytics : option SpendingAnalytics)
    (state : SuggestionsState) : SuggestionsState :=
  (* Clear existing active suggestions *)
  let cleared :=
    {| suggestions := filter (fun s => s_isApplied s || s_isDismissed s) (suggestions state);
       suggestionsHistory := suggestionsHistory state;
       lastGenerated := lastGenerated state |} in
  let ruleBasedSuggestions := generateRuleBasedSuggestions context in
  let aiSuggestions := MockAIService.generateSuggestions context analytics in
  (* Combine suggestions (AI suggestions take priority) *)
  let allSuggestions := aiSuggestions ++ ruleBasedSuggestions in
  let added := addAll now genId 0 allSuggestions cleared in
  {| suggestions := suggestions added;
     suggestionsHistory := suggestionsHistory added;
     lastGenerated := Some now |}.

(** The predicate [getActiveSuggestions] filters with. *)
Definition isActive (now : Z) (s : Suggestion) : bool :=
  negb (s_isApplied s) && negb (s_isDismissed s)
  && match s_expiresAt s with
     | None => true
     | Some t => (now <? t)
     end.

Definition getActiveSuggestions (now : Z) (state : SuggestionsState) : list Suggestion :=
  filter (isActive now) (suggestions state).

(** *** The ranking the specification describes *)

Definition priorityOrder (p : NotificationPriority) : Z :=
  match p with
  | P_URGENT => 4
  | P_HIGH => 3
  | P_NORMAL => 2
  | P_LOW => 1
  end.

(** [a] may stand directly before [b]: higher priority, or the same priority
    and a confidence score that is not lower. *)
Definition rankedBefore (a b : Suggestion) : bool :=
  (priorityOrder (s_priority b) <? priorityOrder (s_priority a))
  || ((priorityOrder (s_priority a) =? priorityOrder (s_priority b))
      && Js.geb (confidenceScore (s_impact a)) (confidenceScore (s_impact b))).

Fixpoint isRanked (l : list Suggestion) : bool :=
  match l with
  | [] => true
  | a :: rest =>
      match rest with
      | [] => true
      | b :: _ => rankedBefore a b && isRanked rest
      end
  end.


(** ** notificationStore.ts: the remaining selectors *)

Definition NotificationType_eqb (a b : NotificationType) : bool :=
  match a, b with
  | FUEL_LOW, FUEL_LOW | FUEL_EMPTY, FUEL_EMPTY | BIG_SPEND, BIG_SPEND
  | ACHIEVEMENT, ACHIEVEMENT | SALARY_RECEIVED, SALARY_RECEIVED
  | BILL_DUE, BILL_DUE | SUGGESTION, SUGGESTION
  | DAILY_REMINDER, DAILY_REMINDER => true
  | _, _ => false
  end.

Definition getNotificationsByType (type : NotificationType) (state : NotificationState)
    : list AppNotification :=
  filter (fun n => NotificationType_eqb (n_type n) type) (notifications state).

Definition getHighPriorityNotifications (state : NotificationState) : list AppNotification :=
  filter (fun n => NotificationPriority_eqb (n_priority n) P_HIGH
                   || NotificationPriority_eqb (n_priority n) P_URGENT)
         (notifications state).

(** ** persistence.ts: the notification and suggestion stores *)

(** What [notificationStorePersistConfig.partialize] keeps.  In the stored
    blob [createdAt] is an ISO string; no store function reads it, and
    [n_createdAt] keeps standing for the same instant. *)
Record PersistedNotifications := {
  pn_notifications : list AppNotification;
  pn_settings : NotificationSettings
}.

Definition notificationPartialize (state : NotificationState) : PersistedNotifications :=
  {| pn_notifications := firstn 50 (notifications state);
     pn_settings := settings state |}.

(** [loadPersistedState] for the notification store: the stored object goes
    through [partialize] once more and is merged over [initialState], whose
    [unreadCount] is 0. *)
Definition loadNotifications (stored : PersistedNotifications) : NotificationState :=
  {| notifications := firstn 50 (pn_notifications stored);
     settings := pn_settings stored;
     unreadCount := unreadCount initialNotificationState |}.

Definition reloadNotifications (state : NotificationState) : NotificationState :=
  loadNotifications (notificationPartialize state).

(** What [suggestionsStorePersistConfig.partialize] keeps: the first 20
    entries of the history and [lastGenerated]; the active suggestions are not
    stored.  The date fields of the stored entries are ISO strings; no store
    function reads the dates of history entries, and the fields keep standing
    for the same instants. *)
Record PersistedSuggestions := {
  ps_suggestionsHistory : list Suggestion;
  ps_lastGenerated : option Z
}.

Definition suggestionsPartialize (state : SuggestionsState) : PersistedSuggestions :=
  {| ps_suggestionsHistory := firstn 20 (suggestionsHistory state);
     ps_lastGenerated := lastGenerated state |}.

Definition loadSuggestions (stored : PersistedSuggestions) : SuggestionsState :=
  {| suggestions := suggestions initialSuggestionsState;
     suggestionsHistory := firstn 20 (ps_suggestionsHistory stored);
     lastGenerated := ps_lastGenerated stored |}.

Definition reloadSuggestions (state : SuggestionsState) : SuggestionsState :=
  loadSuggestions (suggestionsPartialize state).

(** ** suggestionsStore.ts: the remaining actions *)

Definition hasSuggestionId (id : string) (s : Suggestion) : bool := String.eqb (s_id s) id.

Definition setApplied (s : Suggestion) : Suggestion :=
  {| s_id := s_id s; s_type := s_type s; s_title := s_title s; s_action := s_action s;
     s_priority := s_priority s; s_actionAmount := s_actionAmount s;
     s_category := s_category s; s_impact := s_impact s;
     s_isApplied := true; s_isDismissed := s_isDismissed s;
     s_createdAt := s_createdAt s; s_expiresAt := s_expiresAt s |}.

Definition setDismissed (s : Suggestion) : Suggestion :=
  {| s_id := s_id s; s_type := s_type s; s_title := s_title s; s_action := s_action s;
     s_priority := s_priority s; s_actionAmount := s_actionAmount s;
     s_category := s_category s; s_impact := s_impact s;
     s_isApplied := s_isApplied s; s_isDismissed := true;
     s_createdAt := s_createdAt s; s_expiresAt := s_expiresAt s |}.

(** Every suggestion with the id is replaced by the updated copy of the first
    one found, and that copy is appended to the history. *)
Definition applySuggestion (id : string) (state : SuggestionsState) : SuggestionsState :=
  match Js.find (hasSuggestionId id) (suggestions state) with
  | None => state
  | Some suggestion =>
      let updatedSuggestion := setApplied suggestion in
      {| suggestions :=
           map (fun s => if hasSuggestionId id s then updatedSuggestion else s)
               (suggestions state);
         suggestionsHistory := suggestionsHistory state ++ [updatedSuggestion];
         lastGenerated := lastGenerated state |}
  end.

Definition dismissSuggestion (id : string) (state : SuggestionsState) : SuggestionsState :=
  match Js.find (hasSuggestionId id) (suggestions state) with
  | None => state
  | Some suggestion =>
      let updatedSuggestion := setDismissed suggestion in
      {| suggestions :=
           map (fun s => if hasSuggestionId id s then updatedSuggestion else s)
               (suggestions state);
         suggestionsHistory := suggestionsHistory state ++ [updatedSuggestion];
         lastGenerated := lastGenerated state |}
  end.

Definition deleteSuggestion (id : string) (state : SuggestionsState) : SuggestionsState :=
  {| suggestions := filter (fun s => negb (hasSuggestionId id s)) (suggestions state);
     suggestionsHistory := suggestionsHistory state;
     lastGenerated := lastGenerated state |}.

Definition getSuggestionsByType (type : SuggestionType) (state : SuggestionsState)
    : list Suggestion :=
  filter (fun s => SuggestionType_eqb (s_type s) type) (suggestions state).

Definition getHighPrioritySuggestions (now : Z) (state : SuggestionsState) : list Suggestion :=
  filter (fun s => NotificationPriority_eqb (s_priority s) P_HIGH
                   || NotificationPriority_eqb (s_priority s) P_URGENT)
         (getActiveSuggestions now state).

Definition clearSuggestions (state : SuggestionsState) : SuggestionsState :=
  {| suggestions := []; suggestionsHistory := suggestionsHistory state;
     lastGenerated := lastGenerated state |}.

(** [createSuggestionTemplate] *)
Definition createSuggestionTemplate (type : SuggestionType) (context : FinancialContext)
    : option SuggestionInput :=
  match type with
  | FUEL_WARNING =>
      if Js.ltb (daysLeft context) 7
      then Some {| si_type := FUEL_WARNING; si_title := "Fuel Running Low";
                   si_action := REDUCE_SPENDING; si_priority := Some P_HIGH;
                   si_actionAmount := None; si_category := None;
                   si_impact := {| daysGained := Some (Js.ofZ 3); moneySaved := None;
                                   confidenceScore := Js.frac 8 10 |};
                   si_expiresAt := None |}
      else None
  | _ => None
  end.

(** ** Specification-side definitions *)

(** The sum of [f] over a list, as a rational. *)
Fixpoint sigma {A : Type} (f : A -> Q) (xs : list A) : Q :=
  match xs with
  | [] => 0%Q
  | x :: rest => (f x + sigma f rest)%Q
  end.

(** The bills with [isActive] and [autoDeduct]. *)
Definition autoDeducted (bills : list RecurringBill) : list RecurringBill :=
  filter (fun bill => bill_isActive bill && bill_autoDeduct bill) bills.

(** The balance as the specification gives it, on the values of the stored
    numbers: [max(0, salary - sum of expenses - sum of auto-deducted bills)],
    and 0 without a salary. *)
Definition balanceFormula (state : AppState) : Q :=
  match salary state with
  | None => 0%Q
  | Some sal =>
      Qmax 0 (Js.value (sal_amount sal)
              - sigma (fun e => Js.value (exp_amount e)) (expenses state)
              - sigma (fun b => Js.value (bill_amount b))
                      (autoDeducted (recurringBills state)))%Q
  end.

(** [calculateBalance] returns the number with that value, and it is not
    negative. *)
Definition balanceAsStated (state : AppState) : Prop :=
  Js.isFinite (calculateBalance state) = true
  /\ (Js.value (calculateBalance state) == balanceFormula state)%Q
  /\ Js.leb 0 (calculateBalance state) = true.

(** The sum of a list of whole numbers. *)
Definition sumZ (zs : list Z) : Z := fold_right Z.add 0 zs.

(** The amounts of [xs] are the whole numbers [zs], none of them negative. *)
Definition wholeAmounts {A : Type} (amount : A -> Js.number) (xs : list A) (zs : list Z)
    : Prop :=
  map amount xs = map Js.ofZ zs /\ Forall (fun z => 0 <= z) zs.

(** The fuel levels in the order empty < critical < low < medium < high < full. *)
Definition levelIndex (level : FuelLevel) : Z :=
  match level with
  | EMPTY => 0
  | CRITICAL => 1
  | LOW => 2
  | MEDIUM => 3
  | HIGH => 4
  | FULL => 5
  end.

(** A point in time for the worked examples (2023-11-14T22:13:20Z). *)
Definition t0 : Z := 1700000000000.

(** [addExpense] turned the input down: an error is stored for the caller and
    the ledger and the derived metrics are as before. *)
Definition addExpenseRejected (before after : AppState) : Prop :=
  error after <> None
  /\ expenses after = expenses before
  /\ salary after = salary before
  /\ recurringBills after = recurringBills before
  /\ currentBalance after = currentBalance before
  /\ daysRemaining after = daysRemaining before
  /\ averageDailySpend after = averageDailySpend before
  /\ fuelStatus after = fuelStatus before.

(** The store after [setSalary(10000)] on a fresh store. *)
Definition afterFirstSalary : AppState :=
  result (setSalary t0 (t0 + 30 * msPerDay) 10000 monthly initialState).

(** An expense input with a negative amount. *)
Definition negativeExpense : ExpenseInput :=
  {| ei_amount := Js.ofZ (- 500); ei_category := "Food"; ei_description := "Refund";
     ei_date := None; ei_source := None |}.

(** *** Ledgers for the balance *)

(** A plain expense input. *)
Definition plainExpense (amount : Js.number) : ExpenseInput :=
  {| ei_amount := amount; ei_category := "Food"; ei_description := "Lunch";
     ei_date := None; ei_source := None |}.

(** [setSalary(9007199254740994)], then expenses of 9007199254740992, 1 and
    1: the three expenses add up to the salary. *)
Definition roundedLedger : AppState :=
  let s1 := result (setSalary t0 (t0 + 30 * msPerDay) 9007199254740994 monthly
                      initialState) in
  let s2 := result (addExpense t0 "e1" (plainExpense 9007199254740992) s1) in
  let s3 := result (addExpense t0 "e2" (plainExpense 1) s2) in
  result (addExpense t0 "e3" (plainExpense 1) s3).

(** [setSalary(NaN)] on a fresh store. *)
Definition nanLedger : AppState :=
  result (setSalary t0 (t0 + 30 * msPerDay) Js.NaN monthly initialState).

(** [setSalary(5000)], a rent of 1200 deducted automatically, a bill of 300
    that is not, and expenses of 700 and 450. *)
Definition wholeLedger : AppState :=
  let s1 := result (setSalary t0 (t0 + 30 * msPerDay) 5000 monthly initialState) in
  let s2 := result (addRecurringBill t0 "b1"
                      {| bi_name := "Rent"; bi_amount := 1200; bi_frequency := bill_monthly;
                         bi_nextDueDate := DateObj (t0 + 5 * msPerDay);
                         bi_category := "Housing"; bi_autoDeduct := Some true |} s1) in
  let s3 := result (addRecurringBill t0 "b2"
                      {| bi_name := "Gym"; bi_amount := 300; bi_frequency := bill_monthly;
                         bi_nextDueDate := DateObj (t0 + 9 * msPerDay);
                         bi_category := "Health"; bi_autoDeduct := Some false |} s2) in
  let s4 := result (addExpense t0 "e1" (plainExpense 700) s3) in
  result (addExpense t0 "e2" (plainExpense 450) s4).

(** *** The worked scenario: salary 15000, three dated expenses *)

Definition datedExpense (amount : Js.number) (category description : string) (date : Z)
    : ExpenseInput :=
  {| ei_amount := amount; ei_category := category; ei_description := description;
     ei_date := Some (DateObj date); ei_source := None |}.

(** [setSalary(15000)], then expenses 2000 (today), 1500 (yesterday) and 1000
    (two days ago), all entered at time [now]. *)
Definition threeExpenses (now nextSalaryDate : Z) : AppState :=
  let s1 := result (setSalary now nextSalaryDate 15000 monthly initialState) in
  let s2 := result (addExpense now "e1"
                      (datedExpense 2000 "Food" "Today's expenses" now) s1) in
  let s3 := result (addExpense now "e2"
                      (datedExpense 1500 "Transport" "Yesterday's travel"
                                    (now - msPerDay)) s2) in
  result (addExpense now "e3"
            (datedExpense 1000 "Entertainment" "Two days ago entertainment"
                          (now - 2 * msPerDay)) s3).

(** The values the scenario is said to yield; "about 1500" is within one half,
    the precision of the repository's own check. *)
Definition scenarioAsStated (now : Z) (state : AppState) : Prop :=
  (Qabs (Js.value (calculateAverageDailySpend now state) - 1500) < 1 # 2)%Q
  /\ Js.eqb (calculateDaysRemaining now state) 7 = true
  /\ exists fs : FuelStatus,
       calculateFuelStatus now state = Normal fs
       /\ Js.eqb (fs_percentage fs) 70 = true
       /\ fs_level fs = MEDIUM.

(** The expenses [calculateAverageDailySpend] counts. *)
Definition recentExpenses (now : Z) (state : AppState) : list Expense :=
  filter (fun expense =>
            date_geb (exp_date expense) (now - 30 * 24 * 60 * 60 * 1000)
            && negb (ExpenseSource_eqb (exp_source expense) recurring))
         (expenses state).

(** *** A ledger with one expense, persisted and reloaded *)

(** [setSalary(15000)] and one expense of 3000 dated now. *)
Definition oneExpense : AppState :=
  result (addExpense t0 "e1" (datedExpense 3000 "Food" "Monthly groceries" t0)
            (result (setSalary t0 (t0 + 30 * msPerDay) 15000 monthly initialState))).

(** *** Suggestions: the expected ranking, and a context with little fuel left *)

(** The active list is ranked and holds at most five suggestions. *)
Definition rankedTopFive (now : Z) (state : SuggestionsState) : Prop :=
  isRanked (getActiveSuggestions now state) = true
  /\ (List.length (getActiveSuggestions now state) <= 5)%nat.

Definition lowFuelContext : FinancialContext :=
  {| balance := 500; daysLeft := 5; ctx_salary := 10000; avgDailySpend := 100;
     topCategories := ["Food"]; totalExpenses := 9500; recurringBillsAmount := 5000 |}.

Definition foodHeavyAnalytics : SpendingAnalytics :=
  {| categoryBreakdown :=
       [ {| cs_category := "Food"; cs_amount := 9500; cs_percentage := 100; cs_count := 12 |} ] |}.

(** Ids "s0", "s1", ... for the worked examples. *)
Definition demoId (k : nat) : string :=
  String.append "s" (NilEmpty.string_of_uint (Nat.to_uint k)).

(** The suggestions built, in order, from a list of inputs. *)
Fixpoint mkAll (now : Z) (genId : nat -> string) (k : nat)
    (inputs : list SuggestionInput) : list Suggestion :=
  match inputs with
  | [] => []
  | input :: rest => mkSuggestion now (genId k) input :: mkAll now genId (S k) rest
  end.

(** The rule-based generator produced the urgent "emergency" suggestion. *)
Definition hasEmergency (inputs : list SuggestionInput) : bool :=
  existsb (fun input => SuggestionType_eqb (si_type input) EMERGENCY) inputs.

(** The emergency rule fires exactly below 5% of the salary. *)
Definition emergencyAtFivePercent (context : FinancialContext) : Prop :=
  hasEmergency (generateRuleBasedSuggestions context) = true
  <-> Js.ltb (balance context) (Js.mul (ctx_salary context) (Js.frac 5 100)) = true.

(** A balance of 7% of the salary. *)
Definition sevenPercentContext : FinancialContext :=
  {| balance := 700; daysLeft := 30; ctx_salary := 10000; avgDailySpend := 20;
     topCategories := []; totalExpenses := 9300; recurringBillsAmount := 0 |}.

(** *** Achievement traces *)











(** *** Quiet hours and the unread counter *)

(** [addNotification] stored a new unread record for the input, at the head
    of the list, and counted it. *)
Definition recorded (id : string) (input : NotificationInput)
    (before after : NotificationState) : Prop :=
  exists n : AppNotification,
    notifications after = n :: notifications before
    /\ n_id n = id
    /\ n_type n = ni_type input
    /\ n_title n = ni_title input
    /\ n_isRead n = false
    /\ unreadCount after = (unreadCount before + 1).

(** The time of day falls inside the configured window: between start and
    end when start is before end, at or after start or at or before end when
    the window spans midnight. *)
Definition insideWindow (currentTime startTime endTime : string) : Prop :=
  (String.ltb startTime endTime = true
   /\ String.leb startTime currentTime = true /\ String.leb currentTime endTime = true)
  \/ (String.ltb endTime startTime = true
      /\ (String.leb startTime currentTime = true \/ String.leb currentTime endTime = true)).

(** Quiet hours as described: inside the window everything that is not urgent
    is dropped, and everything urgent is recorded. *)
Definition quietHoursAsStated (now : Z) (currentTime id : string)
    (input : NotificationInput) (state : NotificationState) : Prop :=
  qh_enabled (quietHours (settings state)) = true ->
  insideWindow currentTime (qh_startTime (quietHours (settings state)))
               (qh_endTime (quietHours (settings state))) ->
  if isUrgent (ni_priority input)
  then recorded id input state (result (addNotification now currentTime id input state))
  else addNotification now currentTime id input state = ret state.

(** Fuel alerts switched off, quiet hours from 22:00 to 08:00. *)
Definition mutedFuelState : NotificationState :=
  {| notifications := [];
     settings :=
       {| fuelAlerts := false; bigSpendAlerts := true; achievementAlerts := true;
          billReminders := true; dailyReminders := true;
          quietHours := {| qh_enabled := true; qh_startTime := "22:00"; qh_endTime := "08:00" |};
          soundEnabled := true; vibrationEnabled := true |};
     unreadCount := 0 |}.

(** The same with fuel alerts on. *)
Definition quietState : NotificationState :=
  {| notifications := [];
     settings :=
       {| fuelAlerts := true; bigSpendAlerts := true; achievementAlerts := true;
          billReminders := true; dailyReminders := true;
          quietHours := {| qh_enabled := true; qh_startTime := "22:00"; qh_endTime := "08:00" |};
          soundEnabled := true; vibrationEnabled := true |};
     unreadCount := 0 |}.

Definition urgentFuelEmpty : NotificationInput :=
  {| ni_type := FUEL_EMPTY; ni_title := "Fuel Tank Empty"; ni_priority := Some P_URGENT |}.

(** The number of stored notifications with [isRead = false]. *)
Definition unreadIn (l : list AppNotification) : nat :=
  List.length (filter (fun n => negb (n_isRead n)) l).

(** A run of store operations for the worked example. *)
Definition sampleOps : list NotificationOp :=
  [ OpAdd t0 "10:00" "n1" createBigSpendNotification;
    OpAdd (t0 + 1) "10:00" "n2" createSalaryNotification;
    OpMarkAsRead "n1";
    OpMarkAsRead "n1";
    OpAdd (t0 + 2) "10:01" "n3" createFuelLowNotification;
    OpDelete "n2";
    OpMarkAsRead "unknown" ].

(** The invariant of the notification store: stored ids are pairwise distinct
    and [unreadCount] is the number of unread notifications. *)
Definition countConsistent (state : NotificationState) : Prop :=
  NoDup (map n_id (notifications state))
  /\ unreadCount state = Z.of_nat (unreadIn (notifications state)).

(** Two additions that draw the same id, then one [markAsRead]. *)
Definition repeatedIdOps : list NotificationOp :=
  [ OpAdd t0 "10:00" "n1" createBigSpendNotification;
    OpAdd (t0 + 1) "10:00" "n1" createSalaryNotification;
    OpMarkAsRead "n1" ].

(** *** The recomputation of the derived metrics *)

(** The recomputation completes: [calculateFuelStatus] returns. *)
Definition recomputes (now : Z) (state : AppState) : bool :=
  match calculateFuelStatus now state with
  | Normal _ => true
  | Throw _ => false
  end.

(** The level [calculateFuelStatus] computes from the ledger. *)
Definition computedLevel (state : AppState) : FuelLevel :=
  match salary state with
  | None => EMPTY
  | Some sal =>
      getFuelLevel
        (Js.Math_max 0
           (Js.Math_min 100
              (Js.mul (Js.div (calculateBalance state) (sal_amount sal)) 100)))
  end.

(** The stored metrics are those the calculators give for the stored ledger. *)
Definition metricsInLine (now : Z) (state : AppState) : Prop :=
  currentBalance state = calculateBalance state
  /\ daysRemaining state = calculateDaysRemaining now state
  /\ averageDailySpend state = calculateAverageDailySpend now state
  /\ calculateFuelStatus now state = Normal (fuelStatus state).

(** The stored metrics of two states are the same. *)
Definition sameMetrics (s s' : AppState) : Prop :=
  currentBalance s' = currentBalance s
  /\ daysRemaining s' = daysRemaining s
  /\ averageDailySpend s' = averageDailySpend s
  /\ fuelStatus s' = fuelStatus s.

(** The ledger of two states is the same. *)
Definition sameLedger (s s' : AppState) : Prop :=
  salary s' = salary s /\ expenses s' = expenses s
  /\ recurringBills s' = recurringBills s.


(** [shifted q k] is [q] followed by [k] zero bits. *)
Definition shifted (q : positive) (k : Z) : positive :=
  match k with
  | Zpos j => Pos.iter xO q j
  | _ => q
  end.

(** *** Notions for the further properties *)

(** An expense input booked as a recurring payment. *)
Definition recurringRent : ExpenseInput :=
  {| ei_amount := 8000; ei_category := "Rent"; ei_description := "Rent";
     ei_date := None; ei_source := Some recurring |}.


(** A monthly bill of 1000, without or with auto-deduction. *)
Definition internetBill (autoDeduct : option bool) : RecurringBillInput :=
  {| bi_name := "Internet"; bi_amount := 1000; bi_frequency := bill_monthly;
     bi_nextDueDate := DateObj (t0 + 30 * msPerDay); bi_category := "Utilities";
     bi_autoDeduct := autoDeduct |}.

(** [setSalary(10000)] on a fresh store, then an expense of 9800: the balance
    is 200, 2% of the salary, and the level the store computes is [empty],
    the level a fresh store holds. *)
Definition spentStore : AppState :=
  result (addExpense t0 "e1" (plainExpense 9800) afterFirstSalary).

(** After an action that changed the ledger to that of [s2] and recomputed:
    when the recomputation completes, no error is stored and the stored
    metrics are those of the new ledger; when it does not, the error names
    [NotificationService] and the stored metrics are left as they were. *)
Definition recomputed (now : Z) (s0 s2 after : AppState) : Prop :=
  if recomputes now s2
  then error after = None /\ metricsInLine now after
  else error after = Some (notDefined "NotificationService") /\ sameMetrics s0 after.

(** One unread notification in a fresh store. *)
Definition oneUnread : NotificationState :=
  result (addNotification t0 "10:00" "n1" createBigSpendNotification
            initialNotificationState).

(** The newest notification of a store ([notifications[0]]), for the worked
    examples; a store without notifications gives a placeholder. *)
Definition hd_unread (state : NotificationState) : AppNotification :=
  hd {| n_id := ""; n_type := SUGGESTION; n_title := ""; n_priority := P_LOW;
        n_isRead := true; n_createdAt := 0 |}
     (notifications state).

Definition hasSuggestionType (type : SuggestionType) (inputs : list SuggestionInput) : bool :=
  existsb (fun input => SuggestionType_eqb (si_type input) type) inputs.

(** A suggestion that was applied, and a history holding twenty of them. *)
Definition appliedSample : Suggestion :=
  setApplied
    (mkSuggestion t0 "old"
       {| si_type := SAVINGS; si_title := "Great Job!"; si_action := SAVE;
          si_priority := Some P_LOW; si_actionAmount := None; si_category := None;
          si_impact := {| daysGained := None; moneySaved := None;
                          confidenceScore := Js.frac 8 10 |};
          si_expiresAt := None |}).

Definition fullHistory : SuggestionsState :=
  {| suggestions :=
       suggestions (generateSuggestions t0 demoId lowFuelContext None
                                        initialSuggestionsState);
     suggestionsHistory := repeat appliedSample 20;
     lastGenerated := Some t0 |}.

(** A context with a negative salary, where the balance lies above half the
    salary and below a tenth of it. *)
Definition negativeSalaryContext : FinancialContext :=
  {| balance := - 3000; daysLeft := 21; ctx_salary := - 10000; avgDailySpend := 100;
     topCategories := []; totalExpenses := 0; recurringBillsAmount := 0 |}.

(** *** Notions used to state the properties of the services *)

Definition isLocked (a : Achievement) : bool :=
  match a_unlockedAt a with
  | None => true
  | Some _ => false
  end.

Definition lockedCount (table : list Achievement) : nat :=
  List.length (filter isLocked table).

(** What an update leaves alone: the identity of the achievement, its target,
    and the unlock date once it is set. *)
Definition keepsIdentity (a a' : Achievement) : Prop :=
  a_id a' = a_id a /\ a_title a' = a_title a /\ a_target a' = a_target a
  /\ forall t, a_unlockedAt a = Some t -> a_unlockedAt a' = Some t.

Definition achievementPush : Effect := AddNotification createAchievementNotification.

Definition keepsTable (f : list Achievement -> Eff (list Achievement)) : Prop :=
  forall table,
    Forall2 keepsIdentity table (result (f table))
    /\ Forall (eq achievementPush) (effects (f table))
    /\ (List.length (effects (f table)) + lockedCount (result (f table))
        = lockedCount table)%nat.

(** The pushes of [generateBillDueNotifications] for one bill, by the distance
    of its due instant from now. *)
Definition billDuePushes (now : Z) (bill : RecurringBill) : list Effect :=
  let diffTime := (date_ms (bill_nextDueDate bill) - now)%Z in
  if negb (bill_isActive bill) then []
  else if (0 <? diffTime)%Z && (diffTime <=? msPerDay)%Z
       then [SendImmediate "Bill Due Tomorrow" "bill_due"]
  else if (- msPerDay <? diffTime)%Z && (diffTime <=? 0)%Z
       then [SendImmediate "Bill Due Today" "bill_due"]
  else [].

(** A balance of 0.3 on a salary of 3. *)
Definition boundaryContext : FinancialContext :=
  {| balance := Js.frac 3 10; daysLeft := 30; ctx_salary := 3; avgDailySpend := 0;
     topCategories := []; totalExpenses := 0; recurringBillsAmount := 0 |}.

(** A ledger holding an expense whose amount is [NaN] and one of 5, both
    dated now. *)
Definition nanWeek : AppState :=
  set_expenses
    [ expenseOfInput t0 "e1" (plainExpense Js.NaN);
      expenseOfInput t0 "e2" (plainExpense 5) ]
    initialState.
(** * Properties *)

(** ** The order of numbers *)

Ltac number_cases x :=
  destruct x as [[|]|[|]| |[|] ? ?].

Ltac compare_cases :=
  repeat match goal with
         | |- context [Z.compare ?a ?b] => destruct (Z.compare_spec a b)
         | H : context [Z.compare ?a ?b] |- _ => destruct (Z.compare_spec a b)
         | |- context [Pos.compare_cont Eq ?a ?b] =>
             change (Pos.compare_cont Eq a b) with (Pos.compare a b);
             destruct (Pos.compare_spec a b)
         | H : context [Pos.compare_cont Eq ?a ?b] |- _ =>
             change (Pos.compare_cont Eq a b) with (Pos.compare a b) in H;
             destruct (Pos.compare_spec a b)
         end.

Ltac number_order :=
  unfold Js.ltb, Js.gtb, Js.leb, Js.geb, Js.eqb, SFltb, SFleb, SFeqb, SFcompare in *;
  compare_cases; simpl in *; subst;
  try reflexivity; try discriminate; try congruence; try lia.

Lemma ltb_leb_trans (x y z : Js.number) :
  Js.ltb x y = true -> Js.leb y z = true -> Js.ltb x z = true.
Proof.
  number_cases x; number_cases y; number_cases z; intros H1 H2; number_order.
Qed.

Lemma leb_ltb_trans (x y z : Js.number) :
  Js.leb x y = true -> Js.ltb y z = true -> Js.ltb x z = true.
Proof.
  number_cases x; number_cases y; number_cases z; intros H1 H2; number_order.
Qed.

Lemma ltb_trans (x y z : Js.number) :
  Js.ltb x y = true -> Js.ltb y z = true -> Js.ltb x z = true.
Proof.
  number_cases x; number_cases y; number_cases z; intros H1 H2; number_order.
Qed.

Lemma leb_trans (x y z : Js.number) :
  Js.leb x y = true -> Js.leb y z = true -> Js.leb x z = true.
Proof.
  number_cases x; number_cases y; number_cases z; intros H1 H2; number_order.
Qed.

Lemma ltb_leb (x y : Js.number) : Js.ltb x y = true -> Js.leb x y = true.
Proof. number_cases x; number_cases y; intros H1; number_order. Qed.

Lemma ltb_not_leb (x y : Js.number) : Js.ltb x y = true -> Js.leb y x = false.
Proof. number_cases x; number_cases y; intros H1; number_order. Qed.

Lemma ltb_irrefl (x : Js.number) : Js.ltb x x = false.
Proof. number_cases x; number_order. Qed.


Lemma leb_not_NaN (x y : Js.number) :
  Js.leb x y = true -> Js.isNaN x = false /\ Js.isNaN y = false.
Proof. number_cases x; number_cases y; intros H1; split; number_order. Qed.

Lemma ltb_not_NaN (x y : Js.number) :
  Js.ltb x y = true -> Js.isNaN x = false /\ Js.isNaN y = false.
Proof. number_cases x; number_cases y; intros H1; split; number_order. Qed.
(** ** Whole numbers

    Sums and differences of whole numbers below 2^53 are exact. *)

Lemma iter_pos_swap {A : Type} (f : A -> A) (n : positive) :
  forall x, iter_pos f n (f x) = f (iter_pos f n x).
Proof.
  induction n as [n IH|n IH|]; intro x; simpl.
  - rewrite !IH. reflexivity.
  - rewrite !IH. reflexivity.
  - reflexivity.
Qed.

Lemma iter_pos_iter {A : Type} (f : A -> A) (n : positive) :
  forall x, iter_pos f n x = Pos.iter f x n.
Proof.
  induction n as [n IH|n IH|]; intro x; simpl.
  - rewrite !iter_pos_swap, !IH. reflexivity.
  - rewrite !IH. reflexivity.
  - reflexivity.
Qed.

Lemma iter_xO_pow (p n : positive) :
  Zpos (Pos.iter xO p n) = Zpos p * 2 ^ Zpos n.
Proof.
  revert p. induction n as [|n IH] using Pos.peano_ind; intro p.
  - simpl. lia.
  - rewrite Pos.iter_succ. rewrite Pos2Z.inj_xO, IH.
    rewrite Pos2Z.inj_succ, Z.pow_succ_r by lia. lia.
Qed.

Lemma digits2_pos_xO_iter (p n : positive) :
  Zpos (digits2_pos (Pos.iter xO p n)) = Zpos (digits2_pos p) + Zpos n.
Proof.
  induction n as [|n IH] using Pos.peano_ind.
  - simpl. lia.
  - rewrite Pos.iter_succ. simpl digits2_pos. rewrite Pos2Z.inj_succ, IH. lia.
Qed.

(** [digits2_pos p] is the number of binary digits of [p]. *)
Lemma digits2_pos_bounds (p : positive) :
  2 ^ (Zpos (digits2_pos p) - 1) <= Zpos p < 2 ^ Zpos (digits2_pos p).
Proof.
  induction p as [p IH|p IH|]; simpl digits2_pos.
  - rewrite Pos2Z.inj_succ.
    replace (Z.succ (Zpos (digits2_pos p)) - 1) with (Z.succ (Zpos (digits2_pos p) - 1)) by lia.
    rewrite !Z.pow_succ_r by lia. lia.
  - rewrite Pos2Z.inj_succ.
    replace (Z.succ (Zpos (digits2_pos p)) - 1) with (Z.succ (Zpos (digits2_pos p) - 1)) by lia.
    rewrite !Z.pow_succ_r by lia. lia.
  - simpl. lia.
Qed.

Lemma digits2_pos_le (p : positive) (d : Z) :
  0 <= d -> Zpos p < 2 ^ d -> Zpos (digits2_pos p) <= d.
Proof.
  intros Hd Hp.
  destruct (Z.le_gt_cases (Zpos (digits2_pos p)) d) as [H|H]; [exact H|].
  pose proof (digits2_pos_bounds p) as [Hlo _].
  assert (2 ^ d <= 2 ^ (Zpos (digits2_pos p) - 1)) by (apply Z.pow_le_mono_r; lia).
  lia.
Qed.

(** Shifting out zero bits loses nothing. *)
Lemma shr_exact (q n : positive) (e : Z) :
  shr {| shr_m := Zpos (Pos.iter xO q n); shr_r := false; shr_s := false |} e (Zpos n)
  = ({| shr_m := Zpos q; shr_r := false; shr_s := false |}, e + Zpos n).
Proof.
  unfold shr. f_equal. rewrite iter_pos_iter.
  revert q. induction n as [|n IH] using Pos.peano_ind; intro q.
  - reflexivity.
  - rewrite Pos.iter_succ_r. rewrite Pos.iter_succ. simpl shr_1. apply IH.
Qed.

(** A mantissa of at most 53 digits, at an exponent in range, is kept as it
    is. *)
Lemma binary_round_aux_fits (s : bool) (m : positive) (e : Z) :
  Zpos (digits2_pos m) + e - 53 <= e -> -1074 <= e -> e <= 971 ->
  binary_round_aux Js.prec Js.emax s (Zpos m) e loc_Exact = S754_finite s m e.
Proof.
  intros Hd Hlo Hhi.
  unfold binary_round_aux, shr_fexp.
  assert (Hn : fexp Js.prec Js.emax (Zdigits2 (Zpos m) + e) - e <= 0).
  { unfold fexp, emin, Js.prec, Js.emax. simpl Zdigits2. lia. }
  assert (Hshr : forall mrs, shr mrs e (fexp Js.prec Js.emax (Zdigits2 (Zpos m) + e) - e)
                             = (mrs, e)).
  { intro mrs. unfold shr.
    destruct (fexp Js.prec Js.emax (Zdigits2 (Zpos m) + e) - e); [reflexivity|lia|reflexivity]. }
  rewrite Hshr. cbn [shr_record_of_loc shr_m loc_of_shr_record round_nearest_even].
  rewrite Hshr. cbn [shr_m].
  assert (Hle : (e <=? Js.emax - Js.prec) = true)
    by (apply Z.leb_le; unfold Js.emax, Js.prec; lia).
  rewrite Hle. reflexivity.
Qed.

Lemma shifted_pow (q : positive) (k : Z) :
  0 <= k -> Zpos (shifted q k) = Zpos q * 2 ^ k.
Proof.
  intro Hk. destruct k as [|j|j]; simpl shifted.
  - simpl. lia.
  - apply iter_xO_pow.
  - lia.
Qed.

Lemma shifted_digits (q : positive) (k : Z) :
  0 <= k -> Zpos (digits2_pos (shifted q k)) = Zpos (digits2_pos q) + k.
Proof.
  intro Hk. destruct k as [|j|j]; simpl shifted.
  - lia.
  - apply digits2_pos_xO_iter.
  - lia.
Qed.

Lemma shifted_shifted (q : positive) (a b : Z) :
  0 <= a -> 0 <= b -> shifted (shifted q a) b = shifted q (a + b).
Proof.
  intros Ha Hb. apply Pos2Z.inj.
  rewrite !shifted_pow by lia. rewrite Z.pow_add_r by lia. lia.
Qed.

Lemma shl_align_shifted (m : positive) (e e' : Z) :
  e' <= e -> shl_align m e e' = (shifted m (e - e'), e').
Proof.
  intro H. unfold shl_align.
  destruct (e' - e) as [|d|d] eqn:E.
  - assert (e = e') by lia. subst e'. rewrite Z.sub_diag. reflexivity.
  - lia.
  - assert (He : e - e' = Zpos d) by lia. rewrite He. reflexivity.
Qed.

Lemma shl_align_kept (m : positive) (e e' : Z) :
  e <= e' -> shl_align m e e' = (m, e).
Proof.
  intro H. unfold shl_align.
  destruct (e' - e) as [|d|d] eqn:E; [reflexivity|reflexivity|lia].
Qed.

Lemma shr_shifted (q : positive) (e n : Z) :
  0 <= n ->
  shr {| shr_m := Zpos (shifted q n); shr_r := false; shr_s := false |} e n
  = ({| shr_m := Zpos q; shr_r := false; shr_s := false |}, e + n).
Proof.
  intro Hn. destruct n as [|j|j].
  - simpl. rewrite Z.add_0_r. reflexivity.
  - apply shr_exact.
  - lia.
Qed.

(** Zero bits beyond the 53rd digit are shifted out exactly. *)
Lemma binary_round_aux_shifted (s : bool) (q : positive) (e n : Z) :
  0 <= n -> Zpos (digits2_pos q) = 53 -> -1074 <= e + n -> e + n <= 971 ->
  binary_round_aux Js.prec Js.emax s (Zpos (shifted q n)) e loc_Exact
  = S754_finite s q (e + n).
Proof.
  intros Hn Hd Hlo Hhi.
  unfold binary_round_aux, shr_fexp.
  assert (H1 : fexp Js.prec Js.emax (Zdigits2 (Zpos (shifted q n)) + e) - e = n).
  { unfold fexp, emin, Js.prec, Js.emax. simpl Zdigits2.
    rewrite shifted_digits by lia. lia. }
  rewrite H1. cbn [shr_record_of_loc]. rewrite shr_shifted by lia.
  cbn [shr_m loc_of_shr_record round_nearest_even].
  assert (H2 : fexp Js.prec Js.emax (Zdigits2 (Zpos q) + (e + n)) - (e + n) = 0).
  { unfold fexp, emin, Js.prec, Js.emax. simpl Zdigits2. lia. }
  rewrite H2. cbn [shr shr_record_of_loc shr_m].
  assert (Hle : (e + n <=? Js.emax - Js.prec) = true)
    by (apply Z.leb_le; unfold Js.emax, Js.prec; lia).
  rewrite Hle. reflexivity.
Qed.

(** Rounding [q * 2^k] at exponent [-k] gives the 53-digit form of [q]. *)
Lemma binary_round_whole (s : bool) (q : positive) (k : Z) :
  0 <= k -> Zpos q < 2 ^ 53 ->
  binary_round Js.prec Js.emax s (shifted q k) (- k)
  = S754_finite s (shifted q (53 - Zpos (digits2_pos q))) (Zpos (digits2_pos q) - 53).
Proof.
  intros Hk Hq.
  pose proof (digits2_pos_le q 53 ltac:(lia) Hq) as Hd.
  set (d := Zpos (digits2_pos q)) in *.
  assert (Hd0 : 0 < d) by (unfold d; lia).
  unfold binary_round.
  assert (Hf : fexp Js.prec Js.emax (Zpos (digits2_pos (shifted q k)) + - k) = d - 53).
  { rewrite shifted_digits by lia. unfold fexp, emin, Js.prec, Js.emax. fold d. lia. }
  rewrite Hf.
  destruct (Z.le_gt_cases (d - 53) (- k)) as [Hle|Hgt].
  - rewrite shl_align_shifted by lia.
    rewrite shifted_shifted by lia.
    replace (k + (- k - (d - 53))) with (53 - d) by lia.
    apply binary_round_aux_fits.
    + rewrite shifted_digits by lia. fold d. lia.
    + lia.
    + lia.
  - rewrite shl_align_kept by lia.
    replace (shifted q k) with (shifted (shifted q (53 - d)) (d - 53 + k)).
    2:{ rewrite shifted_shifted by lia. f_equal. lia. }
    rewrite (binary_round_aux_shifted s (shifted q (53 - d)) (- k) (d - 53 + k)).
    + f_equal. lia.
    + lia.
    + rewrite shifted_digits by lia. fold d. lia.
    + lia.
    + lia.
Qed.

(** The double of a whole number below 2^53, written out. *)
Lemma ofZ_pos (p : positive) :
  Zpos p < 2 ^ 53 ->
  Js.ofZ (Zpos p)
  = S754_finite false (shifted p (53 - Zpos (digits2_pos p))) (Zpos (digits2_pos p) - 53).
Proof.
  intro Hp. unfold Js.ofZ, binary_normalize.
  exact (binary_round_whole false p 0 ltac:(lia) Hp).
Qed.

Lemma ofZ_neg (p : positive) :
  Zpos p < 2 ^ 53 ->
  Js.ofZ (Zneg p)
  = S754_finite true (shifted p (53 - Zpos (digits2_pos p))) (Zpos (digits2_pos p) - 53).
Proof.
  intro Hp. unfold Js.ofZ, binary_normalize.
  exact (binary_round_whole true p 0 ltac:(lia) Hp).
Qed.

(** A whole number held at a finer exponent normalises to its double. *)
Lemma binary_normalize_whole (z k : Z) :
  0 <= k -> Z.abs z < 2 ^ 53 ->
  binary_normalize Js.prec Js.emax (z * 2 ^ k) (- k) false = Js.ofZ z.
Proof.
  intros Hk Hz.
  assert (Hpow : 0 < 2 ^ k) by (apply Z.pow_pos_nonneg; lia).
  destruct z as [|p|p].
  - reflexivity.
  - rewrite ofZ_pos by lia.
    destruct (Zpos p * 2 ^ k) as [|m|m] eqn:E; try lia.
    assert (m = shifted p k) by (apply Pos2Z.inj; rewrite shifted_pow by lia; lia).
    subst m. unfold binary_normalize. apply binary_round_whole; lia.
  - rewrite ofZ_neg by lia.
    destruct (Zneg p * 2 ^ k) as [|m|m] eqn:E; try lia.
    assert (m = shifted p k) by (apply Pos2Z.inj; rewrite shifted_pow by lia; lia).
    subst m. unfold binary_normalize. apply binary_round_whole; lia.
Qed.

Lemma ofZ_finite (z : Z) :
  z <> 0 -> Z.abs z < 2 ^ 53 ->
  exists m e, Js.ofZ z = S754_finite (z <? 0) m e
              /\ cond_Zopp (z <? 0) (Zpos m) = z * 2 ^ (- e) /\ e <= 0.
Proof.
  intros Hz Hlt. destruct z as [|p|p]; [congruence| |].
  - pose proof (digits2_pos_le p 53 ltac:(lia) ltac:(lia)) as Hd.
    exists (shifted p (53 - Zpos (digits2_pos p))), (Zpos (digits2_pos p) - 53).
    split; [apply ofZ_pos; lia|]. split; [|lia].
    cbn [Z.ltb Z.compare cond_Zopp]. rewrite shifted_pow by lia. f_equal. f_equal. lia.
  - pose proof (digits2_pos_le p 53 ltac:(lia) ltac:(lia)) as Hd.
    exists (shifted p (53 - Zpos (digits2_pos p))), (Zpos (digits2_pos p) - 53).
    split; [apply ofZ_neg; lia|]. split; [|lia].
    cbn [Z.ltb Z.compare cond_Zopp]. rewrite shifted_pow by lia.
    replace (- (Zpos (digits2_pos p) - 53)) with (53 - Zpos (digits2_pos p)) by lia. lia.
Qed.

Lemma aligned_value (s : bool) (m : positive) (e ez z : Z) :
  cond_Zopp s (Zpos m) = z * 2 ^ (- e) -> e <= 0 -> ez <= e ->
  cond_Zopp s (Zpos (fst (shl_align m e ez))) = z * 2 ^ (- ez).
Proof.
  intros Hm He Hez. rewrite shl_align_shifted by lia. cbn [fst].
  replace (- ez) with (- e + (e - ez)) by lia.
  rewrite Z.pow_add_r by lia. rewrite Z.mul_assoc, <- Hm.
  pose proof (shifted_pow m (e - ez) ltac:(lia)) as Hs.
  destruct s; cbn [cond_Zopp] in *; lia.
Qed.

(** Adding whole numbers is exact while the sum stays below 2^53. *)
Lemma add_whole (a b : Z) :
  Z.abs a < 2 ^ 53 -> Z.abs b < 2 ^ 53 -> Z.abs (a + b) < 2 ^ 53 ->
  Js.add (Js.ofZ a) (Js.ofZ b) = Js.ofZ (a + b).
Proof.
  intros Ha Hb Hab.
  destruct (Z.eq_dec a 0) as [->|Ha0].
  { destruct (Z.eq_dec b 0) as [->|Hb0]; [reflexivity|].
    destruct (ofZ_finite b Hb0 Hb) as (m & e & E & _). rewrite Z.add_0_l, E. reflexivity. }
  destruct (Z.eq_dec b 0) as [->|Hb0].
  { destruct (ofZ_finite a Ha0 Ha) as (m & e & E & _). rewrite Z.add_0_r, E. reflexivity. }
  destruct (ofZ_finite a Ha0 Ha) as (ma & ea & Ea & Va & Hea).
  destruct (ofZ_finite b Hb0 Hb) as (mb & eb & Eb & Vb & Heb).
  rewrite Ea, Eb. unfold Js.add, SFadd.
  change IntDef.Z.min with Z.min.
  set (ez := Z.min ea eb).
  rewrite (aligned_value _ _ _ ez a Va Hea) by (unfold ez; lia).
  rewrite (aligned_value _ _ _ ez b Vb Heb) by (unfold ez; lia).
  rewrite <- Z.mul_add_distr_r.
  replace ez with (- (- ez)) at 2 by lia.
  apply binary_normalize_whole; [unfold ez; lia|exact Hab].
Qed.

(** Subtracting whole numbers is exact while the difference stays below
    2^53. *)
Lemma sub_whole (a b : Z) :
  Z.abs a < 2 ^ 53 -> Z.abs b < 2 ^ 53 -> Z.abs (a - b) < 2 ^ 53 ->
  Js.sub (Js.ofZ a) (Js.ofZ b) = Js.ofZ (a - b).
Proof.
  intros Ha Hb Hab.
  destruct (Z.eq_dec a 0) as [->|Ha0].
  { destruct (Z.eq_dec b 0) as [->|Hb0]; [reflexivity|].
    destruct (ofZ_finite b Hb0 Hb) as (m & e & E & _).
    destruct (ofZ_finite (- b) ltac:(lia) ltac:(lia)) as (m' & e' & E' & _).
    destruct b as [|p|p]; [congruence| |].
    - rewrite ofZ_pos by lia. change (0 - Zpos p) with (Zneg p).
      rewrite ofZ_neg by lia. reflexivity.
    - rewrite ofZ_neg by lia. change (0 - Zneg p) with (Zpos p).
      rewrite ofZ_pos by lia. reflexivity. }
  destruct (Z.eq_dec b 0) as [->|Hb0].
  { destruct (ofZ_finite a Ha0 Ha) as (m & e & E & _). rewrite Z.sub_0_r, E. reflexivity. }
  destruct (ofZ_finite a Ha0 Ha) as (ma & ea & Ea & Va & Hea).
  destruct (ofZ_finite b Hb0 Hb) as (mb & eb & Eb & Vb & Heb).
  rewrite Ea, Eb. unfold Js.sub, SFsub.
  change IntDef.Z.min with Z.min.
  set (ez := Z.min ea eb).
  rewrite (aligned_value _ _ _ ez a Va Hea) by (unfold ez; lia).
  rewrite (aligned_value _ _ _ ez b Vb Heb) by (unfold ez; lia).
  rewrite <- Z.mul_sub_distr_r.
  replace ez with (- (- ez)) at 2 by lia.
  apply binary_normalize_whole; [unfold ez; lia|exact Hab].
Qed.

Lemma digits2_pos_lt (p q : positive) :
  Zpos (digits2_pos p) < Zpos (digits2_pos q) -> Zpos p < Zpos q.
Proof.
  intro H.
  pose proof (digits2_pos_bounds p) as [_ Hp].
  pose proof (digits2_pos_bounds q) as [Hq _].
  assert (2 ^ Zpos (digits2_pos p) <= 2 ^ (Zpos (digits2_pos q) - 1))
    by (apply Z.pow_le_mono_r; lia).
  lia.
Qed.

Lemma compare_53_digits (p q : positive) :
  Zpos p < 2 ^ 53 -> Zpos q < 2 ^ 53 ->
  match Zpos (digits2_pos p) - 53 ?= Zpos (digits2_pos q) - 53 with
  | Eq => Pos.compare_cont Eq (shifted p (53 - Zpos (digits2_pos p)))
                              (shifted q (53 - Zpos (digits2_pos q)))
  | Lt => Lt
  | Gt => Gt
  end = (p ?= q)%positive.
Proof.
  intros Hp Hq.
  pose proof (digits2_pos_le p 53 ltac:(lia) Hp) as Hdp.
  pose proof (digits2_pos_le q 53 ltac:(lia) Hq) as Hdq.
  destruct (Z.compare_spec (Zpos (digits2_pos p) - 53) (Zpos (digits2_pos q) - 53))
    as [E|E|E].
  - assert (Hd : Zpos (digits2_pos q) = Zpos (digits2_pos p)) by lia. rewrite Hd.
    change (Pos.compare_cont Eq ?x ?y) with (Zpos x ?= Zpos y).
    change (p ?= q)%positive with (Zpos p ?= Zpos q).
    rewrite !shifted_pow by lia.
    assert (Hpow : 0 < 2 ^ (53 - Zpos (digits2_pos p))) by (apply Z.pow_pos_nonneg; lia).
    destruct (Z.compare_spec (Zpos p) (Zpos q));
      [apply Z.compare_eq_iff|apply Z.compare_lt_iff|apply Z.compare_gt_iff]; nia.
  - symmetry. change (p ?= q)%positive with (Zpos p ?= Zpos q).
    apply Z.compare_lt_iff. apply digits2_pos_lt. lia.
  - symmetry. change (p ?= q)%positive with (Zpos p ?= Zpos q).
    apply Z.compare_gt_iff. apply digits2_pos_lt. lia.
Qed.

(** Whole numbers below 2^53 compare as integers. *)
Lemma compare_whole (a b : Z) :
  Z.abs a < 2 ^ 53 -> Z.abs b < 2 ^ 53 ->
  SFcompare (Js.ofZ a) (Js.ofZ b) = Some (a ?= b).
Proof.
  intros Ha Hb.
  destruct a as [|p|p]; destruct b as [|q|q];
    rewrite ?ofZ_pos, ?ofZ_neg by lia; try reflexivity.
  - cbn [SFcompare]. f_equal. rewrite compare_53_digits by lia. reflexivity.
  - cbn [SFcompare]. f_equal.
    change (Zneg p ?= Zneg q) with (CompOpp (p ?= q)%positive).
    rewrite <- (compare_53_digits p q) by lia.
    destruct (Zpos (digits2_pos p) - 53 ?= Zpos (digits2_pos q) - 53); reflexivity.
Qed.

Lemma ltb_whole (a b : Z) :
  Z.abs a < 2 ^ 53 -> Z.abs b < 2 ^ 53 -> Js.ltb (Js.ofZ a) (Js.ofZ b) = (a <? b).
Proof.
  intros Ha Hb. unfold Js.ltb, SFltb, Z.ltb. rewrite compare_whole by assumption.
  destruct (a ?= b); reflexivity.
Qed.

Lemma leb_whole (a b : Z) :
  Z.abs a < 2 ^ 53 -> Z.abs b < 2 ^ 53 -> Js.leb (Js.ofZ a) (Js.ofZ b) = (a <=? b).
Proof.
  intros Ha Hb. unfold Js.leb, SFleb, Z.leb. rewrite compare_whole by assumption.
  destruct (a ?= b); reflexivity.
Qed.

Lemma eqb_whole (a b : Z) :
  Z.abs a < 2 ^ 53 -> Z.abs b < 2 ^ 53 -> Js.eqb (Js.ofZ a) (Js.ofZ b) = (a =? b).
Proof.
  intros Ha Hb. unfold Js.eqb, SFeqb. rewrite compare_whole by assumption.
  destruct (Z.compare_spec a b) as [E|E|E]; symmetry;
    [apply Z.eqb_eq|apply Z.eqb_neq|apply Z.eqb_neq]; lia.
Qed.

Lemma ofZ_not_special (z : Z) :
  Z.abs z < 2 ^ 53 ->
  Js.isNaN (Js.ofZ z) = false /\ Js.isNegativeZero (Js.ofZ z) = false.
Proof.
  intro Hz. destruct z as [|p|p]; rewrite ?ofZ_pos, ?ofZ_neg by lia; split; reflexivity.
Qed.

Lemma max_whole (a b : Z) :
  Z.abs a < 2 ^ 53 -> Z.abs b < 2 ^ 53 ->
  Js.Math_max (Js.ofZ a) (Js.ofZ b) = Js.ofZ (Z.max a b).
Proof.
  intros Ha Hb. unfold Js.Math_max.
  destruct (ofZ_not_special a Ha) as [Na Za].
  destruct (ofZ_not_special b Hb) as [Nb Zb].
  rewrite Na, Nb, Za, ltb_whole by assumption.
  rewrite Bool.andb_false_r, Bool.orb_false_r. cbn [orb].
  destruct (Z.ltb_spec a b); cbn [orb]; f_equal; lia.
Qed.


(** The value of the double of a whole number is that number. *)
Lemma value_whole (z : Z) :
  Z.abs z < 2 ^ 53 -> (Js.value (Js.ofZ z) == inject_Z z)%Q.
Proof.
  intro Hz.
  destruct (Z.eq_dec z 0) as [->|Hz0]; [reflexivity|].
  destruct (ofZ_finite z Hz0 Hz) as (m & e & E & V & He).
  rewrite E. unfold Js.value. rewrite V.
  rewrite inject_Z_mult.
  assert (Hpos : 0 < 2 ^ (- e)) by (apply Z.pow_pos_nonneg; lia).
  assert (Hq : (Qpower 2 e == / inject_Z (2 ^ (- e)))%Q).
  { rewrite <- (Z.opp_involutive e) at 1. rewrite Qpower_opp.
    rewrite Zpower_Qpower by lia. reflexivity. }
  rewrite Hq. field.
  intro H0. unfold Qeq in H0. simpl in H0. lia.
Qed.

(** ** The effect log *)

Lemma result_bind {A B : Type} (m : Eff A) (k : A -> Eff B) :
  result (bind m k) = result (k (result m)).
Proof.
  unfold bind, result. destruct m as [a log1]. simpl.
  destruct (k a) as [b log2]. reflexivity.
Qed.

Lemma effects_bind {A B : Type} (m : Eff A) (k : A -> Eff B) :
  effects (bind m k) = effects m ++ effects (k (result m)).
Proof.
  unfold bind, effects, result. destruct m as [a log1]. simpl.
  destruct (k a) as [b log2]. reflexivity.
Qed.

Lemma FuelLevel_eqb_eq (a b : FuelLevel) : FuelLevel_eqb a b = true <-> a = b.
Proof. destruct a, b; simpl; split; intro H; try reflexivity; discriminate H. Qed.

(** ** Suggestions *)

Lemma addAll_suggestions (now : Z) (genId : nat -> string) (inputs : list SuggestionInput) :
  forall (k : nat) (state : SuggestionsState),
    suggestions (addAll now genId k inputs state)
    = suggestions state ++ mkAll now genId k inputs.
Proof.
  induction inputs as [|input rest IH]; intros k state; simpl.
  - symmetry. apply app_nil_r.
  - rewrite IH. simpl. rewrite <- app_assoc. reflexivity.
Qed.

Lemma generateSuggestions_suggestions (now : Z) (genId : nat -> string)
    (context : FinancialContext) (analytics : option SpendingAnalytics)
    (state : SuggestionsState) :
  suggestions (generateSuggestions now genId context analytics state)
  = filter (fun s => s_isApplied s || s_isDismissed s) (suggestions state)
    ++ mkAll now genId 0
         (MockAIService.generateSuggestions context analytics
          ++ generateRuleBasedSuggestions context).
Proof.
  unfold generateSuggestions. simpl. rewrite addAll_suggestions. reflexivity.
Qed.

Lemma retained_not_active (now : Z) (l : list Suggestion) :
  filter (isActive now) (filter (fun s => s_isApplied s || s_isDismissed s) l) = [].
Proof.
  induction l as [|s l IH]; simpl; [reflexivity|].
  destruct (s_isApplied s) eqn:Ha; simpl.
  - unfold isActive. rewrite Ha. simpl. exact IH.
  - destruct (s_isDismissed s) eqn:Hd; simpl; [|exact IH].
    unfold isActive. rewrite Ha, Hd. simpl. exact IH.
Qed.

Lemma mkAll_active (now now' : Z) (genId : nat -> string) (inputs : list SuggestionInput) :
  Forall (fun input => si_expiresAt input = None) inputs ->
  forall k, filter (isActive now') (mkAll now genId k inputs) = mkAll now genId k inputs.
Proof.
  induction 1 as [|input rest Hin _ IH]; intro k; simpl; [reflexivity|].
  unfold isActive at 1. simpl. rewrite Hin. simpl. rewrite IH. reflexivity.
Qed.

Lemma mkAll_length (now : Z) (genId : nat -> string) (inputs : list SuggestionInput) :
  forall k, List.length (mkAll now genId k inputs) = List.length inputs.
Proof.
  induction inputs as [|input rest IH]; intro k; simpl; [reflexivity|].
  rewrite IH. reflexivity.
Qed.

Lemma pushIf_Forall {A : Type} (P : A -> Prop) (cond : bool) (x : A) :
  P x -> Forall P (pushIf cond x).
Proof.
  intro Hx. unfold pushIf. destruct cond; [constructor; [exact Hx | constructor] | constructor].
Qed.

Lemma pushIf_length {A : Type} (cond : bool) (x : A) :
  List.length (pushIf cond x) = if cond then 1%nat else 0%nat.
Proof. destruct cond; reflexivity. Qed.

Lemma generated_never_expire (context : FinancialContext)
    (analytics : option SpendingAnalytics) :
  Forall (fun input => si_expiresAt input = None)
    (MockAIService.generateSuggestions context analytics
     ++ generateRuleBasedSuggestions context).
Proof.
  unfold MockAIService.generateSuggestions, generateRuleBasedSuggestions.
  repeat (apply Forall_app; split);
    try (apply pushIf_Forall; reflexivity).
  - destruct analytics as [an|]; [|constructor].
    destruct (categoryBreakdown an); [constructor|].
    apply pushIf_Forall. reflexivity.
  - constructor; [reflexivity | constructor].
  - destruct (topCategories context); constructor; [reflexivity | constructor].
Qed.

Lemma few_days_left (d : Js.number) :
  Js.ltb d 10 = true -> Js.gtb d 20 = false /\ Js.gtb d 25 = false.
Proof.
  intro H. unfold Js.gtb. split.
  - destruct (SFltb 20 d) eqn:E; [|reflexivity].
    pose proof (ltb_trans 20 d 10 E H) as Habs. vm_compute in Habs. discriminate Habs.
  - destruct (SFltb 25 d) eqn:E; [|reflexivity].
    pose proof (ltb_trans 25 d 10 E H) as Habs. vm_compute in Habs. discriminate Habs.
Qed.

Lemma generated_at_most_seven (context : FinancialContext)
    (analytics : option SpendingAnalytics) :
  (List.length (MockAIService.generateSuggestions context analytics
                ++ generateRuleBasedSuggestions context) <= 7)%nat.
Proof.
  unfold MockAIService.generateSuggestions, generateRuleBasedSuggestions.
  repeat rewrite length_app. repeat rewrite pushIf_length.
  destruct (Js.ltb (daysLeft context) 10) eqn:Hlow.
  - destruct (few_days_left _ Hlow) as [H20 H25]. rewrite H20, H25, andb_false_r.
    destruct analytics as [[[|c cs]]|]; destruct (topCategories context);
      simpl; rewrite ?pushIf_length;
      repeat match goal with
             | |- context [if ?b then _ else _] => destruct b
             end; simpl; lia.
  - rewrite andb_false_l.
    destruct analytics as [[[|c cs]]|]; destruct (topCategories context);
      simpl; rewrite ?pushIf_length;
      repeat match goal with
             | |- context [if ?b then _ else _] => destruct b
             end; simpl; lia.
Qed.

(** C3, as stated, fails.  With five days of fuel left the store holds seven
    active suggestions after [generateSuggestions], and the first three are
    high, normal, normal followed by the urgent emergency one. *)
Lemma generateSuggestions_not_ranked :
  ~ rankedTopFive t0
      (generateSuggestions t0 demoId lowFuelContext (Some foodHeavyAnalytics)
                           initialSuggestionsState).
Proof.
  unfold rankedTopFive. intros [Hranked _].
  vm_compute in Hranked. discriminate Hranked.
Qed.

(** C3, amended.  After [generateSuggestions] the active suggestions are
    exactly the newly generated ones in generation order, the AI service's
    suggestions first and the rule-based ones after them, neither sorted nor
    truncated; there are at most seven of them. *)
Theorem generateSuggestions_active (now now' : Z) (genId : nat -> string)
    (context : FinancialContext) (analytics : option SpendingAnalytics)
    (state : SuggestionsState) :
  getActiveSuggestions now' (generateSuggestions now genId context analytics state)
  = mkAll now genId 0
      (MockAIService.generateSuggestions context analytics
       ++ generateRuleBasedSuggestions context)
  /\ (List.length
        (getActiveSuggestions now' (generateSuggestions now genId context analytics state))
      <= 7)%nat.
Proof.
  assert (Hactive :
    getActiveSuggestions now' (generateSuggestions now genId context analytics state)
    = mkAll now genId 0
        (MockAIService.generateSuggestions context analytics
         ++ generateRuleBasedSuggestions context)).
  { unfold getActiveSuggestions. rewrite generateSuggestions_suggestions.
    rewrite filter_app, retained_not_active. simpl.
    apply mkAll_active. apply generated_never_expire. }
  split; [exact Hactive|].
  rewrite Hactive, mkAll_length. apply generated_at_most_seven.
Qed.

(** ** The emergency rule *)

Lemma hasEmergency_app (l1 l2 : list SuggestionInput) :
  hasEmergency (l1 ++ l2) = hasEmergency l1 || hasEmergency l2.
Proof. unfold hasEmergency. apply existsb_app. Qed.

Lemma hasEmergency_pushIf (cond : bool) (x : SuggestionInput) :
  hasEmergency (pushIf cond x) = cond && SuggestionType_eqb (si_type x) EMERGENCY.
Proof. destruct cond; simpl; [apply orb_false_r | reflexivity]. Qed.

Lemma hasEmergency_rules (context : FinancialContext) :
  hasEmergency (generateRuleBasedSuggestions context)
  = Js.ltb (balance context) (Js.mul (ctx_salary context) (Js.frac 1 10)).
Proof.
  unfold generateRuleBasedSuggestions. cbv zeta.
  rewrite !hasEmergency_app, !hasEmergency_pushIf.
  cbn [si_type SuggestionType_eqb].
  rewrite !andb_false_r, andb_true_r.
  destruct (topCategories context); cbn [hasEmergency existsb si_type SuggestionType_eqb];
    rewrite !orb_false_r; reflexivity.
Qed.

(** C7, as stated, fails.  At a balance of 7% of the salary the emergency
    suggestion is produced. *)
Lemma emergency_at_seven_percent :
  ~ emergencyAtFivePercent sevenPercentContext.
Proof.
  unfold emergencyAtFivePercent. intros [Hfires _].
  assert (H : hasEmergency (generateRuleBasedSuggestions sevenPercentContext) = true)
    by (vm_compute; reflexivity).
  apply Hfires in H. vm_compute in H. discriminate H.
Qed.

(** C7, amended.  The rule-based generator produces the emergency suggestion
    exactly when [balance < salary * 0.1], the product taken in double
    arithmetic with the double nearest to 0.1; the suggestion is urgent and
    asks to reduce spending. *)
Theorem emergency_iff_below_ten_percent (context : FinancialContext) :
  (hasEmergency (generateRuleBasedSuggestions context) = true
   <-> Js.ltb (balance context) (Js.mul (ctx_salary context) (Js.frac 1 10)) = true)
  /\ (Js.value (Js.frac 1 10) == 3602879701896397 # 36028797018963968)%Q
  /\ Forall (fun input =>
               si_type input = EMERGENCY ->
               si_priority input = Some P_URGENT /\ si_action input = REDUCE_SPENDING)
            (generateRuleBasedSuggestions context).
Proof.
  split; [|split].
  - rewrite hasEmergency_rules. reflexivity.
  - vm_compute. reflexivity.
  - unfold generateRuleBasedSuggestions.
    repeat (apply Forall_app; split);
      try (apply pushIf_Forall; cbn [si_type si_priority si_action]; intro H;
           try discriminate H; split; reflexivity).
    destruct (topCategories context); constructor; [|constructor].
    cbn [si_type]. intro H. discriminate H.
Qed.

(** At the boundary the double product decides: [3 * 0.1] is
    0.30000000000000004, so a balance of 0.3 on a salary of 3 is in emergency
    mode. *)
Lemma emergency_at_boundary :
  hasEmergency (generateRuleBasedSuggestions boundaryContext) = true
  /\ (Js.value (balance boundaryContext) < Js.value (Js.mul (ctx_salary boundaryContext)
                                                         (Js.frac 1 10)))%Q.
Proof. split; vm_compute; reflexivity. Qed.
(** ** Quiet hours *)

Lemma string_ltb_asym (s1 s2 : string) :
  String.ltb s1 s2 = true -> String.ltb s2 s1 = false.
Proof.
  unfold String.ltb. rewrite (String.compare_antisym s2 s1).
  destruct (String.compare s1 s2); simpl; intro H; congruence.
Qed.

(** The window is the interval from start to end when start is before end,
    and wraps over midnight when end is before start. *)
Lemma isInQuietHours_window (currentTime startTime endTime : string) :
  (String.ltb startTime endTime = true ->
   isInQuietHours currentTime startTime endTime
   = String.leb startTime currentTime && String.leb currentTime endTime)
  /\ (String.ltb endTime startTime = true ->
      isInQuietHours currentTime startTime endTime
      = String.leb startTime currentTime || String.leb currentTime endTime).
Proof.
  unfold isInQuietHours. split; intro H.
  - rewrite H. reflexivity.
  - rewrite (string_ltb_asym _ _ H). reflexivity.
Qed.

Lemma insideWindow_isInQuietHours (currentTime startTime endTime : string) :
  insideWindow currentTime startTime endTime ->
  isInQuietHours currentTime startTime endTime = true.
Proof.
  destruct (isInQuietHours_window currentTime startTime endTime) as [Hday Hnight].
  intros [(Hlt & H1 & H2) | (Hlt & H)].
  - rewrite (Hday Hlt), H1, H2. reflexivity.
  - rewrite (Hnight Hlt). apply orb_true_iff.
    destruct H as [H | H]; [left | right]; exact H.
Qed.

Lemma night_window : insideWindow "23:30" "22:00" "08:00".
Proof. right. split; [reflexivity | left; reflexivity]. Qed.

(** C9, as stated, fails.  At 23:30, inside quiet hours from 22:00 to 08:00,
    an urgent fuel-empty notification is not recorded when fuel alerts are
    switched off. *)
Lemma urgent_dropped_when_type_disabled :
  ~ quietHoursAsStated t0 "23:30" "n1" urgentFuelEmpty mutedFuelState.
Proof.
  unfold quietHoursAsStated. intro H.
  specialize (H eq_refl night_window). simpl in H.
  destruct H as (n & Hn & _). discriminate Hn.
Qed.

(** C9, amended.  With quiet hours enabled and the local time of day inside
    the window, [addNotification] drops every notification whose priority is
    not urgent: no record, no change of the count, no push.  An urgent
    notification passes the quiet hours and is recorded, provided its category
    is switched on; with the category off it is dropped like the others. *)
Theorem quiet_hours_gate (now : Z) (currentTime id : string)
    (input : NotificationInput) (state : NotificationState) :
  qh_enabled (quietHours (settings state)) = true ->
  insideWindow currentTime (qh_startTime (quietHours (settings state)))
               (qh_endTime (quietHours (settings state))) ->
  if isUrgent (ni_priority input) && isTypeEnabled (settings state) (ni_type input)
  then recorded id input state (result (addNotification now currentTime id input state))
  else addNotification now currentTime id input state = ret state.
Proof.
  intros Hon Hin. apply insideWindow_isInQuietHours in Hin.
  unfold addNotification. rewrite Hon, Hin.
  destruct (isTypeEnabled (settings state) (ni_type input)); simpl.
  - destruct (isUrgent (ni_priority input)); simpl; [|reflexivity].
    eexists. repeat split.
  - rewrite andb_false_r. reflexivity.
Qed.

(** At 23:30 the urgent alert is recorded, the big-spend alert is dropped. *)
Lemma quiet_hours_gate_witness :
  recorded "n1" urgentFuelEmpty quietState
    (result (addNotification t0 "23:30" "n1" urgentFuelEmpty quietState))
  /\ addNotification t0 "23:30" "n2" createBigSpendNotification quietState = ret quietState.
Proof.
  split.
  - apply (quiet_hours_gate t0 "23:30" "n1" urgentFuelEmpty quietState).
    + reflexivity.
    + right. split; [reflexivity | left; reflexivity].
  - apply (quiet_hours_gate t0 "23:30" "n2" createBigSpendNotification quietState).
    + reflexivity.
    + right. split; [reflexivity | left; reflexivity].
Defined.

(** ** The unread counter *)

Lemma hasId_true (id : string) (n : AppNotification) : hasId id n = true <-> n_id n = id.
Proof. unfold hasId. apply String.eqb_eq. Qed.

Lemma hasId_absent (id : string) (l : list AppNotification) :
  ~ In id (map n_id l) -> forall n, In n l -> hasId id n = false.
Proof.
  intros Hnot n Hn. destruct (hasId id n) eqn:E; [|reflexivity].
  exfalso. apply Hnot. apply hasId_true in E. rewrite <- E. apply in_map. exact Hn.
Qed.

Lemma find_absent (id : string) (l : list AppNotification) :
  ~ In id (map n_id l) -> Js.find (hasId id) l = None.
Proof.
  intro Hnot. unfold Js.find.
  induction l as [|x l IH]; simpl; [reflexivity|].
  rewrite (hasId_absent id (x :: l) Hnot x (or_introl eq_refl)).
  apply IH. intro H. apply Hnot. right. exact H.
Qed.

Lemma find_none_absent (id : string) (l : list AppNotification) :
  Js.find (hasId id) l = None -> forall n, In n l -> hasId id n = false.
Proof. unfold Js.find. apply find_none. Qed.

Lemma map_mark_absent (id : string) (l : list AppNotification) :
  (forall n, In n l -> hasId id n = false) ->
  map (fun n => if hasId id n then setRead n else n) l = l.
Proof.
  intro H. rewrite <- (map_id l) at 2. apply map_ext_in.
  intros n Hn. rewrite (H n Hn). reflexivity.
Qed.

Lemma map_mark_ids (id : string) (l : list AppNotification) :
  map n_id (map (fun n => if hasId id n then setRead n else n) l) = map n_id l.
Proof.
  rewrite map_map. apply map_ext. intro n. destruct (hasId id n); reflexivity.
Qed.

Lemma filter_absent (id : string) (l : list AppNotification) :
  (forall n, In n l -> hasId id n = false) ->
  filter (fun n => negb (hasId id n)) l = l.
Proof.
  intro H. apply forallb_filter_id. apply forallb_forall.
  intros n Hn. rewrite (H n Hn). reflexivity.
Qed.

Lemma mark_count (id : string) (l : list AppNotification) (n : AppNotification) :
  NoDup (map n_id l) ->
  Js.find (hasId id) l = Some n ->
  n_isRead n = false ->
  unreadIn l = S (unreadIn (map (fun n => if hasId id n then setRead n else n) l)).
Proof.
  unfold Js.find, unreadIn.
  induction l as [|x l IH]; simpl; intros Hnd Hfind Hunread; [discriminate|].
  apply NoDup_cons_iff in Hnd. destruct Hnd as [Hx Hnd].
  destruct (hasId id x) eqn:E.
  - injection Hfind as ->. simpl. rewrite Hunread. simpl.
    apply hasId_true in E. rewrite E in Hx.
    rewrite (map_mark_absent id l (hasId_absent id l Hx)). reflexivity.
  - destruct (n_isRead x); simpl.
    + apply IH; assumption.
    + f_equal. apply IH; assumption.
Qed.

Lemma delete_count (id : string) (l : list AppNotification) (n : AppNotification) :
  NoDup (map n_id l) ->
  Js.find (hasId id) l = Some n ->
  unreadIn l
  = ((if n_isRead n then 0 else 1) + unreadIn (filter (fun n => negb (hasId id n)) l))%nat.
Proof.
  unfold Js.find, unreadIn.
  induction l as [|x l IH]; simpl; intros Hnd Hfind; [discriminate|].
  apply NoDup_cons_iff in Hnd. destruct Hnd as [Hx Hnd].
  destruct (hasId id x) eqn:E; simpl.
  - injection Hfind as ->.
    apply hasId_true in E. rewrite E in Hx.
    rewrite (filter_absent id l (hasId_absent id l Hx)).
    destruct (n_isRead n); reflexivity.
  - specialize (IH Hnd Hfind).
    destruct (n_isRead x); simpl; rewrite IH; destruct (n_isRead n); simpl; lia.
Qed.

Lemma filter_ids_NoDup (p : AppNotification -> bool) (l : list AppNotification) :
  NoDup (map n_id l) -> NoDup (map n_id (filter p l)).
Proof.
  induction l as [|x l IH]; simpl; intro Hnd; [constructor|].
  apply NoDup_cons_iff in Hnd. destruct Hnd as [Hx Hnd].
  destruct (p x); simpl; [|apply IH; exact Hnd].
  constructor; [|apply IH; exact Hnd].
  intro Hin. apply Hx. apply in_map_iff in Hin. destruct Hin as (y & Hy & Hin).
  apply filter_In in Hin. apply in_map_iff. exists y. tauto.
Qed.

Lemma markAll_count (l : list AppNotification) : unreadIn (map setRead l) = 0%nat.
Proof. unfold unreadIn. induction l as [|x l IH]; simpl; [reflexivity | exact IH]. Qed.

Lemma markAll_ids (l : list AppNotification) : map n_id (map setRead l) = map n_id l.
Proof. rewrite map_map. reflexivity. Qed.

Lemma markAsRead_consistent (id : string) (state : NotificationState) :
  countConsistent state -> countConsistent (markAsRead id state).
Proof.
  intros [Hnd Hcount]. unfold markAsRead.
  destruct (Js.find (hasId id) (notifications state)) as [n|] eqn:Hfind;
    [|split; assumption].
  destruct (n_isRead n) eqn:Hread; [split; assumption|].
  split; simpl.
  - rewrite map_mark_ids. exact Hnd.
  - rewrite Hcount, (mark_count id _ n Hnd Hfind Hread). lia.
Qed.

Lemma deleteNotification_consistent (id : string) (state : NotificationState) :
  countConsistent state -> countConsistent (deleteNotification id state).
Proof.
  intros [Hnd Hcount]. unfold deleteNotification.
  split; simpl; [apply filter_ids_NoDup; exact Hnd|].
  destruct (Js.find (hasId id) (notifications state)) as [n|] eqn:Hfind.
  - rewrite Hcount, (delete_count id _ n Hnd Hfind).
    destruct (n_isRead n); cbn [negb]; lia.
  - rewrite (filter_absent id _ (find_none_absent id _ Hfind)). exact Hcount.
Qed.

Lemma addNotification_consistent (now : Z) (currentTime id : string)
    (input : NotificationInput) (state : NotificationState) :
  ~ In id (map n_id (notifications state)) ->
  countConsistent state ->
  countConsistent (result (addNotification now currentTime id input state)).
Proof.
  intros Hfresh [Hnd Hcount]. unfold addNotification.
  destruct (negb (isTypeEnabled _ _)); [split; assumption|].
  destruct (qh_enabled _ && _); [split; assumption|].
  rewrite result_bind. split; simpl.
  - constructor; assumption.
  - rewrite Hcount. unfold unreadIn. simpl. lia.
Qed.

Lemma applyOp_consistent (op : NotificationOp) (state : NotificationState) :
  match op with
  | OpAdd _ _ id _ => ~ In id (map n_id (notifications state))
  | _ => True
  end ->
  countConsistent state -> countConsistent (applyOp op state).
Proof.
  intros Hfresh Hinv. destruct op; simpl.
  - apply addNotification_consistent; assumption.
  - apply markAsRead_consistent; exact Hinv.
  - destruct Hinv as [Hnd _]. split; simpl.
    + rewrite markAll_ids. exact Hnd.
    + rewrite markAll_count. reflexivity.
  - apply deleteNotification_consistent; exact Hinv.
  - split; simpl; [constructor | reflexivity].
  - exact Hinv.
Qed.

Lemma runOps_consistent (ops : list NotificationOp) :
  forall state : NotificationState,
    freshIds ops state -> countConsistent state -> countConsistent (runOps ops state).
Proof.
  induction ops as [|op ops IH]; intros state Hfresh Hinv; simpl; [exact Hinv|].
  destruct Hfresh as [Hop Hrest].
  apply IH; [exact Hrest|]. apply applyOp_consistent; assumption.
Qed.

Lemma markAsRead_noop (id : string) (state : NotificationState) :
  ~ In id (map n_id (getUnreadNotifications state)) -> markAsRead id state = state.
Proof.
  intro Hnot. unfold markAsRead.
  destruct (Js.find (hasId id) (notifications state)) as [n|] eqn:Hfind; [|reflexivity].
  destruct (n_isRead n) eqn:Hread; [reflexivity|].
  exfalso. apply Hnot. unfold Js.find in Hfind.
  apply find_some in Hfind. destruct Hfind as [Hin Hid].
  apply hasId_true in Hid. rewrite <- Hid. apply in_map.
  unfold getUnreadNotifications. apply filter_In. rewrite Hread. split; [exact Hin | reflexivity].
Qed.

(** C10, as stated, fails.  [generateId] draws an id from [Math.random] and
    the clock, and nothing keeps it from returning an id that is stored
    already.  After two additions under the same id, one [markAsRead] marks
    both records and counts one: [unreadCount] is 1 and no notification is
    unread. *)
Lemma repeated_id_breaks_count :
  unreadCount (runOps repeatedIdOps initialNotificationState) = 1%Z
  /\ getUnreadNotifications (runOps repeatedIdOps initialNotificationState) = []
  /\ unreadCount (runOps repeatedIdOps initialNotificationState)
     <> Z.of_nat (List.length
                    (getUnreadNotifications (runOps repeatedIdOps initialNotificationState))).
Proof. split; [reflexivity|]. split; [reflexivity|]. discriminate. Qed.

(** C10, amended.  Starting from the initial empty notification state, after
    any sequence of [addNotification], [markAsRead], [markAllAsRead],
    [deleteNotification] and [clearAllNotifications] (and [updateSettings])
    in which every id drawn by [generateId] is fresh, [unreadCount] is the
    number of stored notifications with [isRead = false] and is not negative;
    and after any sequence at all, [markAsRead] on an id that is unknown or
    already read leaves the state, count and list included, unchanged. *)
Theorem unreadCount_invariant (ops : list NotificationOp) :
  (freshIds ops initialNotificationState ->
   unreadCount (runOps ops initialNotificationState)
   = Z.of_nat (List.length (getUnreadNotifications (runOps ops initialNotificationState)))
   /\ (0 <= unreadCount (runOps ops initialNotificationState))%Z)
  /\ forall id : string,
       ~ In id (map n_id (getUnreadNotifications (runOps ops initialNotificationState))) ->
       markAsRead id (runOps ops initialNotificationState)
       = runOps ops initialNotificationState.
Proof.
  split.
  - intro Hfresh.
    assert (Hinit : countConsistent initialNotificationState)
      by (split; simpl; [constructor | reflexivity]).
    destruct (runOps_consistent ops _ Hfresh Hinit) as [_ Hcount].
    split; [exact Hcount|].
    rewrite Hcount. apply Nat2Z.is_nonneg.
  - intros id Hid. apply markAsRead_noop. exact Hid.
Qed.

(** Three additions, one read twice, one deletion: one notification unread. *)
Lemma unreadCount_invariant_witness :
  freshIds sampleOps initialNotificationState
  /\ unreadCount (runOps sampleOps initialNotificationState) = 1%Z
  /\ unreadCount (runOps sampleOps initialNotificationState)
     = Z.of_nat (List.length (getUnreadNotifications (runOps sampleOps initialNotificationState))).
Proof.
  assert (Hfresh : freshIds sampleOps initialNotificationState).
  { simpl. repeat split; intro H; repeat (destruct H as [H | H]; [discriminate H|]); exact H. }
  split; [exact Hfresh|]. split; [reflexivity|].
  destruct (unreadCount_invariant sampleOps) as [Hcount _].
  exact (proj1 (Hcount Hfresh)).
Defined.
(** ** The app store *)

(** The calculators read the ledger only; [calculateFuelStatus] also reads
    the stored level. *)
Lemma calculateBalance_ledger (s s' : AppState) :
  sameLedger s s' -> calculateBalance s' = calculateBalance s.
Proof.
  intros (Hs & He & Hb). unfold calculateBalance. rewrite Hs, He, Hb. reflexivity.
Qed.

Lemma calculateAverageDailySpend_ledger (now : Z) (s s' : AppState) :
  sameLedger s s' -> calculateAverageDailySpend now s' = calculateAverageDailySpend now s.
Proof.
  intros (Hs & He & Hb). unfold calculateAverageDailySpend. rewrite He. reflexivity.
Qed.

Lemma calculateDaysRemaining_ledger (now : Z) (s s' : AppState) :
  sameLedger s s' -> calculateDaysRemaining now s' = calculateDaysRemaining now s.
Proof.
  intro H. unfold calculateDaysRemaining.
  rewrite (calculateBalance_ledger s s' H), (calculateAverageDailySpend_ledger now s s' H).
  reflexivity.
Qed.

Lemma calculateFuelStatus_ledger (now : Z) (s s' : AppState) :
  sameLedger s s' -> fs_level (fuelStatus s') = fs_level (fuelStatus s) ->
  calculateFuelStatus now s' = calculateFuelStatus now s.
Proof.
  intros H Hl. unfold calculateFuelStatus.
  rewrite (calculateBalance_ledger s s' H), (calculateDaysRemaining_ledger now s s' H).
  destruct H as (Hs & _). rewrite Hs, Hl. reflexivity.
Qed.

Lemma computedLevel_ledger (s s' : AppState) :
  sameLedger s s' -> computedLevel s' = computedLevel s.
Proof.
  intro H. unfold computedLevel. rewrite (calculateBalance_ledger s s' H).
  destruct H as (Hs & _). rewrite Hs. reflexivity.
Qed.

(** [calculateFuelStatus] returns exactly when no salary is set or the level
    it computes is the stored one; the status it returns carries that level. *)
Lemma recomputes_iff (now : Z) (state : AppState) :
  recomputes now state
  = match salary state with
    | None => true
    | Some _ => FuelLevel_eqb (fs_level (fuelStatus state)) (computedLevel state)
    end.
Proof.
  unfold recomputes, computedLevel, calculateFuelStatus.
  destruct (salary state) as [sal|]; [|reflexivity].
  destruct (FuelLevel_eqb _ _); reflexivity.
Qed.

Lemma calculateFuelStatus_level (now : Z) (state : AppState) (fs : FuelStatus) :
  calculateFuelStatus now state = Normal fs -> fs_level fs = computedLevel state.
Proof.
  unfold calculateFuelStatus, computedLevel.
  destruct (salary state) as [sal|].
  - destruct (FuelLevel_eqb _ _); intro H; inversion H; reflexivity.
  - intro H. inversion H. reflexivity.
Qed.

Lemma calculateFuelStatus_throws (now : Z) (state : AppState) (message : string) :
  calculateFuelStatus now state = Throw message ->
  message = notDefined "NotificationService"
  /\ fs_level (fuelStatus state) <> computedLevel state.
Proof.
  unfold calculateFuelStatus, computedLevel.
  destruct (salary state) as [sal|]; [|discriminate].
  destruct (FuelLevel_eqb _ _) eqn:E; cbn [negb]; intro H; [discriminate H|].
  inversion H. split; [reflexivity|].
  intro Heq. apply FuelLevel_eqb_eq in Heq. rewrite Heq in E. discriminate E.
Qed.

(** What the evaluation of the object literal of the derived values leaves. *)
Lemma derivedValues_step (now : Z) (s : AppState) :
  derivedValues now s
  = match calculateFuelStatus now s with
    | Normal fs =>
        mkStep (Normal (set_derived (calculateBalance s) (calculateDaysRemaining now s)
                                    (calculateAverageDailySpend now s) fs)) s []
    | Throw message => mkStep (Throw message) s []
    end.
Proof.
  unfold derivedValues, andThen, getState, evaluate, pure. cbn [completion store requested].
  destruct (calculateFuelStatus now s); reflexivity.
Qed.

Lemma derivedValues3_step (now : Z) (s : AppState) :
  derivedValues3 now s
  = match calculateFuelStatus now s with
    | Normal fs =>
        mkStep (Normal (set_derived3 (calculateBalance s) (calculateDaysRemaining now s) fs))
               s []
    | Throw message => mkStep (Throw message) s []
    end.
Proof.
  unfold derivedValues3, andThen, getState, evaluate, pure. cbn [completion store requested].
  destruct (calculateFuelStatus now s); reflexivity.
Qed.

(** The steps of an action, one at a time. *)
Lemma step_setState {B : Type} (f : AppState -> AppState) (k : unit -> Action B)
    (s : AppState) :
  andThen (setState f) k s = k tt (f s).
Proof. unfold andThen, setState. simpl. destruct (k tt (f s)); reflexivity. Qed.

Lemma step_getState {B : Type} (k : AppState -> Action B) (s : AppState) :
  andThen getState k s = k s s.
Proof. unfold andThen, getState. simpl. destruct (k s s); reflexivity. Qed.

Lemma step_pure {A B : Type} (a : A) (k : A -> Action B) (s : AppState) :
  andThen (pure a) k s = k a s.
Proof. unfold andThen, pure. simpl. destruct (k a s); reflexivity. Qed.

Lemma step_unbound {A B : Type} (name : string) (k : A -> Action B) (s : AppState) :
  andThen (unbound name) k s = mkStep (Throw (notDefined name)) s [].
Proof. reflexivity. Qed.

Lemma step_request {B : Type} (e : Effect) (k : unit -> Action B) (s : AppState) :
  andThen (request e) k s
  = mkStep (completion (k tt s)) (store (k tt s)) (e :: requested (k tt s)).
Proof. reflexivity. Qed.

Lemma step_derivedValues {B : Type} (now : Z) (k : (AppState -> AppState) -> Action B)
    (s : AppState) :
  andThen (derivedValues now) k s
  = match calculateFuelStatus now s with
    | Normal fs =>
        k (set_derived (calculateBalance s) (calculateDaysRemaining now s)
                       (calculateAverageDailySpend now s) fs) s
    | Throw message => mkStep (Throw message) s []
    end.
Proof.
  unfold andThen at 1. rewrite derivedValues_step.
  destruct (calculateFuelStatus now s) as [fs|message]; simpl; [|reflexivity].
  destruct (k _ s); reflexivity.
Qed.

Lemma step_derivedValues3 {B : Type} (now : Z) (k : (AppState -> AppState) -> Action B)
    (s : AppState) :
  andThen (derivedValues3 now) k s
  = match calculateFuelStatus now s with
    | Normal fs =>
        k (set_derived3 (calculateBalance s) (calculateDaysRemaining now s) fs) s
    | Throw message => mkStep (Throw message) s []
    end.
Proof.
  unfold andThen at 1. rewrite derivedValues3_step.
  destruct (calculateFuelStatus now s) as [fs|message]; simpl; [|reflexivity].
  destruct (k _ s); reflexivity.
Qed.

(** An action of the store: [set({ isLoading: true, error: null })], then the
    [try] block with the common [catch] and [finally]. *)
Lemma run_action (body : Action unit) (s0 : AppState) :
  run (setState (set_loading true None) >>> tryCatchFinally body storeError clearLoading) s0
  = let r := body (set_loading true None s0) in
    (set_isLoading false
       match completion r with
       | Normal _ => store r
       | Throw message => set_error (Some message) (store r)
       end,
     requested r).
Proof.
  unfold run. rewrite step_setState. unfold tryCatchFinally. cbv zeta.
  destruct (body (set_loading true None s0)) as [[u|message] st log];
    cbn [completion store requested storeError clearLoading setState];
    rewrite ?app_nil_r; reflexivity.
Qed.

(** [addExpense], step by step. *)
Lemma addExpense_result (now : Z) (id : string) (input : ExpenseInput) (s0 : AppState) :
  let s2 := set_expenses (expenses s0 ++ [expenseOfInput now id input])
                         (set_loading true None s0) in
  addExpense now id input s0
  = match calculateFuelStatus now s2 with
    | Throw message => (set_isLoading false (set_error (Some message) s2), [])
    | Normal fs =>
        let s3 := set_derived (calculateBalance s2) (calculateDaysRemaining now s2)
                              (calculateAverageDailySpend now s2) fs s2 in
        (set_isLoading false
           (set_error
              (Some (if Js.gtb (ei_amount input)
                               (Js.mul (currentBalance s0) (Js.frac 1 10))
                     then notDefined "createBigSpendNotification"
                     else notDefined "NotificationService")) s3), [])
    end.
Proof.
  cbv zeta. unfold addExpense. rewrite run_action. cbv zeta.
  rewrite step_setState, step_getState, step_derivedValues.
  destruct (calculateFuelStatus now _) as [fs|message]; [|reflexivity].
  rewrite step_setState.
  cbn [exp_amount expenseOfInput currentBalance set_expenses set_loading].
  destruct (Js.gtb (ei_amount input) _).
  - unfold andThen at 1. rewrite step_unbound. reflexivity.
  - rewrite step_pure, step_unbound. reflexivity.
Qed.

Lemma recomputes_loading (now : Z) (s : AppState) (loading : bool) (err : option string) :
  calculateFuelStatus now (set_loading loading err s) = calculateFuelStatus now s.
Proof. apply calculateFuelStatus_ledger; [repeat split | reflexivity]. Qed.

Lemma setSalary_result (now next : Z) (amount : Js.number) (frequency : SalaryFrequency)
    (s0 : AppState) :
  let s1 := set_loading true None s0 in
  let newSalary :=
    {| sal_amount := amount; sal_frequency := frequency;
       sal_lastUpdated := DateObj now; sal_nextSalaryDate := DateObj next;
       sal_recurringBillsDeducted :=
         Js.reduce_sum bill_amount
           (filter (fun bill => bill_isActive bill && bill_autoDeduct bill)
                   (recurringBills s0)) |} in
  setSalary now next amount frequency s0
  = match calculateFuelStatus now s1 with
    | Throw message => (set_isLoading false (set_error (Some message) s1), [])
    | Normal fs =>
        (set_isLoading false
           (set_error (Some (notDefined "createSalaryNotification"))
              (set_derived (calculateBalance s1) (calculateDaysRemaining now s1)
                           (calculateAverageDailySpend now s1) fs
                           (set_salary newSalary s1))), [])
    end.
Proof.
  cbv zeta. unfold setSalary. rewrite run_action. cbv zeta.
  rewrite step_getState, step_derivedValues.
  destruct (calculateFuelStatus now _) as [fs|message]; [|reflexivity].
  rewrite step_setState, step_unbound. reflexivity.
Qed.

Lemma refreshData_result (now : Z) (s0 : AppState) :
  let s1 := set_loading true None s0 in
  refreshData now s0
  = match calculateFuelStatus now s1 with
    | Throw message => (set_isLoading false (set_error (Some message) s1), [])
    | Normal fs =>
        (set_isLoading false
           (set_derived (calculateBalance s1) (calculateDaysRemaining now s1)
                        (calculateAverageDailySpend now s1) fs s1), [])
    end.
Proof.
  cbv zeta. unfold refreshData. rewrite run_action. cbv zeta.
  rewrite step_derivedValues.
  destruct (calculateFuelStatus now _) as [fs|message]; reflexivity.
Qed.

(** Once the recomputed values are stored, the calculators agree with them. *)
Lemma metricsInLine_stored (now : Z) (s : AppState) (fs : FuelStatus)
    (loading : bool) (err : option string) :
  calculateFuelStatus now s = Normal fs ->
  metricsInLine now
    (set_loading loading err
       (set_derived (calculateBalance s) (calculateDaysRemaining now s)
                    (calculateAverageDailySpend now s) fs s)).
Proof.
  intro Hfs.
  set (after := set_loading _ _ _).
  assert (Hl : sameLedger s after) by (repeat split).
  split; [reflexivity|]. split; [reflexivity|]. split; [reflexivity|].
  assert (Hrefl : forall l, FuelLevel_eqb l l = true) by (destruct l; reflexivity).
  unfold calculateFuelStatus in *.
  rewrite (calculateBalance_ledger s after Hl), (calculateDaysRemaining_ledger now s after Hl).
  change (salary after) with (salary s). change (fuelStatus after) with fs.
  destruct (salary s) as [sal|]; [|exact Hfs].
  destruct (FuelLevel_eqb (fs_level (fuelStatus s)) _); [|discriminate Hfs].
  cbn [negb] in Hfs. inversion Hfs as [Heq]. cbn [fs_level].
  rewrite Hrefl. reflexivity.
Qed.

(** ** Fuel notifications *)




(** ** [addExpense] *)

(** C4, as stated, fails.  [addExpense] with amount -500 stores the
    expense. *)
Lemma addExpense_accepts_negative_amount :
  ~ addExpenseRejected afterFirstSalary
      (result (addExpense t0 "e1" negativeExpense afterFirstSalary)).
Proof.
  unfold addExpenseRejected. intros (_ & Hexpenses & _).
  vm_compute in Hexpenses. discriminate Hexpenses.
Qed.

(** C4, amended.  [addExpense] does not validate the amount.  For every
    input, whatever the sign of its amount, the expense is appended to the
    expenses list, stamped with the time of the call; salary and bills are
    unchanged; and when the recomputation on the extended ledger completes,
    the stored metrics are those of the extended ledger. *)
Theorem addExpense_appends (now : Z) (id : string) (input : ExpenseInput) (s0 : AppState) :
  let after := result (addExpense now id input s0) in
  expenses after = expenses s0 ++ [expenseOfInput now id input]
  /\ exp_amount (expenseOfInput now id input) = ei_amount input
  /\ exp_createdAt (expenseOfInput now id input) = DateObj now
  /\ exp_updatedAt (expenseOfInput now id input) = DateObj now
  /\ salary after = salary s0
  /\ recurringBills after = recurringBills s0
  /\ isLoading after = false
  /\ if recomputes now (set_expenses (expenses s0 ++ [expenseOfInput now id input]) s0)
     then metricsInLine now after
     else True.
Proof.
  cbv zeta. rewrite addExpense_result. cbv zeta.
  unfold recomputes.
  rewrite <- (recomputes_loading now (set_expenses _ s0) true None).
  change (set_loading true None (set_expenses (expenses s0 ++ [expenseOfInput now id input]) s0))
    with (set_expenses (expenses s0 ++ [expenseOfInput now id input])
                       (set_loading true None s0)).
  destruct (calculateFuelStatus now _) as [fs|message] eqn:Hfs.
  - do 7 (split; [reflexivity|]).
    exact (metricsInLine_stored now _ fs false (Some _) Hfs).
  - do 7 (split; [reflexivity|]). exact I.
Qed.

(** An expense of 9800 after [setSalary(10000)]: the level stays [empty] and
    the stored balance follows the extended ledger. *)
Lemma addExpense_appends_witness :
  recomputes t0
    (set_expenses (expenses afterFirstSalary ++ [expenseOfInput t0 "e1" (plainExpense 9800)])
                  afterFirstSalary) = true
  /\ currentBalance (result (addExpense t0 "e1" (plainExpense 9800) afterFirstSalary))
     = calculateBalance (result (addExpense t0 "e1" (plainExpense 9800) afterFirstSalary)).
Proof.
  assert (Hrun : recomputes t0
                   (set_expenses
                      (expenses afterFirstSalary
                       ++ [expenseOfInput t0 "e1" (plainExpense 9800)])
                      afterFirstSalary) = true) by (vm_compute; reflexivity).
  destruct (addExpense_appends t0 "e1" (plainExpense 9800) afterFirstSalary)
    as (_ & _ & _ & _ & _ & _ & _ & H).
  rewrite Hrun in H. destruct H as (Hbalance & _).
  split; [exact Hrun|exact Hbalance].
Defined.

(** ** The worked scenario *)

(** C8 fails on the code.  With salary 15000 and the expenses 2000 (today),
    1500 (yesterday) and 1000 (two days ago) the ledger gives balance 10500,
    but the burn rate is 150 (the 4500 spent over the fixed 30-day window),
    150 not being about 1500, 70 days remain, and 70% is level high;
    [calculateFuelStatus] itself throws in this state, and the stored metrics
    are still those of the fresh store. *)
Theorem threeExpenses_metrics :
  let state := threeExpenses t0 (t0 + 30 * msPerDay) in
  calculateBalance state = 10500
  /\ calculateAverageDailySpend t0 state = 150
  /\ calculateDaysRemaining t0 state = 70
  /\ computedLevel state = HIGH
  /\ getFuelLevel 70 = HIGH
  /\ calculateFuelStatus t0 state = Throw (notDefined "NotificationService")
  /\ currentBalance state = 0
  /\ averageDailySpend state = 0
  /\ daysRemaining state = 0
  /\ ~ scenarioAsStated t0 state.
Proof.
  cbv zeta. repeat (split; [vm_compute; reflexivity|]).
  unfold scenarioAsStated. intros (_ & Hdays & _).
  vm_compute in Hdays. discriminate Hdays.
Qed.

(** ** Persistence *)

(** C6 fails on the code.  With salary 15000 and one expense of 3000 dated
    now, the burn rate is 100 and 120 days remain; after persisting and
    reloading, the same ledger gives burn rate 0 and the sentinel 999. *)
Theorem reload_changes_metrics :
  calculateBalance oneExpense = 12000
  /\ calculateBalance (reload oneExpense) = 12000
  /\ calculateAverageDailySpend t0 oneExpense = 100
  /\ calculateAverageDailySpend t0 (reload oneExpense) = 0
  /\ calculateDaysRemaining t0 oneExpense = 120
  /\ calculateDaysRemaining t0 (reload oneExpense) = 999
  /\ averageDailySpend (reload oneExpense) = 0.
Proof.
  repeat split; vm_compute; reflexivity.
Qed.
(** ** The balance *)

Lemma sumZ_nonneg (zs : list Z) : Forall (fun z => 0 <= z) zs -> 0 <= sumZ zs.
Proof.
  induction 1 as [|z zs Hz _ IH]; simpl; lia.
Qed.

Lemma fold_add_whole {A : Type} (f : A -> Js.number) (xs : list A) :
  forall (zs : list Z) (a : Z),
    map f xs = map Js.ofZ zs -> Forall (fun z => 0 <= z) zs ->
    0 <= a -> a + sumZ zs < 2 ^ 53 ->
    fold_left (fun sum x => Js.add sum (f x)) xs (Js.ofZ a) = Js.ofZ (a + sumZ zs).
Proof.
  induction xs as [|x xs IH]; intros zs a Hmap Hall Ha Hsum.
  - destruct zs as [|z zs]; [|discriminate Hmap]. simpl. rewrite Z.add_0_r. reflexivity.
  - destruct zs as [|z zs]; [discriminate Hmap|].
    injection Hmap as Hx Hmap. inversion Hall as [|? ? Hz Hall']; subst.
    pose proof (sumZ_nonneg zs Hall') as Hrest.
    simpl sumZ in *. cbn [fold_left]. rewrite Hx.
    rewrite add_whole by lia.
    rewrite (IH zs (a + z) Hmap Hall') by lia.
    f_equal. lia.
Qed.

Lemma reduce_sum_whole {A : Type} (f : A -> Js.number) (xs : list A) (zs : list Z) :
  wholeAmounts f xs zs -> sumZ zs < 2 ^ 53 ->
  Js.reduce_sum f xs = Js.ofZ (sumZ zs).
Proof.
  intros [Hmap Hall] Hsum. unfold Js.reduce_sum.
  rewrite (fold_add_whole f xs zs 0 Hmap Hall) by lia. reflexivity.
Qed.

Lemma sigma_whole {A : Type} (f : A -> Js.number) (xs : list A) :
  forall zs : list Z,
    wholeAmounts f xs zs -> sumZ zs < 2 ^ 53 ->
    (sigma (fun x => Js.value (f x)) xs == inject_Z (sumZ zs))%Q.
Proof.
  induction xs as [|x xs IH]; intros zs [Hmap Hall] Hsum.
  - destruct zs as [|z zs]; [|discriminate Hmap]. reflexivity.
  - destruct zs as [|z zs]; [discriminate Hmap|].
    injection Hmap as Hx Hmap. inversion Hall as [|? ? Hz Hall']; subst.
    pose proof (sumZ_nonneg zs Hall') as Hrest.
    simpl sumZ in *. cbn [sigma]. rewrite Hx.
    rewrite value_whole by lia.
    rewrite (IH zs) by (try split; try assumption; lia).
    rewrite inject_Z_plus. reflexivity.
Qed.

Lemma Qmax_whole (x : Z) (q : Q) :
  (q == inject_Z x)%Q -> (Qmax 0 q == inject_Z (Z.max 0 x))%Q.
Proof.
  intro Hq. destruct (Z.le_gt_cases 0 x) as [H|H].
  - rewrite Z.max_r by lia. rewrite Q.max_r; [exact Hq|].
    rewrite Hq. change 0%Q with (inject_Z 0). rewrite <- Zle_Qle. exact H.
  - rewrite Z.max_l by lia. rewrite Q.max_l; [reflexivity|].
    rewrite Hq. change 0%Q with (inject_Z 0). rewrite <- Zle_Qle. lia.
Qed.

Lemma isFinite_whole (z : Z) : Z.abs z < 2 ^ 53 -> Js.isFinite (Js.ofZ z) = true.
Proof.
  intro Hz. destruct z as [|p|p]; rewrite ?ofZ_pos, ?ofZ_neg by lia; reflexivity.
Qed.

(** [Math.max(0, y)] is never negative. *)
Lemma Math_max_zero (y : Js.number) :
  Js.Math_max 0 y = Js.NaN \/ Js.leb 0 (Js.Math_max 0 y) = true.
Proof.
  destruct y as [s|s| |s m e]; try destruct s;
    first [left; reflexivity | right; reflexivity].
Qed.

Lemma autoDeducted_twice (bills : list RecurringBill) :
  autoDeducted (autoDeducted bills) = autoDeducted bills.
Proof.
  unfold autoDeducted. induction bills as [|bill bills IH]; [reflexivity|].
  simpl. destruct (bill_isActive bill && bill_autoDeduct bill) eqn:E; [|exact IH].
  simpl. rewrite E, IH. reflexivity.
Qed.

(** On whole amounts the balance is the formula, exactly. *)
Lemma calculateBalance_whole (state : AppState) (sal : SalaryData) (s : Z)
    (es bs : list Z) :
  salary state = Some sal -> sal_amount sal = Js.ofZ s -> 0 <= s < 2 ^ 53 ->
  wholeAmounts exp_amount (expenses state) es ->
  wholeAmounts bill_amount (autoDeducted (recurringBills state)) bs ->
  sumZ es + sumZ bs < 2 ^ 53 ->
  calculateBalance state = Js.ofZ (Z.max 0 (s - sumZ es - sumZ bs))
  /\ balanceAsStated state.
Proof.
  intros Hsal Hs Hrange Hes Hbs Hsum.
  pose proof (sumZ_nonneg es (proj2 Hes)) as He0.
  pose proof (sumZ_nonneg bs (proj2 Hbs)) as Hb0.
  assert (Hcalc : calculateBalance state = Js.ofZ (Z.max 0 (s - sumZ es - sumZ bs))).
  { unfold calculateBalance. rewrite Hsal, Hs.
    fold (autoDeducted (recurringBills state)).
    rewrite (reduce_sum_whole exp_amount _ es Hes) by lia.
    rewrite (reduce_sum_whole bill_amount _ bs Hbs) by lia.
    rewrite sub_whole by lia. rewrite sub_whole by lia.
    apply max_whole; lia. }
  split; [exact Hcalc|].
  unfold balanceAsStated. rewrite Hcalc.
  split; [apply isFinite_whole; lia|]. split.
  - rewrite value_whole by lia. symmetry.
    unfold balanceFormula. rewrite Hsal. apply Qmax_whole.
    rewrite Hs, value_whole by lia.
    rewrite (sigma_whole exp_amount _ es Hes) by lia.
    rewrite (sigma_whole bill_amount _ bs Hbs) by lia.
    rewrite !inject_Z_minus || (unfold Z.sub; rewrite !inject_Z_plus, !inject_Z_opp).
    reflexivity.
  - change (Js.leb (Js.ofZ 0) (Js.ofZ (Z.max 0 (s - sumZ es - sumZ bs))) = true).
    rewrite leb_whole by lia. apply Z.leb_le. lia.
Qed.

(** C1, as stated, fails.  With a salary of 9007199254740994 and expenses of
    9007199254740992, 1 and 1 the formula gives 0, and [calculateBalance]
    returns 2: each 1 is lost when it is added to 9007199254740992.  With a
    salary of [NaN] it returns [NaN], which is not a number at or above 0. *)
Lemma balance_rounded_or_NaN :
  calculateBalance roundedLedger = Js.ofZ 2
  /\ (balanceFormula roundedLedger == 0)%Q
  /\ ~ balanceAsStated roundedLedger
  /\ calculateBalance nanLedger = Js.NaN
  /\ ~ balanceAsStated nanLedger.
Proof.
  assert (H1 : calculateBalance roundedLedger = Js.ofZ 2) by (vm_compute; reflexivity).
  assert (H2 : (balanceFormula roundedLedger == 0)%Q) by (vm_compute; reflexivity).
  assert (H3 : calculateBalance nanLedger = Js.NaN) by (vm_compute; reflexivity).
  split; [exact H1|]. split; [exact H2|]. split; [|split; [exact H3|]].
  - intros (_ & H & _). rewrite H1, H2 in H. vm_compute in H. discriminate H.
  - intros (H & _). rewrite H3 in H. discriminate H.
Qed.

(** C1, amended.  Without a salary [calculateBalance] returns 0.  With one it
    returns [Math.max(0, salary.amount - expenses - bills)] in double
    arithmetic, where only the bills with [isActive] and [autoDeduct] count;
    the result is [NaN] or at least 0, never negative.  When the salary and
    all amounts are whole numbers that are not negative, and the amounts
    deducted add up to less than 2^53, the result is exactly
    [max(0, salary - sum of expenses - sum of those bills)]. *)
Theorem calculateBalance_spec (state : AppState) :
  (salary state = None -> calculateBalance state = Js.ofZ 0)
  /\ (forall sal : SalaryData,
        salary state = Some sal ->
        calculateBalance state
        = Js.Math_max 0
            (Js.sub (Js.sub (sal_amount sal) (Js.reduce_sum exp_amount (expenses state)))
                    (Js.reduce_sum bill_amount (autoDeducted (recurringBills state)))))
  /\ (calculateBalance state = Js.NaN \/ Js.leb 0 (calculateBalance state) = true)
  /\ calculateBalance (set_recurringBills (autoDeducted (recurringBills state)) state)
     = calculateBalance state
  /\ (forall (sal : SalaryData) (s : Z) (es bs : list Z),
        salary state = Some sal -> sal_amount sal = Js.ofZ s -> 0 <= s < 2 ^ 53 ->
        wholeAmounts exp_amount (expenses state) es ->
        wholeAmounts bill_amount (autoDeducted (recurringBills state)) bs ->
        sumZ es + sumZ bs < 2 ^ 53 ->
        calculateBalance state = Js.ofZ (Z.max 0 (s - sumZ es - sumZ bs))
        /\ balanceAsStated state).
Proof.
  split; [|split; [|split; [|split]]].
  - intro Hsal. unfold calculateBalance. rewrite Hsal. reflexivity.
  - intros sal Hsal. unfold calculateBalance. rewrite Hsal. reflexivity.
  - unfold calculateBalance. destruct (salary state) as [sal|].
    + apply Math_max_zero.
    + right. reflexivity.
  - unfold calculateBalance. cbn [salary expenses recurringBills set_recurringBills].
    fold (autoDeducted (autoDeducted (recurringBills state))).
    rewrite autoDeducted_twice. reflexivity.
  - intros sal s es bs. apply calculateBalance_whole.
Qed.

(** The amended statement at a ledger of whole amounts: salary 5000, expenses
    700 and 450, a rent of 1200 deducted automatically and a bill of 300 that
    is not; the balance is 2650. *)
Lemma calculateBalance_spec_witness :
  calculateBalance wholeLedger = Js.ofZ 2650 /\ balanceAsStated wholeLedger.
Proof.
  destruct (calculateBalance_spec wholeLedger) as (_ & _ & _ & _ & H).
  assert (Hsal : exists sal, salary wholeLedger = Some sal /\ sal_amount sal = Js.ofZ 5000).
  { vm_compute. eexists. split; reflexivity. }
  destruct Hsal as (sal & Hsal & Hamount).
  assert (Hes : wholeAmounts exp_amount (expenses wholeLedger) [700; 450]).
  { split; [vm_compute; reflexivity|repeat constructor; lia]. }
  assert (Hbs : wholeAmounts bill_amount (autoDeducted (recurringBills wholeLedger)) [1200]).
  { split; [vm_compute; reflexivity|repeat constructor; lia]. }
  assert (Hrange : 0 <= 5000 < 2 ^ 53) by lia.
  assert (Hsum : sumZ [700; 450] + sumZ [1200] < 2 ^ 53) by (vm_compute; reflexivity).
  exact (H sal 5000 [700; 450] [1200] Hsal Hamount Hrange Hes Hbs Hsum).
Defined.
(** ** Achievements *)


Section UpdateProgress.

Variables (now : Z) (increment : Js.number) (a : Achievement).

Lemma updateProgress_id :
  a_id (result (updateProgress now increment a)) = a_id a
  /\ a_title (result (updateProgress now increment a)) = a_title a.
Proof.
  unfold updateProgress. cbv zeta.
  destruct (Js.geb _ 100 && _); split; reflexivity.
Qed.

Lemma updateProgress_target :
  a_target (result (updateProgress now increment a)) = a_target a.
Proof.
  unfold updateProgress. cbv zeta.
  destruct (Js.geb _ 100 && _); reflexivity.
Qed.

Lemma updateProgress_current :
  a_current (result (updateProgress now increment a))
  = Js.Math_min (Js.add (a_current a) increment) (a_target a).
Proof.
  unfold updateProgress. cbv zeta.
  destruct (Js.geb _ 100 && _); reflexivity.
Qed.

Lemma updateProgress_percentage :
  a_percentage (result (updateProgress now increment a))
  = Js.Math_round
      (Js.mul (Js.div (a_current (result (updateProgress now increment a)))
                      (a_target (result (updateProgress now increment a)))) 100).
Proof.
  rewrite updateProgress_current, updateProgress_target.
  unfold updateProgress. cbv zeta.
  destruct (Js.geb _ 100 && _); reflexivity.
Qed.


Lemma updateProgress_effects :
  effects (updateProgress now increment a)
  = if Js.geb (a_percentage (result (updateProgress now increment a))) 100
       && match a_unlockedAt a with None => true | Some _ => false end
    then [AddNotification createAchievementNotification]
    else [].
Proof.
  rewrite updateProgress_percentage, updateProgress_current, updateProgress_target.
  unfold updateProgress. cbv zeta. cbn [a_unlockedAt].
  destruct (Js.geb _ 100 && _); reflexivity.
Qed.

Lemma updateProgress_unlockedAt :
  a_unlockedAt (result (updateProgress now increment a))
  = match a_unlockedAt a with
    | Some t => Some t
    | None =>
        if Js.geb (a_percentage (result (updateProgress now increment a))) 100
        then Some now else None
    end.
Proof.
  rewrite updateProgress_percentage, updateProgress_current, updateProgress_target.
  unfold updateProgress. cbv zeta. cbn [a_unlockedAt].
  destruct (a_unlockedAt a) as [t|].
  - rewrite andb_false_r. reflexivity.
  - rewrite andb_true_r. destruct (Js.geb _ 100); reflexivity.
Qed.

End UpdateProgress.






(** The table function runs [updateProgress] on the first achievement that
    carries the id and touches nothing else; with no such achievement it does
    nothing. *)
Lemma updateAchievementProgress_found (now : Z) (id : string) (increment : Js.number)
    (before after : list Achievement) (a : Achievement) :
  (forall x, In x before -> String.eqb (a_id x) id = false) ->
  String.eqb (a_id a) id = true ->
  updateAchievementProgress now id increment (before ++ a :: after)
  = (a' <- updateProgress now increment a ;; ret (before ++ a' :: after)).
Proof.
  intros Hbefore Ha.
  induction before as [|x before IH]; cbn [app updateAchievementProgress].
  - rewrite Ha. reflexivity.
  - rewrite (Hbefore x (or_introl eq_refl)).
    rewrite IH by (intros y Hy; apply Hbefore; right; exact Hy).
    unfold bind. destruct (updateProgress now increment a) as [a' log].
    cbn [fst snd ret]. rewrite !app_nil_r. reflexivity.
Qed.

Lemma updateAchievementProgress_unknown (now : Z) (id : string) (increment : Js.number)
    (table : list Achievement) :
  (forall x, In x table -> String.eqb (a_id x) id = false) ->
  updateAchievementProgress now id increment table = ret table.
Proof.
  induction table as [|x table IH]; intro Hnone; cbn [updateAchievementProgress];
    [reflexivity|].
  rewrite (Hnone x (or_introl eq_refl)).
  rewrite IH by (intros y Hy; apply Hnone; right; exact Hy).
  reflexivity.
Qed.



(** ** Fuel level *)

Lemma gtb_leb_trans (p q t : Js.number) :
  Js.leb p q = true -> Js.gtb p t = true -> Js.gtb q t = true.
Proof.
  unfold Js.gtb. intros Hpq Ht. apply (ltb_leb_trans t p q); assumption.
Qed.

(** X1.  [getFuelLevel] is monotone: a higher percentage never gives a lower
    level in the order empty < critical < low < medium < high < full. *)
Theorem getFuelLevel_monotone (p q : Js.number) :
  Js.leb p q = true -> levelIndex (getFuelLevel p) <= levelIndex (getFuelLevel q).
Proof.
  intro Hpq. unfold getFuelLevel.
  pose proof (gtb_leb_trans p q 75 Hpq) as H75.
  pose proof (gtb_leb_trans p q 50 Hpq) as H50.
  pose proof (gtb_leb_trans p q 25 Hpq) as H25.
  pose proof (gtb_leb_trans p q 10 Hpq) as H10.
  pose proof (gtb_leb_trans p q 5 Hpq) as H5.
  destruct (Js.gtb p 75); [rewrite (H75 eq_refl); cbn; lia|].
  destruct (Js.gtb p 50);
    [rewrite (H50 eq_refl); destruct (Js.gtb q 75); cbn; lia|].
  destruct (Js.gtb p 25);
    [rewrite (H25 eq_refl); destruct (Js.gtb q 75); destruct (Js.gtb q 50); cbn; lia|].
  destruct (Js.gtb p 10);
    [rewrite (H10 eq_refl); destruct (Js.gtb q 75); destruct (Js.gtb q 50);
     destruct (Js.gtb q 25); cbn; lia|].
  destruct (Js.gtb p 5);
    [rewrite (H5 eq_refl); destruct (Js.gtb q 75); destruct (Js.gtb q 50);
     destruct (Js.gtb q 25); destruct (Js.gtb q 10); cbn; lia|].
  destruct (Js.gtb q 75); destruct (Js.gtb q 50); destruct (Js.gtb q 25);
    destruct (Js.gtb q 10); destruct (Js.gtb q 5); cbn; lia.
Qed.

Lemma getFuelLevel_monotone_witness :
  Js.leb 70 80 = true
  /\ levelIndex (getFuelLevel 70) <= levelIndex (getFuelLevel 80).
Proof.
  split.
  - reflexivity.
  - apply (getFuelLevel_monotone 70 80). reflexivity.
Defined.

(** ** The ledger actions *)

Lemma addExpense_ledger (now : Z) (id : string) (input : ExpenseInput) (s0 : AppState) :
  salary (result (addExpense now id input s0)) = salary s0
  /\ expenses (result (addExpense now id input s0))
     = expenses s0 ++ [expenseOfInput now id input]
  /\ recurringBills (result (addExpense now id input s0)) = recurringBills s0.
Proof.
  rewrite addExpense_result. cbv zeta.
  destruct (calculateFuelStatus now _); repeat split.
Qed.

Lemma recentExpenses_app (now : Z) (s : AppState) (es : list Expense) :
  recentExpenses now (set_expenses (expenses s ++ es) s)
  = recentExpenses now s ++ recentExpenses now (set_expenses es s).
Proof. unfold recentExpenses. cbn [expenses set_expenses]. apply filter_app. Qed.

Lemma calculateAverageDailySpend_window (now : Z) (state : AppState) :
  calculateAverageDailySpend now state
  = if (List.length (recentExpenses now state) =? 0)%nat then Js.ofZ 0
    else Js.div (Js.reduce_sum exp_amount (recentExpenses now state))
                (Js.ofZ (Z.max 1 (Exact.Math_ceil
                                     (inject_Z (now - (now - 30 * 24 * 60 * 60 * 1000))
                                      / inject_Z (24 * 60 * 60 * 1000))))).
Proof.
  unfold calculateAverageDailySpend, recentExpenses. cbv zeta.
  destruct (expenses state) as [|e es]; reflexivity.
Qed.

(** X4.  An expense whose source is [recurring] does not enter the burn
    rate: [addExpense] with such an input leaves [calculateAverageDailySpend]
    as it was. *)
Theorem addExpense_recurring_keeps_rate (now : Z) (id : string) (input : ExpenseInput)
    (s0 : AppState) :
  ei_source input = Some recurring ->
  calculateAverageDailySpend now (result (addExpense now id input s0))
  = calculateAverageDailySpend now s0.
Proof.
  intro Hsrc.
  destruct (addExpense_ledger now id input s0) as (_ & He & _).
  rewrite !calculateAverageDailySpend_window.
  assert (Hrecent : recentExpenses now (result (addExpense now id input s0))
                    = recentExpenses now s0).
  { unfold recentExpenses. rewrite He, filter_app.
    cbn [filter expenseOfInput exp_source]. rewrite Hsrc.
    cbn [ExpenseSource_eqb negb]. rewrite andb_false_r, app_nil_r. reflexivity. }
  rewrite Hrecent. reflexivity.
Qed.

Lemma addExpense_recurring_keeps_rate_witness :
  ei_source recurringRent = Some recurring
  /\ calculateAverageDailySpend t0 (result (addExpense t0 "e2" recurringRent oneExpense))
     = calculateAverageDailySpend t0 oneExpense.
Proof.
  split.
  - reflexivity.
  - apply (addExpense_recurring_keeps_rate t0 "e2" recurringRent oneExpense). reflexivity.
Defined.

(** What an action that changes the expense list and recomputes leaves. *)
Lemma expenses_action (now : Z) (f : list Expense -> list Expense) (s0 : AppState) :
  let s2 := set_expenses (f (expenses s0)) (set_loading true None s0) in
  run (setState (set_loading true None) >>>
       tryCatchFinally
         (setState (fun state => set_expenses (f (expenses state)) state) >>>
          derived <-- derivedValues now ;;
          setState derived)
         storeError clearLoading) s0
  = match calculateFuelStatus now s2 with
    | Throw message => (set_isLoading false (set_error (Some message) s2), [])
    | Normal fs =>
        (set_isLoading false
           (set_derived (calculateBalance s2) (calculateDaysRemaining now s2)
                        (calculateAverageDailySpend now s2) fs s2), [])
    end.
Proof.
  cbv zeta. rewrite run_action. cbv zeta.
  rewrite step_setState, step_derivedValues.
  cbn [expenses set_loading].
  destruct (calculateFuelStatus now _) as [fs|message]; reflexivity.
Qed.

Lemma deleteExpense_result (now : Z) (id : string) (s0 : AppState) :
  let s2 := set_expenses
              (filter (fun expense => negb (String.eqb (exp_id expense) id)) (expenses s0))
              (set_loading true None s0) in
  deleteExpense now id s0
  = match calculateFuelStatus now s2 with
    | Throw message => (set_isLoading false (set_error (Some message) s2), [])
    | Normal fs =>
        (set_isLoading false
           (set_derived (calculateBalance s2) (calculateDaysRemaining now s2)
                        (calculateAverageDailySpend now s2) fs s2), [])
    end.
Proof.
  exact (expenses_action now
           (filter (fun expense => negb (String.eqb (exp_id expense) id))) s0).
Qed.

Lemma updateExpense_result (now : Z) (id : string) (updates : ExpensePatch)
    (s0 : AppState) :
  let s2 := set_expenses
              (map (fun expense =>
                      if String.eqb (exp_id expense) id
                      then applyExpenseUpdates now updates expense
                      else expense)
                   (expenses s0))
              (set_loading true None s0) in
  updateExpense now id updates s0
  = match calculateFuelStatus now s2 with
    | Throw message => (set_isLoading false (set_error (Some message) s2), [])
    | Normal fs =>
        (set_isLoading false
           (set_derived (calculateBalance s2) (calculateDaysRemaining now s2)
                        (calculateAverageDailySpend now s2) fs s2), [])
    end.
Proof.
  exact (expenses_action now
           (map (fun expense =>
                   if String.eqb (exp_id expense) id
                   then applyExpenseUpdates now updates expense
                   else expense)) s0).
Qed.

Lemma recomputed_after (now : Z) (s0 s2 : AppState) :
  sameMetrics s0 s2 -> error s2 = None ->
  recomputed now s0 s2
    (match calculateFuelStatus now s2 with
     | Throw message => set_isLoading false (set_error (Some message) s2)
     | Normal fs =>
         set_isLoading false
           (set_derived (calculateBalance s2) (calculateDaysRemaining now s2)
                        (calculateAverageDailySpend now s2) fs s2)
     end).
Proof.
  intros Hsame Herr. unfold recomputed, recomputes.
  destruct (calculateFuelStatus now s2) as [fs|message] eqn:Hfs.
  - split; [exact Herr|].
    exact (metricsInLine_stored now s2 fs false _ Hfs).
  - destruct (calculateFuelStatus_throws now s2 message Hfs) as [-> _].
    split; [reflexivity|exact Hsame].
Qed.

Lemma recomputes_ledger (now : Z) (s s' : AppState) :
  sameLedger s s' -> fs_level (fuelStatus s') = fs_level (fuelStatus s) ->
  recomputes now s' = recomputes now s.
Proof.
  intros Hl Hlevel. unfold recomputes.
  rewrite (calculateFuelStatus_ledger now s s' Hl Hlevel). reflexivity.
Qed.

Lemma recomputed_ledger (now : Z) (s0 s2 s2' after : AppState) :
  sameLedger s2 s2' -> fs_level (fuelStatus s2') = fs_level (fuelStatus s2) ->
  recomputed now s0 s2' after -> recomputed now s0 s2 after.
Proof.
  intros Hl Hlevel. unfold recomputed.
  rewrite (recomputes_ledger now s2 s2' Hl Hlevel). exact (fun H => H).
Qed.

Lemma expense_id_absent (id : string) (es : list Expense) :
  ~ In id (map exp_id es) -> forall e, In e es -> String.eqb (exp_id e) id = false.
Proof.
  intros Hnot e He. apply String.eqb_neq. intro Heq. apply Hnot.
  rewrite <- Heq. apply in_map. exact He.
Qed.

Lemma filter_unknown_expense (id : string) (es : list Expense) :
  ~ In id (map exp_id es) ->
  filter (fun expense => negb (String.eqb (exp_id expense) id)) es = es.
Proof.
  intro Hnot. apply forallb_filter_id. apply forallb_forall.
  intros e He. rewrite (expense_id_absent id es Hnot e He). reflexivity.
Qed.

Lemma map_unknown_expense (id : string) (f : Expense -> Expense) (es : list Expense) :
  ~ In id (map exp_id es) ->
  map (fun expense => if String.eqb (exp_id expense) id then f expense else expense) es = es.
Proof.
  intro Hnot. rewrite <- (map_id es) at 2. apply map_ext_in.
  intros e He. rewrite (expense_id_absent id es Hnot e He). reflexivity.
Qed.

(** The ledger and the flags after an action on the expense list. *)
Lemma expenses_action_after (now : Z) (es : list Expense) (s0 : AppState) :
  let s2 := set_expenses es (set_loading true None s0) in
  let after :=
    match calculateFuelStatus now s2 with
    | Throw message => set_isLoading false (set_error (Some message) s2)
    | Normal fs =>
        set_isLoading false
          (set_derived (calculateBalance s2) (calculateDaysRemaining now s2)
                       (calculateAverageDailySpend now s2) fs s2)
    end in
  expenses after = es
  /\ salary after = salary s0
  /\ recurringBills after = recurringBills s0
  /\ isLoading after = false
  /\ recomputed now s0 (set_expenses es s0) after.
Proof.
  cbv zeta.
  pose proof (recomputed_after now s0 (set_expenses es (set_loading true None s0))
                ltac:(repeat split) eq_refl) as Hrec.
  apply (recomputed_ledger now s0 (set_expenses es s0)) in Hrec;
    [|repeat split|reflexivity].
  destruct (calculateFuelStatus now _) as [fs|message];
    (split; [reflexivity|]); (split; [reflexivity|]); (split; [reflexivity|]);
    (split; [reflexivity|]); exact Hrec.
Qed.

(** X6.  After [deleteExpense] no stored expense carries the id and every
    expense with another id is still there; salary and bills are untouched and
    nothing is requested.  When the recomputation on the remaining ledger
    completes, no error is stored and the stored metrics are those of the
    remaining ledger; when it does not, the error names [NotificationService]
    and the stored metrics are left as they were. *)
Theorem deleteExpense_removes (now : Z) (id : string) (s0 : AppState) :
  let remaining :=
    filter (fun expense => negb (String.eqb (exp_id expense) id)) (expenses s0) in
  let after := result (deleteExpense now id s0) in
  expenses after = remaining
  /\ ~ In id (map exp_id (expenses after))
  /\ Forall (fun e => exp_id e = id \/ In e (expenses after)) (expenses s0)
  /\ salary after = salary s0
  /\ recurringBills after = recurringBills s0
  /\ isLoading after = false
  /\ effects (deleteExpense now id s0) = []
  /\ recomputed now s0 (set_expenses remaining s0) after.
Proof.
  cbv zeta.
  set (remaining := filter (fun expense => negb (String.eqb (exp_id expense) id))
                           (expenses s0)).
  destruct (expenses_action_after now remaining s0) as (He & Hs & Hb & Hl & Hrec).
  cbv zeta in He, Hs, Hb, Hl, Hrec.
  assert (Hres : result (deleteExpense now id s0)
                 = match calculateFuelStatus now
                           (set_expenses remaining (set_loading true None s0)) with
                   | Throw message =>
                       set_isLoading false
                         (set_error (Some message)
                            (set_expenses remaining (set_loading true None s0)))
                   | Normal fs =>
                       set_isLoading false
                         (set_derived
                            (calculateBalance
                               (set_expenses remaining (set_loading true None s0)))
                            (calculateDaysRemaining now
                               (set_expenses remaining (set_loading true None s0)))
                            (calculateAverageDailySpend now
                               (set_expenses remaining (set_loading true None s0)))
                            fs (set_expenses remaining (set_loading true None s0)))
                   end).
  { rewrite deleteExpense_result. cbv zeta. fold remaining.
    destruct (calculateFuelStatus now _); reflexivity. }
  assert (Heff : effects (deleteExpense now id s0) = []).
  { rewrite deleteExpense_result. cbv zeta.
    destruct (calculateFuelStatus now _); reflexivity. }
  rewrite Hres.
  split; [exact He|]. split.
  { rewrite He. intro Hin. apply in_map_iff in Hin. destruct Hin as (e & Hid & Hin).
    apply filter_In in Hin. destruct Hin as [_ Hneq].
    apply negb_true_iff in Hneq. apply String.eqb_neq in Hneq. contradiction. }
  split.
  { rewrite He. apply Forall_forall. intros e Hin.
    destruct (String.eqb (exp_id e) id) eqn:E.
    - left. apply String.eqb_eq. exact E.
    - right. apply filter_In. rewrite E. split; [exact Hin | reflexivity]. }
  split; [exact Hs|]. split; [exact Hb|]. split; [exact Hl|].
  split; [exact Heff|exact Hrec].
Qed.

Lemma action_result_after (step : Eff AppState) (now : Z) (s2 : AppState) :
  step
  = match calculateFuelStatus now s2 with
    | Throw message => (set_isLoading false (set_error (Some message) s2), [])
    | Normal fs =>
        (set_isLoading false
           (set_derived (calculateBalance s2) (calculateDaysRemaining now s2)
                        (calculateAverageDailySpend now s2) fs s2), [])
    end ->
  result step
  = match calculateFuelStatus now s2 with
    | Throw message => set_isLoading false (set_error (Some message) s2)
    | Normal fs =>
        set_isLoading false
          (set_derived (calculateBalance s2) (calculateDaysRemaining now s2)
                       (calculateAverageDailySpend now s2) fs s2)
    end
  /\ effects step = [].
Proof.
  intros ->. destruct (calculateFuelStatus now s2); split; reflexivity.
Qed.

(** X7.  [updateExpense] and [deleteExpense] never touch salary or bills and
    request nothing.  On an id that no expense carries they leave the expense
    list as it is; the metrics are still recomputed: when that completes no
    error is stored and the stored metrics are those of the ledger, and when it
    does not the error names [NotificationService] and the stored metrics are
    left as they were. *)
Theorem unknown_expense_id_is_noop (now : Z) (id : string) (updates : ExpensePatch)
    (s0 : AppState) :
  salary (result (deleteExpense now id s0)) = salary s0
  /\ recurringBills (result (deleteExpense now id s0)) = recurringBills s0
  /\ effects (deleteExpense now id s0) = []
  /\ salary (result (updateExpense now id updates s0)) = salary s0
  /\ recurringBills (result (updateExpense now id updates s0)) = recurringBills s0
  /\ effects (updateExpense now id updates s0) = []
  /\ (~ In id (map exp_id (expenses s0)) ->
      expenses (result (deleteExpense now id s0)) = expenses s0
      /\ recomputed now s0 s0 (result (deleteExpense now id s0))
      /\ expenses (result (updateExpense now id updates s0)) = expenses s0
      /\ recomputed now s0 s0 (result (updateExpense now id updates s0))).
Proof.
  destruct (action_result_after _ now _ (deleteExpense_result now id s0)) as [Hd Hde].
  destruct (action_result_after _ now _ (updateExpense_result now id updates s0))
    as [Hu Hue].
  rewrite Hd, Hu.
  destruct (expenses_action_after now
              (filter (fun expense => negb (String.eqb (exp_id expense) id)) (expenses s0))
              s0) as (He1 & Hs1 & Hb1 & _ & Hrec1).
  destruct (expenses_action_after now
              (map (fun expense =>
                      if String.eqb (exp_id expense) id
                      then applyExpenseUpdates now updates expense
                      else expense) (expenses s0))
              s0) as (He2 & Hs2 & Hb2 & _ & Hrec2).
  cbv zeta in *.
  split; [exact Hs1|]. split; [exact Hb1|]. split; [exact Hde|].
  split; [exact Hs2|]. split; [exact Hb2|]. split; [exact Hue|].
  intro Hnot.
  rewrite (filter_unknown_expense id _ Hnot) in *.
  rewrite (map_unknown_expense id _ _ Hnot) in *.
  assert (Hsame : forall final, recomputed now s0 (set_expenses (expenses s0) s0) final ->
                                recomputed now s0 s0 final).
  { intro final. apply recomputed_ledger; [repeat split|reflexivity]. }
  split; [exact He1|]. split; [exact (Hsame _ Hrec1)|].
  split; [exact He2|exact (Hsame _ Hrec2)].
Qed.

Lemma unknown_expense_id_is_noop_witness :
  ~ In "nope" (map exp_id (expenses oneExpense))
  /\ expenses (result (deleteExpense t0 "nope" oneExpense)) = expenses oneExpense.
Proof.
  assert (H : ~ In "nope" (map exp_id (expenses oneExpense))).
  { vm_compute. intros [H | H]; [discriminate H | exact H]. }
  split; [exact H|].
  destruct (unknown_expense_id_is_noop t0 "nope"
              {| pe_id := None; pe_amount := None; pe_category := None;
                 pe_description := None; pe_date := None; pe_source := None;
                 pe_createdAt := None; pe_updatedAt := None |} oneExpense)
    as (_ & _ & _ & _ & _ & _ & Hnoop).
  destruct (Hnoop H) as (He & _).
  exact He.
Defined.

(** X8.  Adding an expense under a fresh id and deleting it again restores the
    ledger: the expense list, the salary and the bills are those of the
    start, and so is the balance the calculator gives. *)
Theorem add_then_delete_restores (now now' : Z) (id : string) (input : ExpenseInput)
    (s0 : AppState) :
  ~ In id (map exp_id (expenses s0)) ->
  sameLedger s0 (result (deleteExpense now' id (result (addExpense now id input s0))))
  /\ calculateBalance (result (deleteExpense now' id (result (addExpense now id input s0))))
     = calculateBalance s0.
Proof.
  intro Hfresh.
  destruct (addExpense_ledger now id input s0) as (Hs & He & Hb).
  destruct (action_result_after _ now' _
              (deleteExpense_result now' id (result (addExpense now id input s0))))
    as [Hdelete _].
  destruct (expenses_action_after now'
              (filter (fun expense => negb (String.eqb (exp_id expense) id))
                      (expenses (result (addExpense now id input s0))))
              (result (addExpense now id input s0))) as (He' & Hs' & Hb' & _).
  cbv zeta in He', Hs', Hb'. rewrite <- Hdelete in He', Hs', Hb'.
  assert (Hl : sameLedger s0
                 (result (deleteExpense now' id (result (addExpense now id input s0))))).
  { split; [rewrite Hs', Hs; reflexivity|]. split; [|rewrite Hb', Hb; reflexivity].
    rewrite He', He, filter_app, (filter_unknown_expense id _ Hfresh).
    cbn [filter expenseOfInput exp_id]. rewrite String.eqb_refl. cbn [negb].
    apply app_nil_r. }
  split; [exact Hl|]. apply calculateBalance_ledger. exact Hl.
Qed.

Lemma add_then_delete_restores_witness :
  ~ In "e9" (map exp_id (expenses oneExpense))
  /\ expenses (result (deleteExpense t0 "e9"
                         (result (addExpense t0 "e9" recurringRent oneExpense))))
     = expenses oneExpense.
Proof.
  assert (H : ~ In "e9" (map exp_id (expenses oneExpense))).
  { vm_compute. intros [H | H]; [discriminate H | exact H]. }
  split; [exact H|].
  destruct (add_then_delete_restores t0 t0 "e9" recurringRent oneExpense H)
    as ((_ & He & _) & _).
  exact He.
Defined.





(** ** Recurring bills *)

Lemma addRecurringBill_result (now : Z) (id : string) (input : RecurringBillInput)
    (s0 : AppState) :
  bill_autoDeduct (billOfInput now id input) = false ->
  addRecurringBill now id input s0
  = (set_isLoading false
       (set_recurringBills (recurringBills s0 ++ [billOfInput now id input])
                           (set_loading true None s0)),
     [AchievementCall CheckBillTracker; AchievementCall RunAchievementChecks]).
Proof.
  intro Hauto. unfold addRecurringBill. rewrite run_action. cbv zeta.
  rewrite step_setState, Hauto.
  unfold andThen at 1. rewrite step_pure. reflexivity.
Qed.

(** X10.  A bill added without auto-deduction is stored as an active bill at
    the end of the list, does not touch the balance, and triggers no
    recomputation: the stored balance, days, fuel status and burn rate stay as
    they were, no error is stored and no fuel push is requested. *)
Theorem addRecurringBill_without_autoDeduct (now : Z) (id : string)
    (input : RecurringBillInput) (s0 : AppState) :
  bi_autoDeduct input <> Some true ->
  recurringBills (result (addRecurringBill now id input s0))
  = recurringBills s0 ++ [billOfInput now id input]
  /\ bill_isActive (billOfInput now id input) = true
  /\ calculateBalance (result (addRecurringBill now id input s0)) = calculateBalance s0
  /\ currentBalance (result (addRecurringBill now id input s0)) = currentBalance s0
  /\ daysRemaining (result (addRecurringBill now id input s0)) = daysRemaining s0
  /\ fuelStatus (result (addRecurringBill now id input s0)) = fuelStatus s0
  /\ averageDailySpend (result (addRecurringBill now id input s0)) = averageDailySpend s0
  /\ error (result (addRecurringBill now id input s0)) = None
  /\ effects (addRecurringBill now id input s0)
     = [AchievementCall CheckBillTracker; AchievementCall RunAchievementChecks].
Proof.
  intro Hnot.
  assert (Hauto : bill_autoDeduct (billOfInput now id input) = false).
  { cbn [billOfInput bill_autoDeduct].
    destruct (bi_autoDeduct input) as [[|]|]; [contradiction | reflexivity | reflexivity]. }
  rewrite (addRecurringBill_result now id input s0 Hauto).
  split; [reflexivity|]. split; [reflexivity|].
  split; [|repeat split].
  unfold calculateBalance, result. cbn [fst salary expenses recurringBills set_isLoading
                                          set_loading set_recurringBills].
  rewrite filter_app. cbn [filter]. rewrite Hauto, andb_false_r, app_nil_r. reflexivity.
Qed.

Lemma addRecurringBill_without_autoDeduct_witness :
  bi_autoDeduct (internetBill None) <> Some true
  /\ currentBalance (result (addRecurringBill t0 "b1" (internetBill None) oneExpense))
     = currentBalance oneExpense.
Proof.
  assert (H : bi_autoDeduct (internetBill None) <> Some true) by discriminate.
  split; [exact H|].
  destruct (addRecurringBill_without_autoDeduct t0 "b1" (internetBill None) oneExpense H)
    as (_ & _ & _ & Hc & _).
  exact Hc.
Defined.

(** ** Setting the salary and refreshing *)

(** X12.  [setSalary] touches neither expenses nor bills, requests nothing
    and always ends with an error stored: the salary notification it builds
    comes from [createSalaryNotification], which appStore.ts does not import.
    It evaluates the four calculators before the new salary is in the store:
    when that recomputation completes, the new salary is stored together with
    the metrics of the ledger under the previous salary; when it does not,
    the salary and the stored metrics are left as they were. *)
Theorem setSalary_stores_previous_balance (now next : Z) (amount : Js.number)
    (frequency : SalaryFrequency) (s0 : AppState) :
  let after := result (setSalary now next amount frequency s0) in
  expenses after = expenses s0
  /\ recurringBills after = recurringBills s0
  /\ isLoading after = false
  /\ effects (setSalary now next amount frequency s0) = []
  /\ error after <> None
  /\ if recomputes now s0
     then option_map sal_amount (salary after) = Some amount
          /\ option_map sal_frequency (salary after) = Some frequency
          /\ error after = Some (notDefined "createSalaryNotification")
          /\ currentBalance after = calculateBalance s0
          /\ daysRemaining after = calculateDaysRemaining now s0
          /\ averageDailySpend after = calculateAverageDailySpend now s0
          /\ calculateFuelStatus now s0 = Normal (fuelStatus after)
     else salary after = salary s0
          /\ error after = Some (notDefined "NotificationService")
          /\ sameMetrics s0 after.
Proof.
  cbv zeta. rewrite setSalary_result. cbv zeta.
  unfold recomputes. rewrite recomputes_loading.
  assert (Hl : sameLedger s0 (set_loading true None s0)) by (repeat split).
  rewrite (calculateBalance_ledger _ _ Hl), (calculateDaysRemaining_ledger now _ _ Hl),
    (calculateAverageDailySpend_ledger now _ _ Hl).
  destruct (calculateFuelStatus now s0) as [fs|message] eqn:Hfs.
  - do 4 (split; [reflexivity|]). split; [discriminate|].
    repeat split.
  - destruct (calculateFuelStatus_throws now s0 message Hfs) as [-> _].
    do 4 (split; [reflexivity|]). split; [discriminate|].
    repeat split.
Qed.

(** X13.  [refreshData] leaves the ledger alone and requests nothing.  When
    the recomputation completes, no error is stored, the stored metrics are
    those of the ledger, and refreshing again at the same instant changes
    nothing; when it does not, the error names [NotificationService] and the
    stored metrics are left as they were. *)
Theorem refreshData_settles (now : Z) (s0 : AppState) :
  let after := result (refreshData now s0) in
  sameLedger s0 after
  /\ isLoading after = false
  /\ effects (refreshData now s0) = []
  /\ recomputed now s0 s0 after
  /\ (recomputes now s0 = true -> refreshData now after = (after, [])).
Proof.
  cbv zeta.
  destruct (action_result_after _ now _ (refreshData_result now s0)) as [Hres Heff].
  rewrite Hres.
  pose proof (recomputed_after now s0 (set_loading true None s0)
                ltac:(repeat split) eq_refl) as Hrec.
  apply (recomputed_ledger now s0 s0) in Hrec; [|repeat split|reflexivity].
  split.
  { destruct (calculateFuelStatus now _); repeat split. }
  split.
  { destruct (calculateFuelStatus now _); reflexivity. }
  split; [exact Heff|]. split; [exact Hrec|].
  unfold recomputes. rewrite recomputes_loading. intro Hrun.
  destruct (calculateFuelStatus now s0) as [fs|message] eqn:Hfs; [|discriminate Hrun].
  set (after := set_isLoading false _).
  pose proof (metricsInLine_stored now (set_loading true None s0) fs false None) as Hline.
  rewrite recomputes_loading in Hline. specialize (Hline Hfs).
  change (metricsInLine now after) in Hline.
  destruct Hline as (Hb & Hd & Ha & Hf).
  rewrite refreshData_result. cbv zeta.
  assert (Hl : sameLedger after (set_loading true None after)) by (repeat split).
  rewrite recomputes_loading, Hf.
  rewrite (calculateBalance_ledger _ _ Hl), (calculateDaysRemaining_ledger now _ _ Hl),
    (calculateAverageDailySpend_ledger now _ _ Hl).
  rewrite <- Hb, <- Hd, <- Ha. reflexivity.
Qed.

Lemma refreshData_settles_witness :
  recomputes t0 spentStore = true
  /\ refreshData t0 (result (refreshData t0 spentStore))
     = (result (refreshData t0 spentStore), []).
Proof.
  assert (H : recomputes t0 spentStore = true) by (vm_compute; reflexivity).
  split; [exact H|].
  destruct (refreshData_settles t0 spentStore) as (_ & _ & _ & _ & Hagain).
  exact (Hagain H).
Defined.

(** ** What [addExpense] leaves in [error] *)

(** X14.  [addExpense] requests nothing and always ends with an error stored,
    so it never reaches the achievement checks.  When the recomputation
    completes, an expense above [currentBalance * 0.1], the balance stored
    before the call, fails at [createBigSpendNotification] and any other at
    [NotificationService]: appStore.ts imports neither.  When the
    recomputation does not complete the error names [NotificationService]
    and the stored metrics are left as they were. *)
Theorem addExpense_stores_error (now : Z) (id : string) (input : ExpenseInput)
    (s0 : AppState) :
  let after := result (addExpense now id input s0) in
  effects (addExpense now id input s0) = []
  /\ error after <> None
  /\ if recomputes now (set_expenses (expenses s0 ++ [expenseOfInput now id input]) s0)
     then error after
          = Some (if Js.gtb (ei_amount input) (Js.mul (currentBalance s0) (Js.frac 1 10))
                  then notDefined "createBigSpendNotification"
                  else notDefined "NotificationService")
     else error after = Some (notDefined "NotificationService")
          /\ sameMetrics s0 after.
Proof.
  cbv zeta. rewrite addExpense_result. cbv zeta.
  unfold recomputes.
  rewrite <- (recomputes_loading now (set_expenses _ s0) true None).
  change (set_loading true None (set_expenses (expenses s0 ++ [expenseOfInput now id input]) s0))
    with (set_expenses (expenses s0 ++ [expenseOfInput now id input])
                       (set_loading true None s0)).
  destruct (calculateFuelStatus now _) as [fs|message] eqn:Hfs.
  - split; [reflexivity|]. split; [discriminate|]. reflexivity.
  - destruct (calculateFuelStatus_throws now _ message Hfs) as [-> _].
    split; [reflexivity|]. split; [discriminate|]. repeat split.
Qed.
(** ** The notification store *)

Lemma setRead_unread_none (l : list AppNotification) :
  filter (fun n => negb (n_isRead n)) (map setRead l) = [].
Proof. induction l as [|x l IH]; simpl; [reflexivity | exact IH]. Qed.

(** X15.  [markAllAsRead] leaves no unread notification and a count of 0,
    keeps every notification (ids, order, titles) and the settings, and a second
    call changes nothing. *)
Theorem markAllAsRead_clears (state : NotificationState) :
  getUnreadNotifications (markAllAsRead state) = []
  /\ unreadCount (markAllAsRead state) = 0%Z
  /\ map n_id (notifications (markAllAsRead state)) = map n_id (notifications state)
  /\ map n_title (notifications (markAllAsRead state)) = map n_title (notifications state)
  /\ settings (markAllAsRead state) = settings state
  /\ markAllAsRead (markAllAsRead state) = markAllAsRead state.
Proof.
  unfold markAllAsRead, getUnreadNotifications. simpl.
  split; [apply setRead_unread_none|]. split; [reflexivity|].
  split; [apply markAll_ids|].
  split; [rewrite map_map; reflexivity|].
  split; [reflexivity|].
  f_equal. rewrite map_map. apply map_ext. intro n. reflexivity.
Qed.

Lemma marked_not_unread (id : string) (l : list AppNotification) :
  ~ In id (map n_id
             (filter (fun n => negb (n_isRead n))
                     (map (fun n => if hasId id n then setRead n else n) l))).
Proof.
  induction l as [|x l IH]; simpl; [intros []|].
  destruct (hasId id x) eqn:E; simpl.
  - exact IH.
  - destruct (n_isRead x); simpl; [exact IH|].
    intros [H | H]; [|exact (IH H)].
    apply hasId_true in H. congruence.
Qed.

Lemma NoDup_map_injective {A B : Type} (f : A -> B) (l : list A) (x y : A) :
  NoDup (map f l) -> In x l -> In y l -> f x = f y -> x = y.
Proof.
  induction l as [|z l IH]; simpl; intros Hnd Hx Hy Hf; [destruct Hx|].
  apply NoDup_cons_iff in Hnd. destruct Hnd as [Hz Hnd].
  destruct Hx as [Hx | Hx], Hy as [Hy | Hy].
  - congruence.
  - subst z. exfalso. apply Hz. rewrite Hf. apply in_map. exact Hy.
  - subst z. exfalso. apply Hz. rewrite <- Hf. apply in_map. exact Hx.
  - apply IH; assumption.
Qed.

Lemma find_map_mark (id : string) (l : list AppNotification) (n : AppNotification) :
  Js.find (hasId id) l = Some n ->
  Js.find (hasId id) (map (fun n => if hasId id n then setRead n else n) l)
  = Some (setRead n).
Proof.
  unfold Js.find. induction l as [|x l IH]; simpl; intro H; [discriminate|].
  destruct (hasId id x) eqn:E.
  - injection H as ->. unfold hasId in *. simpl. rewrite E. reflexivity.
  - rewrite E. apply IH. exact H.
Qed.

(** X16.  [markAsRead] keeps the ids and their order, and marking the same id
    again changes nothing in the notifications, the settings and the count
    (the [isLoading] flag, which [NotificationState] leaves out, is not
    covered); in a store whose ids are pairwise distinct, no unread
    notification carries the id afterwards. *)
Theorem markAsRead_marks (id : string) (state : NotificationState) :
  map n_id (notifications (markAsRead id state)) = map n_id (notifications state)
  /\ markAsRead id (markAsRead id state) = markAsRead id state
  /\ (NoDup (map n_id (notifications state)) ->
      ~ In id (map n_id (getUnreadNotifications (markAsRead id state)))).
Proof.
  destruct (Js.find (hasId id) (notifications state)) as [n|] eqn:Hfind.
  - destruct (n_isRead n) eqn:Hread.
    + assert (E : markAsRead id state = state)
        by (unfold markAsRead; rewrite Hfind, Hread; reflexivity).
      rewrite !E. split; [reflexivity|]. split; [reflexivity|].
      intros Hnd Hin. unfold getUnreadNotifications in Hin.
      apply in_map_iff in Hin. destruct Hin as (x & Hid & Hx).
      apply filter_In in Hx. destruct Hx as [Hx Hunread].
      unfold Js.find in Hfind. apply find_some in Hfind. destruct Hfind as [Hn Hnid].
      apply hasId_true in Hnid.
      assert (x = n) by (apply (NoDup_map_injective n_id _ x n Hnd Hx Hn); congruence).
      subst x. rewrite Hread in Hunread. discriminate Hunread.
    + assert (E : markAsRead id state
                  = {| notifications :=
                         map (fun n => if hasId id n then setRead n else n)
                             (notifications state);
                       settings := settings state;
                       unreadCount := Z.max 0 (unreadCount state - 1) |})
        by (unfold markAsRead; rewrite Hfind, Hread; reflexivity).
      rewrite !E. split; [|split].
      * simpl. apply map_mark_ids.
      * unfold markAsRead. simpl. rewrite (find_map_mark id _ n Hfind). reflexivity.
      * intros _. unfold getUnreadNotifications. simpl. apply marked_not_unread.
  - assert (E : markAsRead id state = state)
      by (unfold markAsRead; rewrite Hfind; reflexivity).
    rewrite !E. split; [reflexivity|]. split; [reflexivity|].
    intros _ Hin. unfold getUnreadNotifications in Hin.
    apply in_map_iff in Hin. destruct Hin as (x & Hid & Hx).
    apply filter_In in Hx. destruct Hx as [Hx _].
    pose proof (find_none_absent id _ Hfind x Hx) as Hno.
    apply hasId_true in Hid. congruence.
Qed.

Lemma markAsRead_marks_witness :
  NoDup (map n_id (notifications oneUnread))
  /\ ~ In "n1" (map n_id (getUnreadNotifications (markAsRead "n1" oneUnread))).
Proof.
  assert (H : NoDup (map n_id (notifications oneUnread)))
    by (repeat constructor; intros []).
  split; [exact H|].
  destruct (markAsRead_marks "n1" oneUnread) as (_ & _ & Hno).
  exact (Hno H).
Defined.

(** X17.  After [deleteNotification] no stored notification carries the id
    and the others are kept in their order; deleting an id that is not stored
    leaves the whole state, count included, as it was. *)
Theorem deleteNotification_removes (id : string) (state : NotificationState) :
  ~ In id (map n_id (notifications (deleteNotification id state)))
  /\ notifications (deleteNotification id state)
     = filter (fun n => negb (String.eqb (n_id n) id)) (notifications state)
  /\ settings (deleteNotification id state) = settings state
  /\ match Js.find (hasId id) (notifications state) with
     | None => deleteNotification id state = state
     | Some n =>
         unreadCount (deleteNotification id state)
         = if n_isRead n then unreadCount state else Z.max 0 (unreadCount state - 1)
     end.
Proof.
  split; [|split; [reflexivity|split; [reflexivity|]]].
  - unfold deleteNotification. simpl. intro Hin.
    apply in_map_iff in Hin. destruct Hin as (x & Hid & Hx).
    apply filter_In in Hx. destruct Hx as [_ Hx].
    apply negb_true_iff in Hx. apply hasId_true in Hid. congruence.
  - unfold deleteNotification.
    destruct (Js.find (hasId id) (notifications state)) as [n|] eqn:Hfind.
    + simpl. destruct (n_isRead n); reflexivity.
    + rewrite (filter_absent id _ (find_none_absent id _ Hfind)).
      destruct state; reflexivity.
Qed.

(** X18.  A persist/reload round trip of the notification store keeps at most
    the 50 newest notifications and resets [unreadCount] to 0 without marking
    anything as read: an unread notification among the kept ones is still
    unread after the reload, so the count no longer tells how many are
    unread. *)
Theorem reloadNotifications_resets_count (n : AppNotification) (state : NotificationState) :
  In n (firstn 50 (notifications state)) ->
  n_isRead n = false ->
  notifications (reloadNotifications state) = firstn 50 (notifications state)
  /\ (List.length (notifications (reloadNotifications state)) <= 50)%nat
  /\ settings (reloadNotifications state) = settings state
  /\ In n (getUnreadNotifications (reloadNotifications state))
  /\ unreadCount (reloadNotifications state) = 0%Z.
Proof.
  intros Hin Hunread.
  assert (Hkept : notifications (reloadNotifications state)
                  = firstn 50 (notifications state)).
  { unfold reloadNotifications, loadNotifications, notificationPartialize.
    cbn [notifications pn_notifications].
    rewrite firstn_firstn. reflexivity. }
  split; [exact Hkept|].
  split; [rewrite Hkept; apply firstn_le_length|].
  split; [reflexivity|].
  split; [|reflexivity].
  unfold getUnreadNotifications. rewrite Hkept. apply filter_In.
  rewrite Hunread. split; [exact Hin | reflexivity].
Qed.

Lemma reloadNotifications_resets_count_witness :
  getUnreadNotifications (reloadNotifications oneUnread) <> []
  /\ unreadCount (reloadNotifications oneUnread) = 0%Z.
Proof.
  assert (Hin : In (hd_unread oneUnread) (firstn 50 (notifications oneUnread))).
  { left. reflexivity. }
  destruct (reloadNotifications_resets_count (hd_unread oneUnread) oneUnread Hin eq_refl)
    as (_ & _ & _ & Hun & Hcount).
  split; [|exact Hcount].
  intro Hnil. rewrite Hnil in Hun. destruct Hun.
Defined.

(** X19.  The whole gate of [addNotification]: a notification is recorded
    exactly when its category is switched on and it is urgent or falls outside
    enabled quiet hours.  A recorded notification goes to the head of the
    list, raises the count by one and requests one push with its title;
    otherwise the state is unchanged and nothing is pushed. *)
Theorem addNotification_gate (now : Z) (currentTime id : string)
    (input : NotificationInput) (state : NotificationState) :
  if isTypeEnabled (settings state) (ni_type input)
     && (negb (qh_enabled (quietHours (settings state)))
         || negb (isInQuietHours currentTime
                    (qh_startTime (quietHours (settings state)))
                    (qh_endTime (quietHours (settings state))))
         || isUrgent (ni_priority input))
  then recorded id input state (result (addNotification now currentTime id input state))
       /\ effects (addNotification now currentTime id input state)
          = [SendImmediate (ni_title input) (notificationType_name (ni_type input))]
  else addNotification now currentTime id input state = ret state.
Proof.
  unfold addNotification.
  destruct (isTypeEnabled (settings state) (ni_type input)); simpl; [|reflexivity].
  destruct (qh_enabled (quietHours (settings state))); simpl.
  - destruct (isInQuietHours _ _ _); simpl.
    + destruct (isUrgent (ni_priority input)); simpl; [|reflexivity].
      split; [eexists; repeat split | reflexivity].
    + split; [eexists; repeat split | reflexivity].
  - split; [eexists; repeat split | reflexivity].
Qed.

(** ** The suggestion store *)

Lemma suggestion_id_absent (id : string) (l : list Suggestion) :
  Js.find (hasSuggestionId id) l = None ->
  ~ In id (map s_id l).
Proof.
  unfold Js.find. intros Hfind Hin.
  apply in_map_iff in Hin. destruct Hin as (s & Hid & Hs).
  pose proof (find_none _ _ Hfind s Hs) as Hno.
  unfold hasSuggestionId in Hno. apply String.eqb_neq in Hno. contradiction.
Qed.

Lemma replaced_not_active (now : Z) (id : string) (u : Suggestion) (l : list Suggestion) :
  isActive now u = false ->
  ~ In id (map s_id
             (filter (isActive now)
                     (map (fun s => if hasSuggestionId id s then u else s) l))).
Proof.
  intro Hu. induction l as [|s l IH]; simpl; [intros []|].
  destruct (hasSuggestionId id s) eqn:E.
  - rewrite Hu. exact IH.
  - destruct (isActive now s); [|exact IH].
    simpl. intros [H | H]; [|exact (IH H)].
    unfold hasSuggestionId in E. apply String.eqb_neq in E. contradiction.
Qed.

(** X20.  After [applySuggestion] or [dismissSuggestion] no active suggestion
    carries the id, whatever the state was.  When a suggestion with the id
    exists its updated copy is appended to the history, on every call: the
    store does not check whether it was applied or dismissed before.  When none
    exists the state is unchanged. *)
Theorem apply_or_dismiss_deactivates (now : Z) (id : string) (state : SuggestionsState) :
  ~ In id (map s_id (getActiveSuggestions now (applySuggestion id state)))
  /\ ~ In id (map s_id (getActiveSuggestions now (dismissSuggestion id state)))
  /\ match Js.find (hasSuggestionId id) (suggestions state) with
     | Some s =>
         suggestionsHistory (applySuggestion id state)
         = suggestionsHistory state ++ [setApplied s]
         /\ suggestionsHistory (dismissSuggestion id state)
            = suggestionsHistory state ++ [setDismissed s]
     | None => applySuggestion id state = state /\ dismissSuggestion id state = state
     end.
Proof.
  unfold applySuggestion, dismissSuggestion, getActiveSuggestions.
  destruct (Js.find (hasSuggestionId id) (suggestions state)) as [s|] eqn:Hfind; simpl.
  - split; [|split; [|split; reflexivity]].
    + apply replaced_not_active. reflexivity.
    + apply replaced_not_active. unfold isActive. simpl.
      rewrite andb_false_r. reflexivity.
  - pose proof (suggestion_id_absent id _ Hfind) as Hnot.
    assert (H : ~ In id (map s_id (filter (isActive now) (suggestions state)))).
    { intro Hin. apply Hnot. apply in_map_iff in Hin. destruct Hin as (s & Hid & Hs).
      apply filter_In in Hs. apply in_map_iff. exists s. tauto. }
    repeat split; assumption.
Qed.

Lemma retained_idempotent (l : list Suggestion) (fresh : list Suggestion) :
  Forall (fun s => s_isApplied s = false /\ s_isDismissed s = false) fresh ->
  filter (fun s => s_isApplied s || s_isDismissed s)
         (filter (fun s => s_isApplied s || s_isDismissed s) l ++ fresh)
  = filter (fun s => s_isApplied s || s_isDismissed s) l.
Proof.
  intro Hfresh. rewrite filter_app.
  replace (filter (fun s => s_isApplied s || s_isDismissed s) fresh) with (@nil Suggestion).
  - rewrite app_nil_r. induction l as [|s l IH]; simpl; [reflexivity|].
    destruct (s_isApplied s || s_isDismissed s) eqn:E; simpl; [rewrite E, IH|]; auto.
  - symmetry. induction Hfresh as [|s fresh [Ha Hd] _ IH]; simpl; [reflexivity|].
    rewrite Ha, Hd. simpl. exact IH.
Qed.

Lemma mkAll_fresh (now : Z) (genId : nat -> string) (inputs : list SuggestionInput) :
  forall k, Forall (fun s => s_isApplied s = false /\ s_isDismissed s = false)
                   (mkAll now genId k inputs).
Proof.
  induction inputs as [|input rest IH]; intro k; simpl; constructor;
    [split; reflexivity | apply IH].
Qed.

(** X21.  A regeneration replaces the previous one entirely: generating twice
    gives the same store as generating once with the second context.  The
    history is never touched by a generation, and suggestions that were applied
    or dismissed stay in the list. *)
Theorem generateSuggestions_overwrites (now1 now2 : Z) (genId1 genId2 : nat -> string)
    (context1 context2 : FinancialContext) (analytics1 analytics2 : option SpendingAnalytics)
    (state : SuggestionsState) :
  generateSuggestions now2 genId2 context2 analytics2
    (generateSuggestions now1 genId1 context1 analytics1 state)
  = generateSuggestions now2 genId2 context2 analytics2 state
  /\ suggestionsHistory (generateSuggestions now1 genId1 context1 analytics1 state)
     = suggestionsHistory state
  /\ Forall (fun s => s_isApplied s || s_isDismissed s = true ->
                      In s (suggestions
                              (generateSuggestions now1 genId1 context1 analytics1 state)))
            (suggestions state).
Proof.
  assert (Hhist : forall now genId inputs k st,
             suggestionsHistory (addAll now genId k inputs st) = suggestionsHistory st).
  { intros now genId inputs. induction inputs as [|i rest IH]; intros k st; simpl;
      [reflexivity | rewrite IH; reflexivity]. }
  assert (Hgen : forall now genId context analytics st,
             generateSuggestions now genId context analytics st
             = {| suggestions :=
                    filter (fun s => s_isApplied s || s_isDismissed s) (suggestions st)
                    ++ mkAll now genId 0
                         (MockAIService.generateSuggestions context analytics
                          ++ generateRuleBasedSuggestions context);
                  suggestionsHistory := suggestionsHistory st;
                  lastGenerated := Some now |}).
  { intros now genId context analytics st.
    rewrite <- generateSuggestions_suggestions.
    unfold generateSuggestions. rewrite Hhist. reflexivity. }
  split; [|split].
  - rewrite (Hgen now2), (Hgen now1), (Hgen now2). simpl.
    rewrite retained_idempotent by apply mkAll_fresh. reflexivity.
  - rewrite Hgen. reflexivity.
  - apply Forall_forall. intros s Hs Hhandled.
    rewrite Hgen. simpl. apply in_or_app. left. apply filter_In. split; assumption.
Qed.

(** X22.  Every suggestion the two generators produce carries an explicit
    priority, a confidence score between 0 and 1, and no expiry date. *)
Theorem generated_suggestions_wellformed (context : FinancialContext)
    (analytics : option SpendingAnalytics) :
  Forall (fun input =>
            si_priority input <> None
            /\ (Js.leb 0 (confidenceScore (si_impact input)) = true
                /\ Js.leb (confidenceScore (si_impact input)) 1 = true)
            /\ si_expiresAt input = None)
         (MockAIService.generateSuggestions context analytics
          ++ generateRuleBasedSuggestions context).
Proof.
  unfold MockAIService.generateSuggestions, generateRuleBasedSuggestions.
  repeat (apply Forall_app; split);
    try (apply pushIf_Forall; simpl;
         split; [discriminate | split; [split; vm_compute; reflexivity | reflexivity]]).
  - destruct analytics as [an|]; [|constructor].
    destruct (categoryBreakdown an); [constructor|].
    apply pushIf_Forall. simpl.
    split; [discriminate | split; [split; vm_compute; reflexivity | reflexivity]].
  - constructor; [|constructor]. simpl.
    split; [discriminate | split; [split; vm_compute; reflexivity | reflexivity]].
  - destruct (topCategories context); constructor; [|constructor]. simpl.
    split; [discriminate | split; [split; vm_compute; reflexivity | reflexivity]].
Qed.

Lemma hasSuggestionType_app (type : SuggestionType) (l1 l2 : list SuggestionInput) :
  hasSuggestionType type (l1 ++ l2) = hasSuggestionType type l1 || hasSuggestionType type l2.
Proof. unfold hasSuggestionType. apply existsb_app. Qed.

Lemma hasSuggestionType_pushIf (type : SuggestionType) (cond : bool) (x : SuggestionInput) :
  hasSuggestionType type (pushIf cond x) = cond && SuggestionType_eqb (si_type x) type.
Proof. destruct cond; simpl; [apply orb_false_r | reflexivity]. Qed.

Lemma rules_by_type (context : FinancialContext) :
  hasSuggestionType EMERGENCY (generateRuleBasedSuggestions context)
  = Js.ltb (balance context) (Js.mul (ctx_salary context) (Js.frac 1 10))
  /\ hasSuggestionType INVESTMENT (generateRuleBasedSuggestions context)
     = Js.gtb (balance context) (Js.mul (ctx_salary context) (Js.frac 5 10))
       && Js.gtb (daysLeft context) 20
  /\ hasSuggestionType SAVINGS (generateRuleBasedSuggestions context)
     = Js.gtb (daysLeft context) 25
  /\ hasSuggestionType BUDGET_ADJUSTMENT (generateRuleBasedSuggestions context)
     = Js.ltb (daysLeft context) 10 && Js.gtb (daysLeft context) 0.
Proof.
  unfold generateRuleBasedSuggestions. cbv zeta.
  rewrite !hasSuggestionType_app, !hasSuggestionType_pushIf.
  destruct (topCategories context);
    cbn [hasSuggestionType existsb si_type SuggestionType_eqb orb andb];
    rewrite ?andb_false_r, ?andb_true_r, ?orb_false_r;
    cbn [orb]; rewrite ?andb_false_r, ?andb_true_r, ?orb_false_r;
    repeat split; reflexivity.
Qed.

(** X23.  The rule-based generator never proposes a budget adjustment together
    with an investment or a savings suggestion; and it proposes an investment
    while in emergency mode only when [salary * 0.5 < salary * 0.1] in double
    arithmetic, as for a negative salary. *)
Theorem rule_based_exclusions (context : FinancialContext) :
  hasSuggestionType BUDGET_ADJUSTMENT (generateRuleBasedSuggestions context)
  && (hasSuggestionType INVESTMENT (generateRuleBasedSuggestions context)
      || hasSuggestionType SAVINGS (generateRuleBasedSuggestions context)) = false
  /\ (hasSuggestionType EMERGENCY (generateRuleBasedSuggestions context)
      && hasSuggestionType INVESTMENT (generateRuleBasedSuggestions context) = true ->
      Js.ltb (Js.mul (ctx_salary context) (Js.frac 5 10))
             (Js.mul (ctx_salary context) (Js.frac 1 10)) = true).
Proof.
  destruct (rules_by_type context) as (-> & -> & -> & ->).
  assert (Hdays : forall a b : Z,
             Js.ltb (Js.ofZ a) (Js.ofZ b) = false ->
             Js.ltb (daysLeft context) (Js.ofZ b) = true ->
             Js.gtb (daysLeft context) (Js.ofZ a) = true -> False).
  { intros a b Hab Hlt Hgt. unfold Js.gtb in Hgt.
    rewrite (ltb_trans _ _ _ Hgt Hlt) in Hab. discriminate Hab. }
  split.
  - destruct (Js.ltb (daysLeft context) 10) eqn:H10; [|reflexivity].
    destruct (Js.gtb (daysLeft context) 20) eqn:H20;
      [exfalso; exact (Hdays 20 10 eq_refl H10 H20)|].
    destruct (Js.gtb (daysLeft context) 25) eqn:H25;
      [exfalso; exact (Hdays 25 10 eq_refl H10 H25)|].
    rewrite andb_false_r. cbn [orb]. apply andb_false_r.
  - intro H. apply andb_true_iff in H. destruct H as [Hem Hinv].
    apply andb_true_iff in Hinv. destruct Hinv as [Hinv _].
    unfold Js.gtb in Hinv. exact (ltb_trans _ _ _ Hinv Hem).
Qed.

Lemma rule_based_exclusions_witness :
  hasSuggestionType EMERGENCY (generateRuleBasedSuggestions negativeSalaryContext)
  && hasSuggestionType INVESTMENT (generateRuleBasedSuggestions negativeSalaryContext) = true
  /\ Js.ltb (Js.mul (ctx_salary negativeSalaryContext) (Js.frac 5 10))
            (Js.mul (ctx_salary negativeSalaryContext) (Js.frac 1 10)) = true.
Proof.
  assert (H : hasSuggestionType EMERGENCY (generateRuleBasedSuggestions negativeSalaryContext)
              && hasSuggestionType INVESTMENT
                   (generateRuleBasedSuggestions negativeSalaryContext) = true)
    by (vm_compute; reflexivity).
  split; [exact H|].
  destruct (rule_based_exclusions negativeSalaryContext) as [_ Hex].
  exact (Hex H).
Defined.

(** X24.  A persist/reload round trip of the suggestion store drops the
    active suggestions and keeps the first 20 history entries, which are the
    oldest: once the history holds 20 entries, a suggestion applied afterwards
    is recorded in memory and missing after a reload. *)
Theorem applied_suggestion_not_persisted (id : string) (s : Suggestion)
    (state : SuggestionsState) :
  (20 <= List.length (suggestionsHistory state))%nat ->
  Js.find (hasSuggestionId id) (suggestions state) = Some s ->
  suggestionsHistory (applySuggestion id state) = suggestionsHistory state ++ [setApplied s]
  /\ suggestionsHistory (reloadSuggestions (applySuggestion id state))
     = firstn 20 (suggestionsHistory state)
  /\ suggestions (reloadSuggestions (applySuggestion id state)) = []
  /\ (List.length (suggestionsHistory (reloadSuggestions (applySuggestion id state)))
      <= 20)%nat.
Proof.
  intros Hfull Hfind.
  assert (Hhist : suggestionsHistory (applySuggestion id state)
                  = suggestionsHistory state ++ [setApplied s])
    by (unfold applySuggestion; rewrite Hfind; reflexivity).
  assert (Hkept : suggestionsHistory (reloadSuggestions (applySuggestion id state))
                  = firstn 20 (suggestionsHistory state)).
  { unfold reloadSuggestions, loadSuggestions, suggestionsPartialize.
    cbn [suggestionsHistory ps_suggestionsHistory]. rewrite Hhist.
    rewrite firstn_firstn. simpl Nat.min.
    rewrite firstn_app.
    replace (20 - List.length (suggestionsHistory state))%nat with 0%nat by lia.
    simpl. apply app_nil_r. }
  split; [exact Hhist|]. split; [exact Hkept|]. split; [reflexivity|].
  rewrite Hkept. apply firstn_le_length.
Qed.

Lemma applied_suggestion_not_persisted_witness :
  suggestionsHistory (reloadSuggestions (applySuggestion "s0" fullHistory))
  = firstn 20 (suggestionsHistory fullHistory).
Proof.
  assert (Hfull : (20 <= List.length (suggestionsHistory fullHistory))%nat)
    by (vm_compute; lia).
  assert (Hfind : exists s, Js.find (hasSuggestionId "s0") (suggestions fullHistory) = Some s).
  { vm_compute. eexists. reflexivity. }
  destruct Hfind as [s Hfind].
  destruct (applied_suggestion_not_persisted "s0" s fullHistory Hfull Hfind)
    as (_ & Hkept & _).
  exact Hkept.
Defined.
(** ** The achievement service *)

Lemma updateProgress_keeps (now : Z) (increment : Js.number) (a : Achievement) :
  keepsIdentity a (result (updateProgress now increment a))
  /\ Forall (eq achievementPush) (effects (updateProgress now increment a))
  /\ (List.length (effects (updateProgress now increment a))
      + (if isLocked (result (updateProgress now increment a)) then 1 else 0)
      = (if isLocked a then 1 else 0))%nat.
Proof.
  destruct (updateProgress_id now increment a) as [Hid Htitle].
  pose proof (updateProgress_target now increment a) as Htarget.
  pose proof (updateProgress_unlockedAt now increment a) as Hunlocked.
  pose proof (updateProgress_effects now increment a) as Heffects.
  unfold keepsIdentity, isLocked. rewrite Heffects, Hunlocked.
  split; [|split].
  - split; [exact Hid|]. split; [exact Htitle|]. split; [exact Htarget|].
    intros t Ht. rewrite Ht. reflexivity.
  - destruct (Js.geb _ 100 && _); repeat constructor.
  - destruct (a_unlockedAt a) as [t|].
    + rewrite andb_false_r. reflexivity.
    + rewrite andb_true_r. destruct (Js.geb _ 100); reflexivity.
Qed.

Lemma keepsIdentity_refl (a : Achievement) : keepsIdentity a a.
Proof. repeat split; auto. Qed.

Lemma keepsIdentity_trans (a b c : Achievement) :
  keepsIdentity a b -> keepsIdentity b c -> keepsIdentity a c.
Proof.
  intros (H1 & H2 & H3 & H4) (G1 & G2 & G3 & G4).
  repeat split; try congruence.
  intros t Ht. apply G4, H4, Ht.
Qed.

Lemma Forall2_keepsIdentity_refl (table : list Achievement) :
  Forall2 keepsIdentity table table.
Proof. induction table; constructor; auto using keepsIdentity_refl. Qed.

Lemma Forall2_keepsIdentity_trans (t1 t2 t3 : list Achievement) :
  Forall2 keepsIdentity t1 t2 -> Forall2 keepsIdentity t2 t3 ->
  Forall2 keepsIdentity t1 t3.
Proof.
  intro H. revert t3. induction H as [|a b l1 l2 Hab _ IH]; intros t3 H23.
  - inversion H23. constructor.
  - inversion H23 as [|? c ? l3 Hbc Hrest]; subst.
    constructor; [eapply keepsIdentity_trans; eassumption | apply IH, Hrest].
Qed.

Lemma keepsTable_ret : keepsTable (fun table => ret table).
Proof.
  intro table. simpl. repeat split; [apply Forall2_keepsIdentity_refl | constructor].
Qed.

Lemma keepsTable_bind (f g : list Achievement -> Eff (list Achievement)) :
  keepsTable f -> keepsTable g -> keepsTable (fun table => bind (f table) g).
Proof.
  intros Hf Hg table.
  destruct (Hf table) as (F1 & F2 & F3).
  destruct (Hg (result (f table))) as (G1 & G2 & G3).
  rewrite result_bind, effects_bind. repeat split.
  - eapply Forall2_keepsIdentity_trans; eassumption.
  - apply Forall_app. split; assumption.
  - rewrite length_app. lia.
Qed.

Lemma keepsTable_if (b : bool) (f g : list Achievement -> Eff (list Achievement)) :
  keepsTable f -> keepsTable g -> keepsTable (fun table => if b then f table else g table).
Proof. intros Hf Hg. destruct b; assumption. Qed.

Lemma keepsTable_update (now : Z) (id : string) (increment : Js.number) :
  keepsTable (updateAchievementProgress now id increment).
Proof.
  intro table. induction table as [|a rest IH]; simpl.
  - repeat split; constructor.
  - destruct (String.eqb (a_id a) id).
    + destruct (updateProgress_keeps now increment a) as (K1 & K2 & K3).
      rewrite result_bind, effects_bind. simpl. rewrite app_nil_r.
      repeat split.
      * constructor; [exact K1 | apply Forall2_keepsIdentity_refl].
      * exact K2.
      * unfold lockedCount in *. simpl.
        destruct (isLocked (result (updateProgress now increment a)));
          destruct (isLocked a); simpl in *; lia.
    + destruct IH as (I1 & I2 & I3).
      rewrite result_bind, effects_bind. simpl. rewrite app_nil_r.
      repeat split.
      * constructor; [apply keepsIdentity_refl | exact I1].
      * exact I2.
      * unfold lockedCount in *. simpl. destruct (isLocked a); simpl; lia.
Qed.

Lemma keepsTable_checkSavingsStreak (localDay : Z -> Z) (now : Z) (app : AppState) :
  keepsTable (checkSavingsStreak localDay now app).
Proof.
  unfold checkSavingsStreak. cbv zeta.
  apply (keepsTable_bind
           (fun table => if (7 <=? _)%nat then _ else ret table)
           (fun table1 => if (30 <=? _)%nat then _ else ret table1)).
  - apply keepsTable_if; [apply keepsTable_update | apply keepsTable_ret].
  - apply keepsTable_if; [apply keepsTable_update | apply keepsTable_ret].
Qed.

Lemma keepsTable_runAchievementChecks (localDay : Z -> Z) (now : Z) (app : AppState) :
  keepsTable (runAchievementChecks localDay now app).
Proof.
  unfold runAchievementChecks.
  apply keepsTable_bind; [apply keepsTable_checkSavingsStreak|].
  apply keepsTable_bind; [apply keepsTable_update|].
  apply keepsTable_bind; [apply keepsTable_update|].
  apply keepsTable_bind;
    [unfold checkFuelEfficient; apply keepsTable_if;
     [apply keepsTable_update | apply keepsTable_ret]|].
  apply keepsTable_bind; [apply keepsTable_update|].
  apply keepsTable_update.
Qed.

(** X25.  Whatever check of the achievement service an action calls, on any
    app state and any table: every achievement keeps its id, title and target
    and, once unlocked, its unlock date; the only effects are achievement
    notifications; and exactly one is sent per achievement that goes from
    locked to unlocked. *)
Theorem achievement_checks_keep_table (localDay : Z -> Z) (now : Z) (app : AppState)
    (call : AchievementCheck) (table : list Achievement) :
  let run := performAchievementCall localDay now app call table in
  Forall2 keepsIdentity table (result run)
  /\ Forall (eq achievementPush) (effects run)
  /\ (List.length (effects run) + lockedCount (result run) = lockedCount table)%nat.
Proof.
  cbv zeta.
  destruct call; simpl.
  - apply (keepsTable_update now "emergency-fund-10k" (currentBalance app)).
  - apply (keepsTable_update now "expense-logger-100").
  - apply (keepsTable_update now "bill-tracker-10").
  - apply keepsTable_runAchievementChecks.
Qed.


(** ** The notification service *)

Lemma ceil_days_eqb (d k : Z) :
  (Exact.Math_ceil (inject_Z d / inject_Z (1000 * 60 * 60 * 24)) =? k)
  = ((k - 1) * msPerDay <? d) && (d <=? k * msPerDay).
Proof.
  unfold Exact.Math_ceil, Qceiling, msPerDay.
  change (inject_Z (1000 * 60 * 60 * 24)) with (86400000 # 1)%Q.
  unfold Qdiv, Qinv, Qmult, Qopp, Qfloor, inject_Z. cbn [Qnum Qden].
  change (24 * 60 * 60 * 1000) with 86400000.
  rewrite !Z.mul_1_r.
  change (Z.pos (1 * 86400000)) with 86400000.
  destruct (Z.eqb _ k) eqn:E.
  - apply Z.eqb_eq in E. symmetry. apply andb_true_iff.
    rewrite Z.ltb_lt, Z.leb_le.
    Z.to_euclidean_division_equations. lia.
  - apply Z.eqb_neq in E. symmetry. apply andb_false_iff.
    rewrite Z.ltb_ge, Z.leb_gt.
    Z.to_euclidean_division_equations. lia.
Qed.

Lemma billDue_one (now : Z) (bill : RecurringBill) (sent : Eff unit) :
  effects
    (sent ;;;
     if negb (bill_isActive bill) then ret tt
     else
       let dueDate := date_ms (bill_nextDueDate bill) in
       let diffTime := dueDate - now in
       let diffDays := Exact.Math_ceil (inject_Z diffTime / inject_Z (1000 * 60 * 60 * 24)) in
       (if diffDays =? 1
        then emit (SendImmediate "Bill Due Tomorrow" "bill_due")
        else ret tt) ;;;
       (if diffDays =? 0
        then emit (SendImmediate "Bill Due Today" "bill_due")
        else ret tt))
  = effects sent ++ billDuePushes now bill.
Proof.
  rewrite effects_bind. f_equal. unfold billDuePushes. cbv zeta.
  destruct (bill_isActive bill); [|reflexivity]. cbn [negb].
  rewrite effects_bind.
  rewrite !ceil_days_eqb.
  change ((1 - 1) * msPerDay) with 0.
  change (1 * msPerDay) with msPerDay.
  change ((0 - 1) * msPerDay) with (- msPerDay).
  change (0 * msPerDay) with 0.
  set (diff := date_ms (bill_nextDueDate bill) - now).
  destruct (0 <? diff) eqn:E1; destruct (diff <=? msPerDay) eqn:E2;
    destruct (- msPerDay <? diff) eqn:E3; destruct (diff <=? 0) eqn:E4;
    try reflexivity.
  exfalso. apply Z.ltb_lt in E1. apply Z.leb_le in E4. lia.
Qed.

(** X27.  [generateBillDueNotifications] sends, for each active bill in order,
    "Bill Due Tomorrow" exactly when the due instant is later than now by at
    most 24 hours, and "Bill Due Today" exactly when it is now or less than 24
    hours ago; an inactive bill, or one outside both windows, sends nothing. *)
Theorem generateBillDueNotifications_windows (now : Z) (app : AppState) :
  effects (generateBillDueNotifications now app)
  = flat_map (billDuePushes now) (recurringBills app).
Proof.
  unfold generateBillDueNotifications.
  set (step := fun (sent : Eff unit) (bill : RecurringBill) => bind sent _).
  assert (Hall : forall bills sent,
             effects (fold_left step bills sent)
             = effects sent ++ flat_map (billDuePushes now) bills).
  { induction bills as [|bill bills IH]; intro sent.
    - simpl. rewrite app_nil_r. reflexivity.
    - cbn [fold_left flat_map]. rewrite IH. unfold step at 1.
      rewrite billDue_one, app_assoc. reflexivity. }
  apply Hall.
Qed.

Lemma date_ms_json (d : DateValue) : date_ms (json_date d) = date_ms d.
Proof. destruct d; reflexivity. Qed.

Lemma filter_map_json (p : Z -> bool) (es : list Expense) :
  filter (fun e => p (date_ms (exp_date e))) (map json_expense es)
  = map json_expense (filter (fun e => p (date_ms (exp_date e))) es).
Proof.
  induction es as [|e es IH]; simpl; [reflexivity|].
  rewrite date_ms_json.
  destruct (p (date_ms (exp_date e))); simpl; rewrite IH; reflexivity.
Qed.

Lemma map_json_amounts (es : list Expense) :
  Forall (fun e => json_number (exp_amount e) = exp_amount e) es ->
  map exp_amount (map json_expense es) = map exp_amount es.
Proof.
  induction 1 as [|e es He _ IH]; [reflexivity|].
  cbn [map json_expense exp_amount]. rewrite He, IH. reflexivity.
Qed.

Lemma reduce_sum_map {A : Type} (f : A -> Js.number) (xs : list A) :
  Js.reduce_sum f xs = fold_left Js.add (map f xs) (Js.ofZ 0).
Proof.
  unfold Js.reduce_sum. generalize (Js.ofZ 0).
  induction xs as [|x xs IH]; intro acc; [reflexivity|]. cbn [map fold_left]. apply IH.
Qed.

(** X28.  The notification service parses the date of every expense and bill
    it reads ([new Date(x)]), so its bill reminders are the same before and
    after the state is saved and loaded again, and so is its weekly summary
    when every expense amount is a number that JSON keeps (finite, and not
    [-0]). *)
Theorem service_reads_survive_reload (now : Z) (s : AppState) :
  generateBillDueNotifications now (reload s) = generateBillDueNotifications now s
  /\ (Forall (fun e => json_number (exp_amount e) = exp_amount e) (expenses s) ->
      generateWeeklySummary now (reload s) = generateWeeklySummary now s).
Proof.
  split.
  - unfold generateBillDueNotifications.
    change (recurringBills (reload s)) with (map json_bill (recurringBills s)).
    set (step := fun (sent : Eff unit) (bill : RecurringBill) => bind sent _).
    assert (Hall : forall bills sent,
               fold_left step (map json_bill bills) sent = fold_left step bills sent).
    { induction bills as [|bill bills IH]; intro sent; [reflexivity|].
      cbn [map fold_left]. rewrite IH. f_equal.
      unfold step. cbn [json_bill bill_isActive bill_nextDueDate].
      rewrite date_ms_json. reflexivity. }
    apply Hall.
  - intro Hkept. unfold generateWeeklySummary. cbv zeta.
    change (expenses (reload s)) with (map json_expense (expenses s)).
    rewrite (filter_map_json
               (fun ms => (now - 7 * 24 * 60 * 60 * 1000 <=? ms) && (ms <=? now))).
    rewrite !reduce_sum_map. rewrite map_json_amounts; [reflexivity|].
    apply Forall_forall. intros e He. apply filter_In in He. destruct He as [He _].
    exact (proj1 (Forall_forall _ _) Hkept e He).
Qed.

Lemma service_reads_survive_reload_witness :
  Forall (fun e => json_number (exp_amount e) = exp_amount e) (expenses oneExpense)
  /\ generateWeeklySummary t0 (reload oneExpense) = generateWeeklySummary t0 oneExpense.
Proof.
  assert (H : Forall (fun e => json_number (exp_amount e) = exp_amount e)
                     (expenses oneExpense)).
  { vm_compute. repeat constructor. }
  split; [exact H|].
  destruct (service_reads_survive_reload t0 oneExpense) as [_ Hweek].
  exact (Hweek H).
Defined.

(** An amount that JSON does not keep changes the summary: [NaN] is written
    as [null], which counts as 0 in the sum after the reload. *)
Lemma weekly_summary_changes_with_NaN :
  effects (generateWeeklySummary t0 nanWeek) = []
  /\ effects (generateWeeklySummary t0 (reload nanWeek))
     = [SendImmediate "Weekly Spending Summary" "weekly_summary"].
Proof. split; vm_compute; reflexivity. Qed.

Lemma mul_positive_not_negative (x : Js.number) :
  Js.gtb x 0 = true -> Js.gtb 0 (Js.mul x 2) = false.
Proof.
  intro Hx. destruct x as [s|s| |s m e]; try destruct s; try discriminate Hx.
  - reflexivity.
  - change (Js.ofZ 2) with (S754_finite false 4503599627370496 (- 51)).
    unfold Js.mul, SFmul, binary_round_aux. cbn [xorb].
    destruct (shr_fexp _ _ _ _ _) as [mrs1 e1].
    destruct (shr_fexp _ _ _ _ _) as [mrs2 e2].
    destruct (shr_m mrs2); [reflexivity| |reflexivity].
    destruct (e2 <=? _); reflexivity.
Qed.

(** X29.  [generateSpendingAlerts] sends at most one push.  With no expense
    dated today it is the reminder to log expenses, and never the
    high-spending alert; with an expense dated today it is the high-spending
    alert when the stored average is positive and today's total is more than
    twice the average, and nothing otherwise. *)
Theorem generateSpendingAlerts_pushes (localDay : Z -> Z) (now : Z) (app : AppState) :
  let todaysExpenses :=
    filter (fun e => localDay (date_ms (exp_date e)) =? localDay now)
           (expenses app) in
  effects (generateSpendingAlerts localDay now app)
  = match todaysExpenses with
    | [] => [SendImmediate "Log Your Expenses" "expense_reminder"]
    | _ :: _ =>
        if Js.gtb (averageDailySpend app) 0
           && Js.gtb (Js.reduce_sum exp_amount todaysExpenses)
                     (Js.mul (averageDailySpend app) 2)
        then [SendImmediate "High Spending Day!" "high_spending"]
        else []
    end.
Proof.
  cbv zeta. unfold generateSpendingAlerts. cbv zeta.
  rewrite effects_bind.
  destruct (filter _ (expenses app)) as [|e todays].
  - cbn [List.length Nat.eqb]. unfold Js.reduce_sum. cbn [fold_left].
    destruct (Js.gtb (averageDailySpend app) 0) eqn:Havg; [|reflexivity].
    rewrite (mul_positive_not_negative _ Havg). reflexivity.
  - cbn [List.length Nat.eqb].
    destruct (Js.gtb (averageDailySpend app) 0 && _); reflexivity.
Qed.
